(** * Cactus deployment artifacts: a model of [cactus/file.py]

    The class [File] of [cactus/file.py] decides, for one built artifact,
    whether it has to be pushed to the bucket, and pushes it.  The
    development below embeds the class in a state-and-exception monad
    over the mutable attributes of the [File] object and a trace of the
    calls it makes to its collaborators (file system, compressor, HTTP
    HEAD request, plugin hook, bucket key, logger, sleep).

    The code is Python 2: [str] is a byte string, modelled by [string];
    integers are unbounded, modelled by [Z]; a [dict] is a [gmap]. *)

From Stdlib Require Import ZArith Ascii String List Sorted Lia DecimalString.
From stdpp Require Import base option list gmap strings fin_maps.

Import ListNotations.
Local Open Scope string_scope.
Local Open Scope Z_scope.

(** ** Python string primitives used by the class *)

Module PyStr.

(** [len(s)] *)
Definition len (s : string) : Z := Z.of_nat (String.length s).

(** [c.lower()] on one byte (C locale: only [A-Z] move). *)
Definition lower_ascii (c : ascii) : ascii :=
  let n := nat_of_ascii c in
  if ((65 <=? n)%nat && (n <=? 90)%nat)%bool
  then ascii_of_nat (n + 32) else c.

(** [s.lower()] *)
Fixpoint lower (s : string) : string :=
  match s with
  | EmptyString => EmptyString
  | String c t => String (lower_ascii c) (lower t)
  end.

(** [s.lstrip(c)] for a one-character set. *)
Fixpoint lstrip (c : ascii) (s : string) : string :=
  match s with
  | EmptyString => EmptyString
  | String a t => if Ascii.eqb a c then lstrip c t else s
  end.

(** [s.rstrip(c)] for a one-character set. *)
Fixpoint rstrip (c : ascii) (s : string) : string :=
  match s with
  | EmptyString => EmptyString
  | String a t =>
      match rstrip c t with
      | EmptyString => if Ascii.eqb a c then EmptyString else String a EmptyString
      | r => String a r
      end
  end.

(** [s.strip(c)] for a one-character set. *)
Definition strip (c : ascii) (s : string) : string := rstrip c (lstrip c s).

(** [s.rfind(c)]: the highest index of [c] in [s], [-1] when absent.
    [rfind_from] scans left to right from index [i], remembering the
    last hit. *)
Fixpoint rfind_from (c : ascii) (s : string) (i last : Z) : Z :=
  match s with
  | EmptyString => last
  | String a t => rfind_from c t (i + 1) (if Ascii.eqb a c then i else last)
  end.

Definition rfind (c : ascii) (s : string) : Z := rfind_from c s 0 (-1).

(** [s[i]] for [0 <= i < len(s)]. *)
Definition at_index (s : string) (i : Z) : option ascii :=
  if i <? 0 then None else String.get (Z.to_nat i) s.

(** [s[:i]] and [s[i:]] for [0 <= i]. *)
Fixpoint take (n : nat) (s : string) : string :=
  match n, s with
  | S k, String a t => String a (take k t)
  | _, _ => EmptyString
  end.

Fixpoint drop (n : nat) (s : string) : string :=
  match n, s with
  | S k, String _ t => drop k t
  | _, _ => s
  end.

(** ['%s' % n] for an integer [n]. *)
Definition str_of_Z (n : Z) : string := NilEmpty.string_of_int (Z.to_int n).

(** [s.startswith('/')], [s.endswith('/')] *)
Definition startswith_slash (s : string) : bool :=
  match s with
  | String a _ => Ascii.eqb a "/"
  | EmptyString => false
  end.

Fixpoint endswith_slash (s : string) : bool :=
  match s with
  | EmptyString => false
  | String a EmptyString => Ascii.eqb a "/"
  | String _ t => endswith_slash t
  end.

End PyStr.

(** ** [os.path] (posixpath) functions used by the class *)

Module OsPath.
Import PyStr.

(** The loop of [genericpath._splitext] that skips the leading dots of
    the file name: from index [i], is there a character other than the
    dot strictly before [dotIndex]?  [fuel] bounds the number of
    iterations by [dotIndex - i]. *)
Fixpoint has_stem (fuel : nat) (p : string) (i dotIndex : Z) : bool :=
  match fuel with
  | O => false
  | S k =>
      if i <? dotIndex then
        match at_index p i with
        | Some a => if Ascii.eqb a "." then has_stem k p (i + 1) dotIndex else true
        | None => false
        end
      else false
  end.

(** [os.path.splitext(p)] *)
Definition splitext (p : string) : string * string :=
  let sepIndex := rfind "/" p in
  let dotIndex := rfind "." p in
  if sepIndex <? dotIndex then
    let filenameIndex := sepIndex + 1 in
    if has_stem (Z.to_nat (dotIndex - filenameIndex)) p filenameIndex dotIndex
    then (take (Z.to_nat dotIndex) p, drop (Z.to_nat dotIndex) p)
    else (p, "")
  else (p, "").

(** One step of [os.path.join]: [path] joined with the component [b]. *)
Definition join2 (path b : string) : string :=
  if startswith_slash b then b
  else if (String.eqb path "" || endswith_slash path)%bool then path +:+ b
  else path +:+ "/" +:+ b.

(** [os.path.join(a, b, c)] *)
Definition join3 (a b c : string) : string := join2 (join2 a b) c.

End OsPath.

(** ** Exceptions, results and the trace of collaborator calls *)

(** The exception classes the class can meet.  [SocketError] stands for
    [socket.error] and its subclasses, the class named in the [@retry]
    decoration; [OtherError] for any other class a collaborator raises
    (a rejected request, a failing plugin, ...). *)
Inductive exn : Type :=
| IOError
| SocketError
| AttributeError
| ZeroDivisionError
| OtherError (name : string).

Inductive result (A : Type) : Type :=
| Ok (a : A)
| Raise (e : exn).
Arguments Ok {A} a.
Arguments Raise {A} e.

(** What the [File] object asks of the outside world, in call order. *)
Inductive event : Type :=
| EvRead (fullpath : string)
| EvCompress (raw : string)
| EvHook (path : string)
| EvFetch (url : string)
| EvPut (key : string) (content_type : option string) (body : string)
        (hdrs : gmap string string) (policy : string)
        (cb : bool) (num_cb : Z)
| EvLogProgress (path : string) (current total : Z)
| EvLogSummary (changed : bool) (path : string) (raw_size : Z)
               (compressed_size : option Z)
| EvSleep (seconds : Z).

Definition is_hook (e : event) : bool :=
  match e with EvHook _ => true | _ => false end.
Definition is_fetch (e : event) : bool :=
  match e with EvFetch _ => true | _ => false end.
Definition is_put (e : event) : bool :=
  match e with EvPut _ _ _ _ _ _ _ => true | _ => false end.
Definition is_sleep (e : event) : bool :=
  match e with EvSleep _ => true | _ => false end.
Definition is_compress (e : event) : bool :=
  match e with EvCompress _ => true | _ => false end.
Definition is_read (e : event) : bool :=
  match e with EvRead _ => true | _ => false end.
Definition is_progress (e : event) : bool :=
  match e with EvLogProgress _ _ _ => true | _ => false end.
Definition is_summary (e : event) : bool :=
  match e with EvLogSummary _ _ _ _ => true | _ => false end.

(** Number of events of one kind in a trace. *)
Definition count (p : event -> bool) (tr : list event) : nat :=
  length (List.filter p tr).

(** The delays handed to [time.sleep], in order. *)
Definition sleeps (tr : list event) : list Z :=
  flat_map (fun e => match e with EvSleep d => [d] | _ => [] end) tr.

(** The byte counts of the progress lines logged, in order. *)
Definition progress_logged (tr : list event) : list Z :=
  flat_map (fun e => match e with EvLogProgress _ c _ => [c] | _ => [] end) tr.

(** The outside world.  Collaborators that can fail are scripted by the
    number of earlier calls of the same kind: [env_put n] says what the
    [n]-th call of [set_contents_from_string] (counting from 0) reports
    to its progress callback and whether it raises.  The plugins are
    handed the object itself: [env_hook n] says whether the [n]-th call
    of the hook raises, [hook_headers] which headers a call that returns
    has assigned to the object ([file.headers[name] = value]), in
    order. *)
Record Env : Type := {
  env_read : string -> option string;
  compressString : string -> string;
  md5_hexdigest : string -> string;
  mime_guess : string -> option string;
  env_hook : nat -> option exn;
  hook_headers : list (string * string);
  env_head : nat -> result (list (string * string));
  env_put : nat -> list (Z * Z) * option exn
}.

Record Site : Type := {
  site_path : string;
  aws_bucket_website : option string
}.

Record File : Type := {
  site : Site;
  path : string
}.

(** The dictionary returned by [upload]: [{'changed': ..., 'size': ...}]. *)
Record UploadOutcome : Type := {
  out_changed : bool;
  out_size : Z
}.

(** The mutable attributes of a [File] object, and the trace so far.
    [memo_data] is the cache of the [@memoize]d [data]; [_payload] is
    the attribute tested with [hasattr]; [headers] is [None] until
    [upload] assigns it.  [lastUpload] is assigned by [upload] before
    anything reads it. *)
Record State : Type := {
  memo_data : option string;
  _payload : option string;
  lastUpload : Z;
  headers : option (gmap string string);
  trace : list event
}.

Definition fresh : State :=
  {| memo_data := None; _payload := None; lastUpload := 0;
     headers := None; trace := [] |}.

(** ** The monad of methods: state passing with exceptions

    A raised exception keeps the state reached so far: attribute
    assignments and calls already made are not undone. *)

Definition M (A : Type) : Type := State -> result A * State.

Definition ret {A} (a : A) : M A := fun s => (Ok a, s).

Definition bind {A B} (m : M A) (k : A -> M B) : M B :=
  fun s => match m s with
           | (Ok a, s') => k a s'
           | (Raise e, s') => (Raise e, s')
           end.

Definition raise {A} (e : exn) : M A := fun s => (Raise e, s).

Definition gets {A} (f : State -> A) : M A := fun s => (Ok (f s), s).

Definition modify (f : State -> State) : M unit := fun s => (Ok tt, f s).

Declare Scope py_scope.
Delimit Scope py_scope with py.
Notation "x <- c1 ;; c2" := (bind c1 (fun x => c2))
  (at level 100, c1 at next level, right associativity) : py_scope.
Notation "c1 ;; c2" := (bind c1 (fun _ => c2))
  (at level 100, right associativity) : py_scope.

(** The state with one more call on its trace. *)
Definition push (e : event) (s : State) : State :=
  {| memo_data := memo_data s; _payload := _payload s;
     lastUpload := lastUpload s; headers := headers s;
     trace := trace s ++ [e] |}.

Definition emit (e : event) : M unit := modify (push e).

Definition set_memo_data (d : string) : M unit :=
  modify (fun s => {| memo_data := Some d; _payload := _payload s;
                      lastUpload := lastUpload s; headers := headers s;
                      trace := trace s |}).

Definition set_payload (p : string) : M unit :=
  modify (fun s => {| memo_data := memo_data s; _payload := Some p;
                      lastUpload := lastUpload s; headers := headers s;
                      trace := trace s |}).

Definition set_lastUpload (n : Z) : M unit :=
  modify (fun s => {| memo_data := memo_data s; _payload := _payload s;
                      lastUpload := n; headers := headers s;
                      trace := trace s |}).

Definition set_headers (h : gmap string string) : M unit :=
  modify (fun s => {| memo_data := memo_data s; _payload := _payload s;
                      lastUpload := lastUpload s; headers := Some h;
                      trace := trace s |}).

(** [for x in xs: f(x)], stopping at the first exception. *)
Fixpoint for_each {A} (f : A -> M unit) (xs : list A) : M unit :=
  match xs with
  | [] => ret tt
  | x :: rest => bind (f x) (fun _ => for_each f rest)
  end.

(** ** Helpers of [cactus.utils] *)

(** Modelled from the spec: [CaseInsensitiveDict] of
    [cactus/utils/helpers.py] is not part of the sources at hand.  The
    spec describes it as a mapping that normalizes keys to lower case on
    insert and on lookup; its items therefore carry lower-case names. *)
Module CaseInsensitiveDict.

Definition setitem (k v : string) (d : gmap string string) : gmap string string :=
  <[PyStr.lower k := v]> d.

Definition getitem (k : string) (d : gmap string string) : option string :=
  d !! PyStr.lower k.

(** The constructor applied to a sequence of pairs: later pairs win. *)
Definition of_pairs (l : list (string * string)) : gmap string string :=
  fold_left (fun d kv => setitem (fst kv) (snd kv) d) l ∅.

Definition items (d : gmap string string) : list (string * string) :=
  map_to_list d.

End CaseInsensitiveDict.

(** The header of name [k] in a response as it came over the wire:
    names compared regardless of case, the last occurrence wins. *)
Fixpoint wire_get (k : string) (wire : list (string * string)) : option string :=
  match wire with
  | [] => None
  | (n, v) :: rest =>
      match wire_get k rest with
      | Some v' => Some v'
      | None => if String.eqb (PyStr.lower n) (PyStr.lower k) then Some v else None
      end
  end.

(** Modelled from the spec: the [retry] decorator of
    [cactus/utils/network.py] is not part of the sources at hand.  By the
    spec it makes up to [tries] attempts in all, retries only on the
    given exception class, sleeps the initial [delay] before the second
    attempt, multiplies the delay by [backoff] after each further
    failure, and lets the failure of the last attempt propagate. *)
Fixpoint retry {A} (retryable : exn -> bool) (tries : nat) (delay backoff : Z)
         (f : M A) : M A :=
  match tries with
  | O => f
  | S O => f
  | S n =>
      fun s =>
        match f s with
        | (Ok a, s') => (Ok a, s')
        | (Raise e, s') =>
            if retryable e
            then bind (emit (EvSleep delay))
                      (fun _ => retry retryable n (delay * backoff) backoff f) s'
            else (Raise e, s')
        end
  end.

Definition is_socket_error (e : exn) : bool :=
  match e with SocketError => true | _ => false end.

(** ** The class [File] *)

Module FileM.
Section Methods.
Import PyStr.
Local Open Scope py_scope.

Variable env : Env.
Variable self : File.

Definition CACHE_EXPIRATION : Z := 60 * 60 * 24 * 7.
Definition COMPRESS_TYPES : list string := ["html"; "css"; "js"; "txt"; "xml"].
Definition COMPRESS_MIN_SIZE : Z := 1024.
Definition PROGRESS_MIN_SIZE : Z := (1024 * 1024) / 2.

(** Modelled from the spec: [memoize] of [cactus/utils/helpers.py] is
    not part of the sources at hand; by the spec the raw content is
    read once and cached for the artifact's lifetime.  The body under
    the decoration opens and reads the build file, which raises
    [IOError] when the file cannot be read. *)
Definition data : M string :=
  cached <- gets memo_data ;;
  match cached with
  | Some d => ret d
  | None =>
      let fullpath := OsPath.join3 (site_path (site self)) ".build" (path self) in
      emit (EvRead fullpath) ;;
      match env_read env fullpath with
      | Some d => set_memo_data d ;; ret d
      | None => raise IOError
      end
  end.

Definition extension : string :=
  lower (strip "." (snd (OsPath.splitext (path self)))).

Definition in_compress_types (ext : string) : bool :=
  existsb (String.eqb ext) COMPRESS_TYPES.

Definition shouldCompress : M bool :=
  if negb (in_compress_types extension) then ret false
  else
    d <- data ;;
    if len d <? COMPRESS_MIN_SIZE then ret false
    else ret true.

Definition payload : M string :=
  cached <- gets _payload ;;
  match cached with
  | Some p => ret p
  | None =>
      sc <- shouldCompress ;;
      (if sc : bool
       then d <- data ;; emit (EvCompress d) ;; set_payload (compressString env d)
       else d <- data ;; set_payload d) ;;
      now <- gets _payload ;;
      match now with
      | Some p => ret p
      | None => raise AttributeError
      end
  end.

Definition checksum : M string :=
  p <- payload ;;
  ret (md5_hexdigest env p).

(** ['http://%s/%s' % (config.get('aws-bucket-website'), path)] *)
Definition remoteURL : string :=
  "http://" +:+
  match aws_bucket_website (site self) with Some b => b | None => "None" end
  +:+ "/" +:+ path self.

(** Modelled from the spec: [getURLHeaders] of [cactus/utils/url.py] is
    not part of the sources at hand.  By the spec it is a metadata-only
    request returning the object's header set, a mapping that is
    case-insensitive on the header name (names normalized to lower
    case), empty when the object does not exist. *)
Definition getURLHeaders (url : string) : M (gmap string string) :=
  n <- gets (fun s => count is_fetch (trace s)) ;;
  emit (EvFetch url) ;;
  match env_head env n with
  | Ok wire => ret (CaseInsensitiveDict.of_pairs wire)
  | Raise e => raise e
  end.

Definition remoteChecksum : M string :=
  hs <- getURLHeaders remoteURL ;;
  ret (strip "034" (default "" (hs !! "etag"))).

(** The loop of [changed]: is there a local header whose value the
    remote dictionary does not have under the same key? *)
Definition header_diff (local_headers remote_headers : gmap string string) : bool :=
  existsb (fun kv => negb (bool_decide (remote_headers !! fst kv = Some (snd kv))))
          (CaseInsensitiveDict.items local_headers).

(** The local header set of [changed]: a copy of [self.headers] with
    the checksum stored under [etag]. *)
Definition local_headers : M (gmap string string) :=
  hs <- gets headers ;;
  match hs with
  | None => raise AttributeError
  | Some h =>
      cs <- checksum ;;
      ret (CaseInsensitiveDict.setitem "etag" cs h)
  end.

Definition changed : M bool :=
  fetched <- getURLHeaders remoteURL ;;
  let remote_headers : gmap string string := strip "034" <$> fetched in
  local <- local_headers ;;
  ret (header_diff local remote_headers).

(** One item assignment to the attribute: [self.headers[name] = value]. *)
Definition assign_header (kv : string * string) : M unit :=
  hs <- gets headers ;;
  match hs with
  | Some h => set_headers (CaseInsensitiveDict.setitem (fst kv) (snd kv) h)
  | None => raise AttributeError
  end.

(** [self.site.plugin_manager.preDeployFile(self)]: the hook belongs to
    the plugins and is handed the object itself, after [upload] has
    built [headers] and before [changed] and the store read them.  It
    may fail; when it returns, the plugins have made their assignments
    to [self.headers]. *)
Definition preDeployFile : M unit :=
  n <- gets (fun s => count is_hook (trace s)) ;;
  emit (EvHook (path self)) ;;
  match env_hook env n with
  | Some e => raise e
  | None => for_each assign_header (hook_headers env)
  end.

(** The closure [progressCallback] of [upload]; the percentage is the
    float [current / total * 100], which raises on a zero total. *)
Definition progressCallback (current total : Z) : M unit :=
  last <- gets lastUpload ;;
  if last <? current then
    (if total =? 0 then raise ZeroDivisionError
     else emit (EvLogProgress (path self) current total)) ;;
    set_lastUpload current
  else ret tt.

(** [key.set_contents_from_string(body, hdrs, policy, cb, num_cb)] on
    the key [bucket.new_key(name)]: the store reports its progress to
    the callback when there is one, then fails or succeeds. *)
Definition set_contents_from_string (name : string) (content_type : option string)
           (body : string) (hdrs : gmap string string) (policy : string)
           (cb : option (Z -> Z -> M unit)) (num_cb : Z) : M unit :=
  n <- gets (fun s => count is_put (trace s)) ;;
  emit (EvPut name content_type body hdrs policy
              (match cb with Some _ => true | None => false end) num_cb) ;;
  match cb with
  | Some f => for_each (fun r => f (fst r) (snd r)) (fst (env_put env n))
  | None => ret tt
  end ;;
  match snd (env_put env n) with
  | Some e => raise e
  | None => ret tt
  end.

(** [if mimeType:] holds for a non-empty string only. *)
Definition truthy (m : option string) : option string :=
  match m with
  | Some "" => None
  | other => other
  end.

(** [upload], first part: the attributes [lastUpload] and [headers]. *)
Definition build_headers : M unit :=
  set_lastUpload 0 ;;
  set_headers (CaseInsensitiveDict.of_pairs
                 [("Cache-Control", "max-age=" +:+ str_of_Z CACHE_EXPIRATION)]) ;;
  sc <- shouldCompress ;;
  if sc : bool then
    hs <- gets headers ;;
    match hs with
    | Some h => set_headers (CaseInsensitiveDict.setitem "Content-Encoding" "gzip" h)
    | None => raise AttributeError
    end
  else ret tt.

(** [upload], the branch [if changed:]. *)
Definition transfer : M unit :=
  p1 <- payload ;;
  let progressCallbackCount := len p1 / (1024 * 1024) in
  p2 <- payload ;;
  let cb := if PROGRESS_MIN_SIZE <? len p2 then Some progressCallback else None in
  let mimeType := truthy (mime_guess env (path self)) in
  p3 <- payload ;;
  hs <- gets headers ;;
  match hs with
  | Some h => set_contents_from_string (path self) mimeType p3 h "public-read"
                                       cb progressCallbackCount
  | None => raise AttributeError
  end.

(** [upload], last part: the summary line and the returned dictionary. *)
Definition summary (ch : bool) : M UploadOutcome :=
  sc <- shouldCompress ;;
  op2 <- (if sc : bool then p <- payload ;; ret (Some (len p)) else ret None) ;;
  d <- data ;;
  emit (EvLogSummary ch (path self) (len d) op2) ;;
  p <- payload ;;
  ret {| out_changed := ch; out_size := len p |}.

(** The function under the [@retry] decoration. *)
Definition upload_body : M UploadOutcome :=
  build_headers ;;
  preDeployFile ;;
  ch <- changed ;;
  (if ch : bool then transfer else ret tt) ;;
  summary ch.

(** [upload], as callers see it:
    [@retry(socket.error, tries = 5, delay = 3, backoff = 2)]. *)
Definition upload : M UploadOutcome :=
  retry is_socket_error 5 3 2 upload_body.

(** ['<File: {0}>'.format(self.path)] *)
Definition __repr__ : string := "<File: " +:+ path self +:+ ">".

End Methods.
End FileM.

(** ** Reference semantics of one attempt

    What the methods compute, written as pure functions of the raw
    content and of the collaborators' answers.  The lemmas below show
    that the monadic methods agree with them. *)

Module Ref.
Section Reference.
Import PyStr.

Variable env : Env.
Variable self : File.

(** The file [data] opens. *)
Definition fullpath : string :=
  OsPath.join3 (site_path (site self)) ".build" (path self).

(** Allow-listed extension and at least [COMPRESS_MIN_SIZE] bytes. *)
Definition should (raw : string) : bool :=
  FileM.in_compress_types (FileM.extension self)
  && (FileM.COMPRESS_MIN_SIZE <=? len raw).

Definition payload_of (raw : string) : string :=
  if should raw then compressString env raw else raw.

(** The value of [self.headers] after the first part of [upload]. *)
Definition headers_of (raw : string) : gmap string string :=
  if should raw
  then <["content-encoding" := "gzip"]> {["cache-control" := "max-age=604800"]}
  else {["cache-control" := "max-age=604800"]}.

(** The dictionary [h] after the item assignments [l]. *)
Definition assigned (l : list (string * string)) (h : gmap string string)
  : gmap string string :=
  fold_left (fun d kv => CaseInsensitiveDict.setitem (fst kv) (snd kv) d) l h.

(** The value of [self.headers] once the hook has returned. *)
Definition hooked (raw : string) : gmap string string :=
  assigned (hook_headers env) (headers_of raw).

(** The local header set of the change decision. *)
Definition local_of (raw : string) : gmap string string :=
  <["etag" := md5_hexdigest env (payload_of raw)]> (hooked raw).

(** The remote dictionary of the change decision, from the headers of
    the response. *)
Definition remote_of (wire : list (string * string)) : gmap string string :=
  strip "034" <$> CaseInsensitiveDict.of_pairs wire.

(** The progress callback run over the reports of one transfer, from
    the high-water mark [last]: the lines logged, the final mark and
    the exception that stopped it, if any. *)
Fixpoint cb_run (last : Z) (reports : list (Z * Z)) : list event * Z * option exn :=
  match reports with
  | [] => ([], last, None)
  | (current, total) :: rest =>
      if last <? current then
        if total =? 0 then ([], last, Some ZeroDivisionError)
        else
          let '(logs, final, err) := cb_run current rest in
          (EvLogProgress (path self) current total :: logs, final, err)
      else cb_run last rest
  end.

(** The reports that strictly exceed every earlier report and [last]. *)
Fixpoint new_highs (last : Z) (reports : list (Z * Z)) : list Z :=
  match reports with
  | [] => []
  | (current, _) :: rest =>
      if last <? current then current :: new_highs current rest
      else new_highs last rest
  end.

Definition put_event (raw : string) : event :=
  EvPut (path self) (FileM.truthy (mime_guess env (path self)))
        (payload_of raw) (hooked raw) "public-read"
        (FileM.PROGRESS_MIN_SIZE <? len (payload_of raw))
        (len (payload_of raw) / (1024 * 1024)).

Definition summary_event (raw : string) (ch : bool) : event :=
  EvLogSummary ch (path self) (len raw)
               (if should raw then Some (len (payload_of raw)) else None).

(** One run of the function under [@retry], given the answers of the
    hook, of the HEAD request and of the store: its result, the mark
    it leaves in [lastUpload], and the calls it makes (reads of the
    build file and compressor calls left out). *)
Definition attempt (raw : string) (hk : option exn)
           (hd : result (list (string * string)))
           (pt : list (Z * Z) * option exn)
  : result UploadOutcome * Z * list event :=
  let hook := EvHook (path self) in
  let fetch := EvFetch (FileM.remoteURL self) in
  let out ch := {| out_changed := ch; out_size := len (payload_of raw) |} in
  match hk with
  | Some e => (Raise e, 0, [hook])
  | None =>
      match hd with
      | Raise e => (Raise e, 0, [hook; fetch])
      | Ok wire =>
          if FileM.header_diff (local_of raw) (remote_of wire) then
            let '(logs, final, cberr) :=
              if FileM.PROGRESS_MIN_SIZE <? len (payload_of raw)
              then cb_run 0 (fst pt) else ([], 0, None) in
            match cberr, snd pt with
            | Some e, _ => (Raise e, final, ([hook; fetch; put_event raw] ++ logs)%list)
            | None, Some e => (Raise e, final, ([hook; fetch; put_event raw] ++ logs)%list)
            | None, None =>
                (Ok (out true), final,
                 ([hook; fetch; put_event raw] ++ logs ++ [summary_event raw true])%list)
            end
          else (Ok (out false), 0, [hook; fetch; summary_event raw false])
      end
  end.

End Reference.

Definition quiet (e : event) : bool := is_read e || is_compress e.

(** The trace without the reads of the build file and the compressor
    calls. *)
Definition visible (tr : list event) : list event :=
  List.filter (fun e => negb (quiet e)) tr.

(** States of the [File] object of an artifact whose build file reads
    as [raw]: the caches hold what the methods compute, and the
    compressor has run exactly when a compressed payload is cached. *)
Record wf (env : Env) (self : File) (raw : string) (s : State) : Prop := {
  wf_read : env_read env (fullpath self) = Some raw;
  wf_memo : memo_data s = None \/ memo_data s = Some raw;
  wf_payload : _payload s = None \/ _payload s = Some (payload_of env self raw);
  wf_compress :
    count is_compress (trace s) =
    match _payload s with
    | Some _ => if should self raw then 1%nat else 0%nat
    | None => 0%nat
    end
}.

End Ref.

(** [s'] differs from [s] by cache fills only. *)
Definition same_attrs (s s' : State) : Prop :=
  lastUpload s' = lastUpload s /\ headers s' = headers s /\
  Ref.visible (trace s') = Ref.visible (trace s).

(** The delays of [m] consecutive retries: [delay], [delay * backoff], ... *)
Fixpoint delays (delay backoff : Z) (m : nat) : list Z :=
  match m with
  | O => []
  | S k => delay :: delays (delay * backoff) backoff k
  end.

(** Does the byte [c] occur in [s]?  Is [s] made of the byte [c] only? *)
Fixpoint occurs (c : ascii) (s : string) : bool :=
  match s with
  | EmptyString => false
  | String a t => Ascii.eqb a c || occurs c t
  end.

Fixpoint only (c : ascii) (s : string) : bool :=
  match s with
  | EmptyString => true
  | String a t => Ascii.eqb a c && only c t
  end.

(** A method that leaves the attributes [headers] and [lastUpload] as
    they are, whether it returns or raises. *)
Definition keeps {A} (m : M A) : Prop :=
  forall s, headers (snd (m s)) = headers s /\ lastUpload (snd (m s)) = lastUpload s.

(** ** Concrete artifacts and worlds *)

Module Sample.

Fixpoint rep (n : nat) (c : ascii) : string :=
  match n with
  | O => EmptyString
  | S k => String c (rep k c)
  end.

Definition the_site : Site :=
  {| site_path := "/srv/site"; aws_bucket_website := Some "www.example.org" |}.

(** A compressible page of 2000 bytes with an upper-case extension. *)
Definition page : File := {| site := the_site; path := "docs/index.HTML" |}.
Definition page_raw : string := rep 2000 "a".

(** A small image. *)
Definition logo : File := {| site := the_site; path := "img/logo.png" |}.
Definition logo_raw : string := rep 50 "x".

Definition quoted (s : string) : string := String "034" (s +:+ String "034" EmptyString).

Definition toy_compress (s : string) : string := "gz:" +:+ PyStr.take 20 s.
Definition toy_md5 (s : string) : string := "md5-" +:+ PyStr.str_of_Z (PyStr.len s).

(** A world where the object is missing from the bucket and the store
    fails with a socket error on its first [k] calls. *)
Definition flaky (raw : string) (k : nat) : Env :=
  {| env_read := fun _ => Some raw;
     compressString := toy_compress;
     md5_hexdigest := toy_md5;
     mime_guess := fun _ => Some "text/html";
     env_hook := fun _ => None;
     hook_headers := [];
     env_head := fun _ => Ok [];
     env_put := fun n => ([(10, 23); (5, 23); (23, 23)],
                          if (n <? k)%nat then Some SocketError else None) |}.

(** A poster of 600000 bytes, above the progress threshold, and a world
    where the store reports its progress four times and fails with a
    socket error on its first [k] calls. *)
Definition poster : File := {| site := the_site; path := "img/poster.png" |}.
Definition poster_raw : string := rep (Z.to_nat 600000) "p".

Definition reporting (raw : string) (k : nat) : Env :=
  {| env_read := fun _ => Some raw;
     compressString := toy_compress;
     md5_hexdigest := fun _ => "d41d8cd98f00b204e9800998ecf8427e";
     mime_guess := fun _ => Some "image/png";
     env_hook := fun _ => None;
     hook_headers := [];
     env_head := fun _ => Ok [];
     env_put := fun n => ([(200000, 600000); (150000, 600000);
                           (200000, 600000); (600000, 600000)],
                          if (n <? k)%nat then Some SocketError else None) |}.

(** The response headers of the page once it is in the bucket as built. *)
Definition page_headers : list (string * string) :=
  [("Server", "AmazonS3");
   ("ETag", quoted "md5-23");
   ("Content-Encoding", "gzip");
   ("Cache-Control", "max-age=604800")].

(** A world where the bucket already holds the page as built. *)
Definition in_sync (raw : string) : Env :=
  {| env_read := fun _ => Some raw;
     compressString := toy_compress;
     md5_hexdigest := toy_md5;
     mime_guess := fun _ => Some "text/html";
     env_hook := fun _ => None;
     hook_headers := [];
     env_head := fun _ => Ok page_headers;
     env_put := fun _ => ([], None) |}.

(** A world where the build file cannot be read. *)
Definition unreadable : Env :=
  {| env_read := fun _ => None;
     compressString := toy_compress;
     md5_hexdigest := toy_md5;
     mime_guess := fun _ => None;
     env_hook := fun _ => None;
     hook_headers := [];
     env_head := fun _ => Ok [];
     env_put := fun _ => ([], None) |}.

(** A world where the plugin hook always fails with [e]. *)
Definition hook_fails (raw : string) (e : exn) : Env :=
  {| env_read := fun _ => Some raw;
     compressString := toy_compress;
     md5_hexdigest := toy_md5;
     mime_guess := fun _ => None;
     env_hook := fun _ => Some e;
     hook_headers := [];
     env_head := fun _ => Ok [];
     env_put := fun _ => ([], None) |}.

(** A world where the HEAD request fails with a socket error on its
    first [k] calls and then answers with the headers of the page as
    built. *)
Definition head_flaky (raw : string) (k : nat) : Env :=
  {| env_read := fun _ => Some raw;
     compressString := toy_compress;
     md5_hexdigest := toy_md5;
     mime_guess := fun _ => Some "text/html";
     env_hook := fun _ => None;
     hook_headers := [];
     env_head := fun n => if (n <? k)%nat then Raise SocketError
                          else Ok [("etag", quoted "md5-23");
                                   ("content-encoding", "gzip");
                                   ("cache-control", "max-age=604800")];
     env_put := fun _ => ([], None) |}.

(** A world where the store reports progress against a zero total. *)
Definition zero_total (raw : string) : Env :=
  {| env_read := fun _ => Some raw;
     compressString := toy_compress;
     md5_hexdigest := fun _ => "d41d8cd98f00b204e9800998ecf8427e";
     mime_guess := fun _ => Some "image/png";
     env_hook := fun _ => None;
     hook_headers := [];
     env_head := fun _ => Ok [];
     env_put := fun _ => ([(4096, 0); (8192, 600000)], None) |}.

(** A world where a plugin forbids caching, marks every artifact as
    gzip-encoded and adds a header of its own; the bucket is empty. *)
Definition plugged (raw : string) : Env :=
  {| env_read := fun _ => Some raw;
     compressString := toy_compress;
     md5_hexdigest := toy_md5;
     mime_guess := fun _ => Some "image/png";
     env_hook := fun _ => None;
     hook_headers := [("Cache-Control", "no-cache");
                      ("Content-Encoding", "gzip");
                      ("X-Robots-Tag", "noindex")];
     env_head := fun _ => Ok [];
     env_put := fun _ => ([], None) |}.

End Sample.

(** * Properties *)

Ltac run_bind H := unfold bind at 1; rewrite H; cbv beta iota.

Ltac shape := unfold count, sleeps; cbn; repeat split; try reflexivity; try lia.

(** ** The string primitives on examples *)

Example splitext_index_html :
  OsPath.splitext "a/b.c/index.HTML" = ("a/b.c/index", ".HTML").
Proof. reflexivity. Qed.

Example splitext_dotfile : OsPath.splitext "a/.bashrc" = ("a/.bashrc", "").
Proof. reflexivity. Qed.

Example splitext_leading_dots : OsPath.splitext "..x.y" = ("..x", ".y").
Proof. reflexivity. Qed.

Example splitext_dir_with_dot : OsPath.splitext "a.b/c" = ("a.b/c", "").
Proof. reflexivity. Qed.

Example strip_quotes : PyStr.strip "034" (Sample.quoted "9a0364b9") = "9a0364b9".
Proof. reflexivity. Qed.

Example strip_dots : PyStr.strip "." "..tar.gz." = "tar.gz".
Proof. reflexivity. Qed.

Example lower_mixed : PyStr.lower "Content-Encoding" = "content-encoding".
Proof. reflexivity. Qed.

Example str_of_week : PyStr.str_of_Z FileM.CACHE_EXPIRATION = "604800".
Proof. reflexivity. Qed.

Example join_build :
  OsPath.join3 "/srv/site" ".build" "css/main.css" = "/srv/site/.build/css/main.css".
Proof. reflexivity. Qed.

Example remote_url : FileM.remoteURL Sample.page = "http://www.example.org/docs/index.HTML".
Proof. reflexivity. Qed.

Example progress_threshold : FileM.PROGRESS_MIN_SIZE = 524288.
Proof. reflexivity. Qed.

(** ** Traces *)

Lemma count_app (p : event -> bool) (a b : list event) :
  count p (a ++ b) = (count p a + count p b)%nat.
Proof. unfold count. rewrite List.filter_app, length_app. reflexivity. Qed.

Lemma count_single (p : event -> bool) (e : event) :
  count p [e] = if p e then 1%nat else 0%nat.
Proof. unfold count. simpl. destruct (p e); reflexivity. Qed.

Lemma sleeps_app (a b : list event) : sleeps (a ++ b) = (sleeps a ++ sleeps b)%list.
Proof. unfold sleeps. apply flat_map_app. Qed.

Lemma progress_logged_app (a b : list event) :
  progress_logged (a ++ b) = (progress_logged a ++ progress_logged b)%list.
Proof. unfold progress_logged. apply flat_map_app. Qed.

Lemma visible_app (a b : list event) :
  Ref.visible (a ++ b) = (Ref.visible a ++ Ref.visible b)%list.
Proof. unfold Ref.visible. apply List.filter_app. Qed.

Lemma count_visible (p : event -> bool) (tr : list event) :
  (forall e, Ref.quiet e = true -> p e = false) ->
  count p (Ref.visible tr) = count p tr.
Proof.
  intros Hq. unfold count, Ref.visible.
  induction tr as [|e tr IH]; simpl; [reflexivity|].
  destruct (Ref.quiet e) eqn:Qe; simpl.
  - rewrite (Hq e Qe). exact IH.
  - destruct (p e); simpl; congruence.
Qed.

Lemma sleeps_visible (tr : list event) : sleeps (Ref.visible tr) = sleeps tr.
Proof.
  unfold sleeps, Ref.visible.
  induction tr as [|e tr IH]; simpl; [reflexivity|].
  destruct e; simpl; try assumption; f_equal; assumption.
Qed.

Lemma progress_logged_visible (tr : list event) :
  progress_logged (Ref.visible tr) = progress_logged tr.
Proof.
  unfold progress_logged, Ref.visible.
  induction tr as [|e tr IH]; simpl; [reflexivity|].
  destruct e; simpl; try assumption; f_equal; assumption.
Qed.

Lemma quiet_not_hook e : Ref.quiet e = true -> is_hook e = false.
Proof. destruct e; cbv; congruence. Qed.
Lemma quiet_not_fetch e : Ref.quiet e = true -> is_fetch e = false.
Proof. destruct e; cbv; congruence. Qed.
Lemma quiet_not_put e : Ref.quiet e = true -> is_put e = false.
Proof. destruct e; cbv; congruence. Qed.

(** ** The cached methods *)

Lemma same_attrs_refl s : same_attrs s s.
Proof. repeat split. Qed.

Lemma same_attrs_trans s1 s2 s3 : same_attrs s1 s2 -> same_attrs s2 s3 -> same_attrs s1 s3.
Proof. unfold same_attrs. intros (?&?&?) (?&?&?). repeat split; congruence. Qed.

Section Cached.
Variable env : Env.
Variable self : File.
Variable raw : string.

Lemma data_spec s :
  Ref.wf env self raw s ->
  exists s', FileM.data env self s = (Ok raw, s') /\ Ref.wf env self raw s' /\
             same_attrs s s' /\ _payload s' = _payload s /\ memo_data s' = Some raw.
Proof.
  intros [Hr Hm Hp Hc]. unfold FileM.data, bind, gets.
  destruct Hm as [Hm|Hm]; rewrite Hm.
  - unfold emit, modify. fold (Ref.fullpath self). rewrite Hr. simpl.
    eexists; split; [reflexivity|]. simpl.
    split; [|split; [|split]]; try reflexivity.
    + constructor; simpl; auto.
      rewrite count_app, Hc. unfold count. simpl. lia.
    + repeat split; simpl. rewrite visible_app. simpl. apply app_nil_r.
  - exists s. split; [reflexivity|]. split; [constructor; auto|].
    split; [apply same_attrs_refl|]. auto.
Qed.


Lemma shouldCompress_spec s :
  Ref.wf env self raw s ->
  exists s', FileM.shouldCompress env self s = (Ok (Ref.should self raw), s') /\
             Ref.wf env self raw s' /\ same_attrs s s' /\ _payload s' = _payload s.
Proof.
  intros Hwf. unfold FileM.shouldCompress, Ref.should.
  destruct (FileM.in_compress_types (FileM.extension self)); simpl.
  - destruct (data_spec s Hwf) as (s' & Hd & Hwf' & Hsame & Hp & _).
    unfold bind. rewrite Hd.
    exists s'. split; [|auto].
    unfold FileM.COMPRESS_MIN_SIZE.
    destruct (Z.ltb_spec (PyStr.len raw) 1024), (Z.leb_spec 1024 (PyStr.len raw));
      try lia; reflexivity.
  - exists s. split; [reflexivity|]. split; [assumption|].
    split; [apply same_attrs_refl|reflexivity].
Qed.

Lemma payload_hit s p :
  _payload s = Some p -> FileM.payload env self s = (Ok p, s).
Proof. intros H. unfold FileM.payload, bind, gets. rewrite H. reflexivity. Qed.

Lemma payload_spec s :
  Ref.wf env self raw s ->
  exists s', FileM.payload env self s = (Ok (Ref.payload_of env self raw), s') /\
             Ref.wf env self raw s' /\ same_attrs s s' /\
             _payload s' = Some (Ref.payload_of env self raw).
Proof.
  intros Hwf. destruct (Ref.wf_payload _ _ _ _ Hwf) as [Hp|Hp].
  - unfold FileM.payload, bind at 1, gets. rewrite Hp.
    destruct (shouldCompress_spec s Hwf) as (s1 & Hsc & Hwf1 & Hsame1 & Hp1).
    unfold bind at 1. rewrite Hsc.
    destruct (data_spec s1 Hwf1) as (s2 & Hd & Hwf2 & Hsame2 & Hp2 & Hm2).
    pose proof (Ref.wf_compress _ _ _ _ Hwf2) as Hc2.
    rewrite Hp2, Hp1, Hp in Hc2.
    destruct Hwf2 as [Hr2 Hmm2 _ _].
    unfold Ref.payload_of.
    destruct (Ref.should self raw) eqn:Hs.
    + unfold bind, emit, set_payload, modify, gets. rewrite Hd. simpl.
      eexists; split; [reflexivity|]. simpl.
      split; [|split; [|reflexivity]].
      * constructor; simpl; auto.
        -- right. unfold Ref.payload_of. rewrite Hs. reflexivity.
        -- rewrite count_app, Hc2, Hs. reflexivity.
      * eapply same_attrs_trans; [exact Hsame1|].
        eapply same_attrs_trans; [exact Hsame2|].
        repeat split; simpl. rewrite visible_app. simpl. apply app_nil_r.
    + unfold bind, set_payload, modify, gets. rewrite Hd. simpl.
      eexists; split; [reflexivity|]. simpl.
      split; [|split; [|reflexivity]].
      * constructor; simpl; auto.
        -- right. unfold Ref.payload_of. rewrite Hs. reflexivity.
        -- rewrite Hc2, Hs. reflexivity.
      * eapply same_attrs_trans; [exact Hsame1|].
        eapply same_attrs_trans; [exact Hsame2|].
        repeat split.
  - rewrite (payload_hit s _ Hp). exists s.
    split; [reflexivity|]. split; [assumption|]. split; [apply same_attrs_refl|assumption].
Qed.

Lemma checksum_spec s :
  Ref.wf env self raw s ->
  exists s', FileM.checksum env self s =
               (Ok (md5_hexdigest env (Ref.payload_of env self raw)), s') /\
             Ref.wf env self raw s' /\ same_attrs s s' /\
             _payload s' = Some (Ref.payload_of env self raw).
Proof.
  intros Hwf. destruct (payload_spec s Hwf) as (s' & Hp & Hrest).
  unfold FileM.checksum, bind. rewrite Hp. exists s'. split; [reflexivity|assumption].
Qed.

End Cached.

(** ** The progress callback *)

Section Progress.
Variable env : Env.
Variable self : File.

Lemma progressCallback_run (current total : Z) (s : State) :
  FileM.progressCallback self current total s =
  if lastUpload s <? current then
    if total =? 0 then (Raise ZeroDivisionError, s)
    else (Ok tt, {| memo_data := memo_data s; _payload := _payload s;
                    lastUpload := current; headers := headers s;
                    trace := trace s ++ [EvLogProgress (path self) current total] |})
  else (Ok tt, s).
Proof.
  unfold FileM.progressCallback, bind, gets.
  destruct (lastUpload s <? current); [|reflexivity].
  destruct (total =? 0); reflexivity.
Qed.

Lemma callbacks_spec (reports : list (Z * Z)) : forall s,
  exists s',
    for_each (fun r => FileM.progressCallback self (fst r) (snd r)) reports s =
      (match snd (Ref.cb_run self (lastUpload s) reports) with
       | Some e => Raise e
       | None => Ok tt
       end, s') /\
    memo_data s' = memo_data s /\ _payload s' = _payload s /\
    headers s' = headers s /\
    lastUpload s' = snd (fst (Ref.cb_run self (lastUpload s) reports)) /\
    trace s' = (trace s ++ fst (fst (Ref.cb_run self (lastUpload s) reports)))%list.
Proof.
  induction reports as [|[current total] rest IH]; intros s.
  - exists s. simpl. rewrite app_nil_r. repeat split.
  - cbn [for_each Ref.cb_run]. unfold bind at 1.
    rewrite progressCallback_run. cbn [fst snd].
    destruct (lastUpload s <? current) eqn:Hlt.
    + destruct (total =? 0) eqn:Ht.
      * exists s. simpl. rewrite app_nil_r. repeat split.
      * match goal with |- context [for_each _ rest ?st] =>
          destruct (IH st) as (s' & Hrun & Hm & Hp & Hh & Hl & Ht')
        end.
        cbn [lastUpload memo_data _payload headers trace] in *. rewrite Hrun.
        destruct (Ref.cb_run self current rest) as [[logs final] err].
        cbn [fst snd] in *.
        exists s'. repeat split; auto.
        rewrite Ht', <- app_assoc. reflexivity.
    + apply IH.
Qed.

(** The high-water marks logged are the reports that exceed all earlier
    ones; a zero total cuts the list short. *)
Lemma cb_run_logged (reports : list (Z * Z)) : forall last,
  exists rest,
    Ref.new_highs last reports =
      (progress_logged (fst (fst (Ref.cb_run self last reports))) ++ rest)%list /\
    (snd (Ref.cb_run self last reports) = None -> rest = []).
Proof.
  induction reports as [|[current total] tl IH]; intros last; simpl.
  - exists []. split; [reflexivity|auto].
  - destruct (last <? current).
    + destruct (total =? 0).
      * simpl. eexists. split; [reflexivity|]. discriminate.
      * destruct (IH current) as (rest & Heq & Hnone).
        destruct (Ref.cb_run self current tl) as [[logs final] err]. simpl in *.
        exists rest. rewrite Heq. split; [reflexivity|assumption].
    + apply IH.
Qed.

Lemma new_highs_above (reports : list (Z * Z)) : forall last,
  Forall (fun c => last < c) (Ref.new_highs last reports).
Proof.
  induction reports as [|[current total] tl IH]; intros last; simpl.
  - constructor.
  - destruct (Z.ltb_spec last current).
    + constructor; [assumption|].
      eapply Forall_impl; [apply IH|]. simpl. intros. lia.
    + apply IH.
Qed.

Lemma new_highs_sorted (reports : list (Z * Z)) : forall last,
  StronglySorted Z.lt (Ref.new_highs last reports).
Proof.
  induction reports as [|[current total] tl IH]; intros last; simpl.
  - constructor.
  - destruct (last <? current).
    + constructor; [apply IH|apply new_highs_above].
    + apply IH.
Qed.

End Progress.

(** ** One run of the function under the decoration *)

Section Attempt.
Variable env : Env.
Variable self : File.
Variable raw : string.

Lemma wf_push (e : event) (s : State) :
  is_compress e = false -> Ref.wf env self raw s -> Ref.wf env self raw (push e s).
Proof.
  intros He [Hr Hm Hp Hc]. constructor; simpl; auto.
  rewrite count_app, Hc. unfold count. simpl. rewrite He. simpl. lia.
Qed.

Lemma headers_literal :
  CaseInsensitiveDict.of_pairs
    [("Cache-Control", "max-age=" +:+ PyStr.str_of_Z FileM.CACHE_EXPIRATION)]
  = ({["cache-control" := "max-age=604800"]} : gmap string string).
Proof. reflexivity. Qed.

Lemma build_headers_spec s :
  Ref.wf env self raw s ->
  exists s', FileM.build_headers env self s = (Ok tt, s') /\
             Ref.wf env self raw s' /\ lastUpload s' = 0 /\
             headers s' = Some (Ref.headers_of self raw) /\
             Ref.visible (trace s') = Ref.visible (trace s).
Proof.
  intros Hwf. unfold FileM.build_headers.
  unfold bind at 1, set_lastUpload, modify.
  unfold bind at 1, set_headers, modify. cbn [memo_data _payload lastUpload headers trace].
  rewrite headers_literal.
  match goal with |- context [bind _ _ ?st] => set (s0 := st) end.
  assert (Hwf0 : Ref.wf env self raw s0).
  { destruct Hwf as [Hr Hm Hp Hc]. constructor; assumption. }
  destruct (shouldCompress_spec env self raw s0 Hwf0) as (s1 & Hsc & Hwf1 & (Hl & Hh & Hv) & Hp1).
  unfold bind at 1. rewrite Hsc. unfold Ref.headers_of.
  subst s0. cbn [memo_data _payload lastUpload headers trace] in *.
  destruct (Ref.should self raw).
  - unfold bind, gets, modify. rewrite Hh. simpl.
    eexists; split; [reflexivity|]. simpl.
    split; [|repeat split; auto].
    destruct Hwf1 as [Hr Hm Hp Hc]. constructor; assumption.
  - exists s1. split; [reflexivity|]. split; [assumption|]. repeat split; auto.
Qed.

Lemma assign_headers_run (l : list (string * string)) : forall s h,
  headers s = Some h ->
  for_each FileM.assign_header l s =
  (Ok tt, {| memo_data := memo_data s; _payload := _payload s;
             lastUpload := lastUpload s; headers := Some (Ref.assigned l h);
             trace := trace s |}).
Proof.
  induction l as [|kv l IH]; intros s h Hh.
  - destruct s. simpl in *. subst. reflexivity.
  - cbn [for_each]. unfold bind at 1, FileM.assign_header, bind, gets.
    rewrite Hh. unfold set_headers, modify.
    rewrite (IH _ (CaseInsensitiveDict.setitem (fst kv) (snd kv) h)) by reflexivity.
    reflexivity.
Qed.

(** The hook: a call that fails leaves the attributes as they are, a
    call that returns has made the plugins' assignments. *)
Lemma preDeployFile_run s h :
  headers s = Some h ->
  FileM.preDeployFile env self s =
  match env_hook env (count is_hook (trace s)) with
  | Some e => (Raise e, push (EvHook (path self)) s)
  | None => (Ok tt, {| memo_data := memo_data s; _payload := _payload s;
                       lastUpload := lastUpload s;
                       headers := Some (Ref.assigned (hook_headers env) h);
                       trace := trace s ++ [EvHook (path self)] |})
  end.
Proof.
  intros Hh. unfold FileM.preDeployFile, bind at 1, gets.
  unfold bind at 1, emit, modify.
  destruct (env_hook env (count is_hook (trace s))); [reflexivity|].
  rewrite (assign_headers_run _ (push (EvHook (path self)) s) h) by exact Hh.
  reflexivity.
Qed.

Lemma getURLHeaders_run url s :
  FileM.getURLHeaders env url s =
  (match env_head env (count is_fetch (trace s)) with
   | Ok wire => Ok (CaseInsensitiveDict.of_pairs wire)
   | Raise e => Raise e
   end, push (EvFetch url) s).
Proof.
  unfold FileM.getURLHeaders, bind, gets, emit, modify. simpl.
  destruct (env_head env (count is_fetch (trace s))); reflexivity.
Qed.

Lemma local_headers_spec s :
  Ref.wf env self raw s -> headers s = Some (Ref.hooked env self raw) ->
  exists s', FileM.local_headers env self s = (Ok (Ref.local_of env self raw), s') /\
             Ref.wf env self raw s' /\ same_attrs s s' /\
             _payload s' = Some (Ref.payload_of env self raw).
Proof.
  intros Hwf Hh. unfold FileM.local_headers, bind at 1, gets. rewrite Hh.
  destruct (checksum_spec env self raw s Hwf) as (s' & Hcs & Hrest).
  unfold bind. rewrite Hcs. exists s'. split; [reflexivity|assumption].
Qed.

Lemma changed_spec s :
  Ref.wf env self raw s -> headers s = Some (Ref.hooked env self raw) ->
  exists s',
    FileM.changed env self s =
      (match env_head env (count is_fetch (trace s)) with
       | Ok wire => Ok (FileM.header_diff (Ref.local_of env self raw) (Ref.remote_of wire))
       | Raise e => Raise e
       end, s') /\
    Ref.wf env self raw s' /\ lastUpload s' = lastUpload s /\ headers s' = headers s /\
    Ref.visible (trace s') =
      (Ref.visible (trace s) ++ [EvFetch (FileM.remoteURL self)])%list.
Proof.
  intros Hwf Hh. unfold FileM.changed, bind at 1. rewrite getURLHeaders_run.
  assert (Hwf0 : Ref.wf env self raw (push (EvFetch (FileM.remoteURL self)) s))
    by (apply wf_push; [reflexivity|assumption]).
  destruct (env_head env (count is_fetch (trace s))) as [wire|e].
  - destruct (local_headers_spec _ Hwf0 Hh) as (s' & Hl & Hwf' & (Hlu & Hhd & Hv) & _).
    unfold bind. rewrite Hl. exists s'. split; [reflexivity|].
    split; [assumption|].
    repeat split; auto. rewrite Hv. simpl. rewrite visible_app. reflexivity.
  - eexists; split; [reflexivity|]. split; [assumption|]. repeat split; auto.
    simpl. rewrite visible_app. reflexivity.
Qed.

Lemma wf_ext (s s' : State) :
  memo_data s' = memo_data s -> _payload s' = _payload s ->
  count is_compress (trace s') = count is_compress (trace s) ->
  Ref.wf env self raw s -> Ref.wf env self raw s'.
Proof.
  intros Hm Hp Hc [Hr Hm0 Hp0 Hc0]. constructor; [assumption|congruence|congruence|].
  rewrite Hc, Hp. assumption.
Qed.

Lemma cb_run_progress (reports : list (Z * Z)) : forall last,
  Forall (fun e => is_progress e = true) (fst (fst (Ref.cb_run self last reports))).
Proof.
  induction reports as [|[current total] tl IH]; intros last; simpl.
  - constructor.
  - destruct (last <? current); [|apply IH].
    destruct (total =? 0); [constructor|].
    specialize (IH current).
    destruct (Ref.cb_run self current tl) as [[logs final] err]. simpl in *.
    constructor; [reflexivity|assumption].
Qed.

Lemma progress_visible (l : list event) :
  Forall (fun e => is_progress e = true) l -> Ref.visible l = l.
Proof.
  induction 1 as [|e l He _ IH]; [reflexivity|].
  unfold Ref.visible in *. simpl. destruct e; try discriminate. simpl. f_equal. exact IH.
Qed.

Lemma progress_count (p : event -> bool) (l : list event) :
  (forall e, is_progress e = true -> p e = false) ->
  Forall (fun e => is_progress e = true) l -> count p l = 0%nat.
Proof.
  intros Hp. induction 1 as [|e l He _ IH]; [reflexivity|].
  unfold count in *. simpl. rewrite (Hp e He). exact IH.
Qed.

Lemma same_attrs_count (p : event -> bool) (s s' : State) :
  (forall e, Ref.quiet e = true -> p e = false) ->
  Ref.visible (trace s') = Ref.visible (trace s) ->
  count p (trace s') = count p (trace s).
Proof.
  intros Hq Hv. rewrite <- (count_visible p (trace s') Hq), Hv.
  apply count_visible. exact Hq.
Qed.

Lemma transfer_spec s :
  Ref.wf env self raw s -> headers s = Some (Ref.hooked env self raw) ->
  lastUpload s = 0 ->
  let run := if FileM.PROGRESS_MIN_SIZE <? PyStr.len (Ref.payload_of env self raw)
             then Ref.cb_run self 0 (fst (env_put env (count is_put (trace s))))
             else ([], 0, None) in
  exists s',
    FileM.transfer env self s =
      (match snd run, snd (env_put env (count is_put (trace s))) with
       | Some e, _ => Raise e
       | None, Some e => Raise e
       | None, None => Ok tt
       end, s') /\
    Ref.wf env self raw s' /\ headers s' = headers s /\
    lastUpload s' = snd (fst run) /\
    Ref.visible (trace s') =
      (Ref.visible (trace s) ++ [Ref.put_event env self raw] ++ fst (fst run))%list.
Proof.
  intros Hwf Hh Hl run. unfold FileM.transfer.
  destruct (payload_spec env self raw s Hwf) as (s1 & Hp1 & Hwf1 & (Hl1 & Hh1 & Hv1) & Hc1).
  run_bind Hp1.
  run_bind (payload_hit env self s1 _ Hc1).
  run_bind (payload_hit env self s1 _ Hc1).
  unfold bind at 1, gets. cbv beta iota. rewrite Hh1, Hh.
  unfold FileM.set_contents_from_string.
  unfold bind at 1, gets. cbv beta iota.
  unfold bind at 1, emit, modify. cbv beta iota.
  rewrite (same_attrs_count is_put s s1 quiet_not_put Hv1).
  match goal with |- context [push ?e s1] =>
    assert (He : e = Ref.put_event env self raw)
      by (unfold Ref.put_event;
          destruct (FileM.PROGRESS_MIN_SIZE <? PyStr.len (Ref.payload_of env self raw));
          reflexivity);
    rewrite He; clear He
  end.
  set (pt := env_put env (count is_put (trace s))) in *.
  destruct (FileM.PROGRESS_MIN_SIZE <? PyStr.len (Ref.payload_of env self raw)) eqn:Hbig.
  - destruct (callbacks_spec self (fst pt) (push (Ref.put_event env self raw) s1))
      as (s2 & Hrun & Hm2 & Hp2 & Hh2 & Hl2 & Ht2).
    cbn [push memo_data _payload lastUpload headers trace] in Hrun, Hm2, Hp2, Hh2, Hl2, Ht2.
    rewrite Hl1, Hl in Hrun, Hl2, Ht2.
    run_bind Hrun. subst run.
    pose proof (cb_run_progress (fst pt) 0) as Hprog.
    destruct (Ref.cb_run self 0 (fst pt)) as [[logs final] err].
    cbn [fst snd] in *.
    assert (Hwf2 : Ref.wf env self raw s2).
    { apply (wf_ext s1); auto. rewrite Ht2, !count_app.
      rewrite (progress_count is_compress logs); [|destruct e; simpl; congruence|assumption].
      unfold count. simpl. lia. }
    assert (Hv2 : Ref.visible (trace s2) =
                  (Ref.visible (trace s) ++ [Ref.put_event env self raw] ++ logs)%list).
    { rewrite Ht2, !visible_app, Hv1, (progress_visible logs Hprog), <- app_assoc.
      reflexivity. }
    assert (Hh3 : headers s2 = Some (Ref.hooked env self raw)) by congruence.
    destruct err as [e|].
    + exists s2. auto.
    + destruct (snd pt) as [e|]; exists s2; auto.
  - subst run. cbn [fst snd].
    assert (Hwf2 : Ref.wf env self raw (push (Ref.put_event env self raw) s1))
      by (apply wf_push; [reflexivity|assumption]).
    assert (Hv2 : Ref.visible (trace (push (Ref.put_event env self raw) s1)) =
                  (Ref.visible (trace s) ++ [Ref.put_event env self raw] ++ [])%list).
    { simpl. rewrite visible_app, Hv1. reflexivity. }
    assert (Hh3 : headers (push (Ref.put_event env self raw) s1)
                  = Some (Ref.hooked env self raw)) by (simpl; congruence).
    assert (Hl3 : lastUpload (push (Ref.put_event env self raw) s1) = 0)
      by (simpl; congruence).
    unfold bind at 1, ret. cbv beta iota.
    destruct (snd pt) as [e|]; eexists; (split; [reflexivity|]); auto.
Qed.

Lemma summary_spec (ch : bool) s :
  Ref.wf env self raw s ->
  exists s',
    FileM.summary env self ch s =
      (Ok {| out_changed := ch; out_size := PyStr.len (Ref.payload_of env self raw) |}, s') /\
    Ref.wf env self raw s' /\ lastUpload s' = lastUpload s /\ headers s' = headers s /\
    Ref.visible (trace s') = (Ref.visible (trace s) ++ [Ref.summary_event env self raw ch])%list.
Proof.
  intros Hwf. unfold FileM.summary.
  destruct (shouldCompress_spec env self raw s Hwf) as (s1 & Hsc & Hwf1 & (Hl1 & Hh1 & Hv1) & _).
  run_bind Hsc.
  assert (Hop : exists s2,
    (if Ref.should self raw
     then bind (FileM.payload env self) (fun p => ret (Some (PyStr.len p)))
     else ret None) s1 =
    (Ok (if Ref.should self raw
         then Some (PyStr.len (Ref.payload_of env self raw)) else None), s2) /\
    Ref.wf env self raw s2 /\ same_attrs s1 s2).
  { destruct (Ref.should self raw).
    - destruct (payload_spec env self raw s1 Hwf1) as (s2 & Hp & Hwf2 & Hs2 & _).
      exists s2. unfold bind. rewrite Hp. auto.
    - exists s1. split; [reflexivity|]. split; [assumption|apply same_attrs_refl]. }
  destruct Hop as (s2 & Hop & Hwf2 & (Hl2 & Hh2 & Hv2)).
  run_bind Hop.
  destruct (data_spec env self raw s2 Hwf2) as (s3 & Hd & Hwf3 & (Hl3 & Hh3 & Hv3) & _).
  run_bind Hd.
  unfold bind at 1, emit, modify. cbv beta iota.
  fold (Ref.summary_event env self raw ch).
  assert (Hwf4 : Ref.wf env self raw (push (Ref.summary_event env self raw ch) s3))
    by (apply wf_push; [reflexivity|assumption]).
  destruct (payload_spec env self raw _ Hwf4) as (s5 & Hp & Hwf5 & (Hl5 & Hh5 & Hv5) & _).
  run_bind Hp. exists s5. split; [reflexivity|]. split; [assumption|].
  simpl in Hl5, Hh5, Hv5. rewrite visible_app in Hv5. simpl in Hv5.
  split; [congruence|]. split; [congruence|].
  rewrite Hv5, Hv3, Hv2, Hv1. reflexivity.
Qed.

(** The function under the decoration agrees with [Ref.attempt]. *)
Lemma upload_body_attempt s :
  Ref.wf env self raw s ->
  let a := Ref.attempt env self raw
             (env_hook env (count is_hook (trace s)))
             (env_head env (count is_fetch (trace s)))
             (env_put env (count is_put (trace s))) in
  exists s',
    FileM.upload_body env self s = (fst (fst a), s') /\
    Ref.wf env self raw s' /\ lastUpload s' = snd (fst a) /\
    Ref.visible (trace s') = (Ref.visible (trace s) ++ snd a)%list.
Proof.
  intros Hwf a. unfold FileM.upload_body.
  destruct (build_headers_spec s Hwf) as (s1 & Hb & Hwf1 & Hl1 & Hh1 & Hv1).
  run_bind Hb. run_bind (preDeployFile_run s1 _ Hh1).
  rewrite (same_attrs_count is_hook s s1 quiet_not_hook Hv1).
  assert (Hwf1' : Ref.wf env self raw (push (EvHook (path self)) s1))
    by (apply wf_push; [reflexivity|assumption]).
  subst a. unfold Ref.attempt.
  destruct (env_hook env (count is_hook (trace s))) as [e|].
  { eexists. split; [reflexivity|]. split; [assumption|].
    split; [exact Hl1|]. simpl. rewrite visible_app, Hv1. reflexivity. }
  fold (Ref.hooked env self raw).
  match goal with |- context [bind (FileM.changed env self) _ ?st] => set (s2 := st) end.
  assert (Hwf2 : Ref.wf env self raw s2)
    by (apply (wf_ext (push (EvHook (path self)) s1)); [reflexivity..|exact Hwf1']).
  destruct (changed_spec s2 Hwf2 eq_refl)
    as (s3 & Hch & Hwf3 & Hl3 & Hh3 & Hv3).
  assert (Hf : count is_fetch (trace s2) = count is_fetch (trace s)).
  { simpl. rewrite count_app, (same_attrs_count is_fetch s s1 quiet_not_fetch Hv1).
    unfold count. simpl. lia. }
  rewrite Hf in Hch. run_bind Hch.
  simpl in Hl3, Hh3, Hv3. rewrite visible_app, Hv1 in Hv3. simpl in Hv3.
  destruct (env_head env (count is_fetch (trace s))) as [wire|e].
  2:{ exists s3. cbn [fst snd]. split; [reflexivity|]. split; [assumption|].
      split; [congruence|]. rewrite Hv3, <- app_assoc. reflexivity. }
  destruct (FileM.header_diff (Ref.local_of env self raw) (Ref.remote_of wire)).
  - assert (Hh3' : headers s3 = Some (Ref.hooked env self raw)) by congruence.
    assert (Hl3' : lastUpload s3 = 0) by congruence.
    destruct (transfer_spec s3 Hwf3 Hh3' Hl3') as (s4 & Ht & Hwf4 & Hh4 & Hl4 & Hv4).
    assert (Hp : count is_put (trace s3) = count is_put (trace s)).
    { rewrite <- (count_visible is_put (trace s3) quiet_not_put), Hv3, !count_app.
      rewrite (count_visible is_put (trace s) quiet_not_put). unfold count. simpl. lia. }
    rewrite Hp in Ht, Hl4, Hv4. run_bind Ht.
    set (pt := env_put env (count is_put (trace s))) in *.
    set (run := if FileM.PROGRESS_MIN_SIZE <? PyStr.len (Ref.payload_of env self raw)
                then Ref.cb_run self 0 (fst pt) else ([], 0, None)) in *.
    clearbody run. destruct run as [[logs final] err].
    cbn [fst snd] in *.
    assert (Hv4' : Ref.visible (trace s4) =
              (Ref.visible (trace s) ++
               [EvHook (path self); EvFetch (FileM.remoteURL self);
                Ref.put_event env self raw] ++ logs)%list).
    { rewrite Hv4, Hv3, <- !app_assoc. reflexivity. }
    destruct err as [e|].
    { exists s4. auto. }
    destruct (snd pt) as [e|].
    { exists s4. auto. }
    destruct (summary_spec true s4 Hwf4) as (s5 & Hs & Hwf5 & Hl5 & Hh5 & Hv5).
    cbv beta iota. rewrite Hs. exists s5. cbn [fst snd].
    split; [reflexivity|]. split; [assumption|].
    split; [congruence|]. rewrite Hv5, Hv4', <- !app_assoc. reflexivity.
  - unfold bind at 1, ret. cbv beta iota.
    destruct (summary_spec false s3 Hwf3) as (s5 & Hs & Hwf5 & Hl5 & Hh5 & Hv5).
    rewrite Hs. exists s5. cbn [fst snd]. split; [reflexivity|]. split; [assumption|].
    split; [congruence|]. rewrite Hv5, Hv3, <- !app_assoc. reflexivity.
Qed.

End Attempt.

(** ** The payload builder *)

Lemma wf_fresh (env : Env) (self : File) (raw : string) :
  env_read env (Ref.fullpath self) = Some raw -> Ref.wf env self raw fresh.
Proof. intros H. constructor; simpl; auto. Qed.

Lemma in_compress_types_In (ext : string) :
  FileM.in_compress_types ext = true <-> In ext ["html"; "css"; "js"; "txt"; "xml"].
Proof.
  unfold FileM.in_compress_types, FileM.COMPRESS_TYPES. rewrite existsb_exists. split.
  - intros (x & Hin & Heq). apply String.eqb_eq in Heq. subst x. exact Hin.
  - intros Hin. exists ext. split; [exact Hin|apply String.eqb_refl].
Qed.

(** C2. [shouldCompress] answers for every artifact whose build file can
    be read, and answers true exactly when the extension is one of html,
    css, js, txt, xml and the raw content has at least 1024 bytes; an
    empty artifact is never compressed. *)
Theorem shouldCompress_iff (env : Env) (self : File) (raw : string) (s : State) :
  Ref.wf env self raw s ->
  exists b,
    fst (FileM.shouldCompress env self s) = Ok b /\
    (b = true <->
       In (FileM.extension self) ["html"; "css"; "js"; "txt"; "xml"] /\
       1024 <= PyStr.len raw) /\
    (PyStr.len raw = 0 -> b = false).
Proof.
  intros Hwf.
  destruct (shouldCompress_spec env self raw s Hwf) as (s' & Hsc & _).
  exists (Ref.should self raw). rewrite Hsc. split; [reflexivity|].
  unfold Ref.should, FileM.COMPRESS_MIN_SIZE. split.
  - rewrite andb_true_iff, in_compress_types_In, Z.leb_le. reflexivity.
  - intros H0. apply andb_false_iff. right. apply Z.leb_gt. lia.
Qed.

Lemma shouldCompress_iff_witness :
  Ref.wf (Sample.flaky Sample.page_raw 0) Sample.page Sample.page_raw fresh /\
  exists b,
    fst (FileM.shouldCompress (Sample.flaky Sample.page_raw 0) Sample.page fresh) = Ok b /\
    (b = true <->
       In (FileM.extension Sample.page) ["html"; "css"; "js"; "txt"; "xml"] /\
       1024 <= PyStr.len Sample.page_raw) /\
    (PyStr.len Sample.page_raw = 0 -> b = false).
Proof.
  assert (H : Ref.wf (Sample.flaky Sample.page_raw 0) Sample.page Sample.page_raw fresh).
  { constructor; [reflexivity | left; reflexivity | left; reflexivity | reflexivity]. }
  split; [exact H|]. exact (shouldCompress_iff _ _ _ _ H).
Defined.

Example page_is_compressed :
  fst (FileM.shouldCompress (Sample.flaky Sample.page_raw 0) Sample.page fresh) = Ok true.
Proof. reflexivity. Qed.

Example logo_is_not_compressed :
  fst (FileM.shouldCompress (Sample.flaky Sample.logo_raw 0) Sample.logo fresh) = Ok false.
Proof. reflexivity. Qed.

(** C6. When [shouldCompress] is false the payload is the raw content
    and the checksum is the digest of the raw content; in every case the
    checksum is the digest of what [payload] returns. *)
Theorem payload_and_checksum (env : Env) (self : File) (raw : string) (s : State) :
  Ref.wf env self raw s ->
  (fst (FileM.shouldCompress env self s) = Ok false ->
     fst (FileM.payload env self s) = Ok raw /\
     fst (FileM.checksum env self s) = Ok (md5_hexdigest env raw)) /\
  (fst (FileM.shouldCompress env self s) = Ok true ->
     fst (FileM.payload env self s) = Ok (compressString env raw)) /\
  (exists p, fst (FileM.payload env self s) = Ok p /\
             fst (FileM.checksum env self s) = Ok (md5_hexdigest env p)).
Proof.
  intros Hwf.
  destruct (shouldCompress_spec env self raw s Hwf) as (s1 & Hsc & _).
  destruct (payload_spec env self raw s Hwf) as (s2 & Hp & _).
  destruct (checksum_spec env self raw s Hwf) as (s3 & Hcs & _).
  rewrite Hsc, Hp, Hcs. unfold Ref.payload_of. cbn [fst].
  split; [|split].
  - intros H. injection H as H. rewrite H. split; reflexivity.
  - intros H. injection H as H. rewrite H. reflexivity.
  - eexists. split; reflexivity.
Qed.

Lemma payload_and_checksum_witness :
  Ref.wf (Sample.flaky Sample.logo_raw 0) Sample.logo Sample.logo_raw fresh /\
  fst (FileM.payload (Sample.flaky Sample.logo_raw 0) Sample.logo fresh) = Ok Sample.logo_raw /\
  fst (FileM.checksum (Sample.flaky Sample.logo_raw 0) Sample.logo fresh) = Ok "md5-50".
Proof.
  assert (H : Ref.wf (Sample.flaky Sample.logo_raw 0) Sample.logo Sample.logo_raw fresh).
  { constructor; [reflexivity | left; reflexivity | left; reflexivity | reflexivity]. }
  split; [exact H|].
  exact (proj1 (payload_and_checksum _ _ _ _ H) eq_refl).
Defined.

(** ** Extensions *)

Section Strings.
Import PyStr.

Lemma append_nil_l (b : string) : "" +:+ b = b.
Proof. reflexivity. Qed.

Lemma append_cons (a : ascii) (s b : string) : String a s +:+ b = String a (s +:+ b).
Proof. reflexivity. Qed.

Lemma len_cons (a : ascii) (t : string) : len (String a t) = 1 + len t.
Proof. unfold len. simpl String.length. lia. Qed.

Lemma len_nonneg (s : string) : 0 <= len s.
Proof. unfold len. lia. Qed.

Lemma len_app (a b : string) : len (a +:+ b) = len a + len b.
Proof.
  induction a as [|c a IH].
  - rewrite append_nil_l. change (len "") with 0. lia.
  - rewrite append_cons, !len_cons, IH. lia.
Qed.

Lemma append_assoc (a b c : string) : (a +:+ b) +:+ c = a +:+ (b +:+ c).
Proof.
  induction a as [|x a IH]; [reflexivity|].
  rewrite !append_cons, IH. reflexivity.
Qed.

Lemma occurs_app (c : ascii) (a b : string) :
  occurs c (a +:+ b) = occurs c a || occurs c b.
Proof.
  induction a as [|x a IH]; [reflexivity|].
  rewrite append_cons. cbn [occurs]. rewrite IH. apply orb_assoc.
Qed.

Lemma rfind_from_app (c : ascii) (a b : string) : forall i last,
  rfind_from c (a +:+ b) i last = rfind_from c b (i + len a) (rfind_from c a i last).
Proof.
  induction a as [|x a IH]; intros i last.
  - rewrite append_nil_l. change (len "") with 0. cbn [rfind_from]. f_equal. lia.
  - rewrite append_cons. cbn [rfind_from]. rewrite IH, len_cons. f_equal. lia.
Qed.

Lemma rfind_from_absent (c : ascii) (s : string) : forall i last,
  occurs c s = false -> rfind_from c s i last = last.
Proof.
  induction s as [|x s IH]; intros i last H; cbn [rfind_from occurs] in *; [reflexivity|].
  apply orb_false_iff in H. destruct H as [Hx Hs]. rewrite Hx. apply IH. exact Hs.
Qed.

Lemma at_index_app (pre : string) (a : ascii) (t : string) :
  at_index (pre +:+ String a t) (len pre) = Some a.
Proof.
  unfold at_index. destruct (Z.ltb_spec (len pre) 0) as [H|_].
  - pose proof (len_nonneg pre). lia.
  - unfold len. rewrite Nat2Z.id.
    induction pre as [|x pre IH]; [reflexivity|].
    rewrite append_cons. exact IH.
Qed.

Lemma take_app (a b : string) : take (String.length a) (a +:+ b) = a.
Proof.
  induction a as [|x a IH]; [destruct b; reflexivity|].
  rewrite append_cons. cbn [String.length take]. rewrite IH. reflexivity.
Qed.

Lemma drop_app (a b : string) : drop (String.length a) (a +:+ b) = b.
Proof.
  induction a as [|x a IH]; [destruct b; reflexivity|].
  rewrite append_cons. exact IH.
Qed.

Lemma has_stem_name (name : string) : forall pre post,
  OsPath.has_stem (String.length name) (pre +:+ name +:+ post)
                  (len pre) (len pre + len name)
  = negb (only "." name).
Proof.
  induction name as [|a t IH]; intros pre post; [reflexivity|].
  cbn [OsPath.has_stem String.length only].
  rewrite len_cons.
  destruct (Z.ltb_spec (len pre) (len pre + (1 + len t))) as [_|H];
    [|pose proof (len_nonneg t); lia].
  rewrite append_cons, at_index_app.
  destruct (Ascii.eqb a ".") eqn:Ha; [|reflexivity].
  specialize (IH (pre +:+ String a "") post).
  rewrite append_assoc, append_cons, append_nil_l in IH.
  rewrite len_app, len_cons in IH. change (len "") with 0 in IH.
  replace (len pre + (1 + 0)) with (len pre + 1) in IH by lia.
  replace (len pre + 1 + len t) with (len pre + (1 + len t)) in IH by lia.
  rewrite IH. reflexivity.
Qed.

Lemma lstrip_absent (c : ascii) (s : string) : occurs c s = false -> lstrip c s = s.
Proof.
  destruct s as [|a t]; simpl; [reflexivity|].
  intros H. apply orb_false_iff in H. destruct H as [Ha _]. rewrite Ha. reflexivity.
Qed.

Lemma rstrip_absent (c : ascii) (s : string) : occurs c s = false -> rstrip c s = s.
Proof.
  induction s as [|a t IH]; simpl; [reflexivity|].
  intros H. apply orb_false_iff in H. destruct H as [Ha Ht].
  rewrite (IH Ht), Ha. destruct t; reflexivity.
Qed.

(** The extension of a path [dir name . e]: [dir] is empty or ends with
    a slash, [name] has a character other than the dot, and neither
    [name] nor [e] goes past the file name. *)
Lemma splitext_name_ext (dir name e : string) :
  (dir = "" \/ exists d, dir = d +:+ "/") ->
  occurs "/" name = false -> only "." name = false ->
  occurs "/" e = false -> occurs "." e = false ->
  OsPath.splitext (dir +:+ name +:+ "." +:+ e) = (dir +:+ name, "." +:+ e).
Proof.
  intros Hdir Hname Hdots Hse Hde. unfold OsPath.splitext.
  assert (Hsep : rfind "/" (dir +:+ name +:+ "." +:+ e) = len dir - 1).
  { unfold rfind. rewrite rfind_from_app, rfind_from_absent.
    - destruct Hdir as [->|[d ->]]; [reflexivity|].
      rewrite rfind_from_app, len_app, len_cons. change (len "") with 0.
      cbn [rfind_from]. change (Ascii.eqb "/" "/") with true. cbv beta iota. lia.
    - rewrite occurs_app, Hname, append_cons. cbn [occurs orb].
      change (Ascii.eqb "." "/") with false. exact Hse. }
  assert (Hdot : rfind "." (dir +:+ name +:+ "." +:+ e) = len dir + len name).
  { unfold rfind. rewrite <- append_assoc, rfind_from_app, append_cons, append_nil_l.
    cbn [rfind_from]. change (Ascii.eqb "." ".") with true. cbv beta iota.
    rewrite rfind_from_absent by exact Hde. rewrite len_app. lia. }
  rewrite Hsep, Hdot.
  destruct (Z.ltb_spec (len dir - 1) (len dir + len name)) as [_|H];
    [|pose proof (len_nonneg name); lia].
  replace (len dir - 1 + 1) with (len dir) by lia.
  replace (Z.to_nat (len dir + len name - len dir)) with (String.length name)
    by (unfold len; lia).
  rewrite has_stem_name, Hdots. cbn [negb].
  replace (Z.to_nat (len dir + len name)) with (String.length (dir +:+ name))
    by (rewrite <- len_app; unfold len; lia).
  rewrite <- append_assoc, take_app, drop_app. reflexivity.
Qed.

Lemma lower_ascii_idem (a : ascii) : lower_ascii (lower_ascii a) = lower_ascii a.
Proof. destruct a as [[] [] [] [] [] [] [] []]; reflexivity. Qed.

Lemma lower_idem (s : string) : lower (lower s) = lower s.
Proof.
  induction s as [|a t IH]; [reflexivity|].
  cbn [lower]. rewrite lower_ascii_idem, IH. reflexivity.
Qed.

End Strings.

(** C10. The extension is matched whatever its case and without its
    dot: for a path [dir name . e] whose extension [e] is, once in
    lower case, one of the compressible types, [extension] is [e] in
    lower case and [shouldCompress] depends on the size alone. *)
Theorem extension_ignores_case (env : Env) (self : File) (raw : string) (s : State)
        (dir name e : string) :
  path self = dir +:+ name +:+ "." +:+ e ->
  (dir = "" \/ exists d, dir = d +:+ "/") ->
  occurs "/" name = false -> only "." name = false ->
  occurs "/" e = false -> occurs "." e = false ->
  In (PyStr.lower e) ["html"; "css"; "js"; "txt"; "xml"] ->
  Ref.wf env self raw s ->
  FileM.extension self = PyStr.lower e /\
  fst (FileM.shouldCompress env self s) = Ok (1024 <=? PyStr.len raw).
Proof.
  intros Hpath Hdir Hname Hdots Hse Hde Hin Hwf.
  assert (Hext : FileM.extension self = PyStr.lower e).
  { unfold FileM.extension. rewrite Hpath, (splitext_name_ext dir name e) by assumption.
    cbn [snd]. rewrite append_cons, append_nil_l. unfold PyStr.strip.
    cbn [PyStr.lstrip]. change (Ascii.eqb "." ".") with true. cbv beta iota.
    rewrite lstrip_absent, rstrip_absent by exact Hde. reflexivity. }
  split; [exact Hext|].
  destruct (shouldCompress_spec env self raw s Hwf) as (s' & Hsc & _).
  rewrite Hsc. cbn [fst]. unfold Ref.should. rewrite Hext.
  apply in_compress_types_In in Hin. rewrite Hin. reflexivity.
Qed.

Lemma extension_ignores_case_witness :
  FileM.extension Sample.page = "html" /\
  fst (FileM.shouldCompress (Sample.flaky Sample.page_raw 0) Sample.page fresh)
  = Ok (1024 <=? PyStr.len Sample.page_raw).
Proof.
  apply (extension_ignores_case (Sample.flaky Sample.page_raw 0) Sample.page
           Sample.page_raw fresh "docs/" "index" "HTML").
  - reflexivity.
  - right. exists "docs". reflexivity.
  - reflexivity.
  - reflexivity.
  - reflexivity.
  - reflexivity.
  - simpl. left. reflexivity.
  - constructor; [reflexivity | left; reflexivity | left; reflexivity | reflexivity].
Defined.

Example extension_of_dotfile :
  FileM.extension {| site := Sample.the_site; path := "docs/.HTML" |} = "".
Proof. reflexivity. Qed.

(** ** Header sets *)

Lemma header_diff_true (local remote : gmap string string) :
  FileM.header_diff local remote = true <->
  exists k v, local !! k = Some v /\ remote !! k <> Some v.
Proof.
  unfold FileM.header_diff, CaseInsensitiveDict.items. rewrite existsb_exists. split.
  - intros ([k v] & Hin & Hne). exists k, v. cbn [fst snd] in Hne.
    apply list_elem_of_In, elem_of_map_to_list in Hin. split; [exact Hin|].
    apply negb_true_iff, bool_decide_eq_false in Hne. exact Hne.
  - intros (k & v & Hl & Hne). exists (k, v). split.
    + apply list_elem_of_In, elem_of_map_to_list. exact Hl.
    + cbn [fst snd]. apply negb_true_iff, bool_decide_eq_false. exact Hne.
Qed.

Lemma header_diff_false (local remote : gmap string string) :
  FileM.header_diff local remote = false <->
  forall k v, local !! k = Some v -> remote !! k = Some v.
Proof.
  split.
  - intros Hf k v Hl. destruct (decide (remote !! k = Some v)) as [H|H]; [exact H|].
    assert (Ht : FileM.header_diff local remote = true)
      by (apply header_diff_true; exists k, v; auto).
    congruence.
  - intros Hall. destruct (FileM.header_diff local remote) eqn:Hd; [|reflexivity].
    apply header_diff_true in Hd. destruct Hd as (k & v & Hl & Hne).
    exfalso. apply Hne, Hall, Hl.
Qed.

Lemma of_pairs_fold (k : string) (wire : list (string * string)) :
  forall m : gmap string string,
    fold_left (fun d kv => CaseInsensitiveDict.setitem (fst kv) (snd kv) d) wire m
      !! PyStr.lower k
    = match wire_get k wire with
      | Some v => Some v
      | None => m !! PyStr.lower k
      end.
Proof.
  induction wire as [|[n v] rest IH]; intros m; [reflexivity|].
  cbn [fold_left wire_get fst snd]. rewrite IH.
  destruct (wire_get k rest) as [v'|]; [reflexivity|].
  unfold CaseInsensitiveDict.setitem.
  destruct (String.eqb_spec (PyStr.lower n) (PyStr.lower k)) as [Heq|Hne].
  - rewrite Heq, lookup_insert_eq. reflexivity.
  - rewrite lookup_insert_ne by exact Hne. destruct (m !! PyStr.lower k); reflexivity.
Qed.

(** Looking a lower-case name up in the remote dictionary is looking the
    name up in the response regardless of case, quotes stripped. *)
Lemma remote_of_lookup (k : string) (wire : list (string * string)) :
  Ref.remote_of wire !! PyStr.lower k = PyStr.strip "034" <$> wire_get k wire.
Proof.
  unfold Ref.remote_of, CaseInsensitiveDict.of_pairs.
  rewrite lookup_fmap, of_pairs_fold, lookup_empty.
  destruct (wire_get k wire); reflexivity.
Qed.

Lemma wire_get_lower (k : string) (wire : list (string * string)) :
  wire_get (PyStr.lower k) wire = wire_get k wire.
Proof.
  induction wire as [|[n v] rest IH]; [reflexivity|].
  cbn [wire_get]. rewrite IH, lower_idem. reflexivity.
Qed.

(** Item assignments to a dictionary: under a name there is the value
    assigned last, or else what was there before. *)
Lemma assigned_lookup (k : string) (l : list (string * string)) (h : gmap string string) :
  Ref.assigned l h !! PyStr.lower k =
  match wire_get k l with
  | Some v => Some v
  | None => h !! PyStr.lower k
  end.
Proof. unfold Ref.assigned. apply of_pairs_fold. Qed.

Lemma assigned_names (l : list (string * string)) : forall h : gmap string string,
  (forall k v, h !! k = Some v -> PyStr.lower k = k) ->
  forall k v, Ref.assigned l h !! k = Some v -> PyStr.lower k = k.
Proof.
  induction l as [|[n x] l IH]; intros h Hh k v; [apply Hh|].
  unfold Ref.assigned. cbn [fold_left fst snd]. apply IH.
  intros k' v' H. unfold CaseInsensitiveDict.setitem in H.
  destruct (decide (k' = PyStr.lower n)) as [->|Hne]; [apply lower_idem|].
  rewrite lookup_insert_ne in H by congruence. exact (Hh k' v' H).
Qed.

Lemma assigned_keys (l : list (string * string)) : forall (h : gmap string string) k,
  is_Some (Ref.assigned l h !! k) ->
  is_Some (h !! k) \/ exists n v, In (n, v) l /\ k = PyStr.lower n.
Proof.
  induction l as [|[n x] l IH]; intros h k H; [left; exact H|].
  unfold Ref.assigned in H. cbn [fold_left fst snd] in H.
  destruct (IH _ k H) as [Hh|(n' & v' & Hin & Hk)].
  - unfold CaseInsensitiveDict.setitem in Hh.
    destruct (decide (k = PyStr.lower n)) as [->|Hne].
    + right. exists n, x. split; [left; reflexivity|reflexivity].
    + rewrite lookup_insert_ne in Hh by congruence. left. exact Hh.
  - right. exists n', v'. split; [right; exact Hin|exact Hk].
Qed.

Section LocalHeaders.
Variable env : Env.
Variable self : File.
Variable raw : string.

Lemma headers_of_etag : Ref.headers_of self raw !! "etag" = None.
Proof.
  unfold Ref.headers_of. destruct (Ref.should self raw).
  - rewrite lookup_insert_ne by discriminate. apply lookup_singleton_ne. discriminate.
  - apply lookup_singleton_ne. discriminate.
Qed.

Lemma headers_of_cache_control :
  Ref.headers_of self raw !! "cache-control" = Some "max-age=604800".
Proof.
  unfold Ref.headers_of. destruct (Ref.should self raw).
  - rewrite lookup_insert_ne by discriminate. apply lookup_singleton_eq.
  - apply lookup_singleton_eq.
Qed.

Lemma headers_of_content_encoding :
  Ref.headers_of self raw !! "content-encoding" =
  if Ref.should self raw then Some "gzip" else None.
Proof.
  unfold Ref.headers_of. destruct (Ref.should self raw).
  - apply lookup_insert_eq.
  - apply lookup_singleton_ne. discriminate.
Qed.

Lemma headers_of_names (k : string) :
  is_Some (Ref.headers_of self raw !! k) -> k = "cache-control" \/ k = "content-encoding".
Proof.
  intros [v H]. unfold Ref.headers_of in H.
  destruct (decide (k = "cache-control")) as [->|H1]; [left; reflexivity|].
  destruct (decide (k = "content-encoding")) as [->|H2]; [right; reflexivity|].
  destruct (Ref.should self raw).
  - rewrite lookup_insert_ne, lookup_singleton_ne in H by congruence. discriminate.
  - rewrite lookup_singleton_ne in H by congruence. discriminate.
Qed.

(** The headers the hook leaves: under a name, what the plugins
    assigned last, or else what [upload] built. *)
Lemma hooked_lookup (k : string) :
  Ref.hooked env self raw !! PyStr.lower k =
  match wire_get k (hook_headers env) with
  | Some v => Some v
  | None => Ref.headers_of self raw !! PyStr.lower k
  end.
Proof. apply assigned_lookup. Qed.

Lemma hooked_names (k v : string) :
  Ref.hooked env self raw !! k = Some v -> PyStr.lower k = k.
Proof.
  apply assigned_names. intros k' v' H.
  destruct (headers_of_names k' (ex_intro _ v' H)) as [->| ->]; reflexivity.
Qed.

Lemma local_of_etag :
  Ref.local_of env self raw !! "etag" =
  Some (md5_hexdigest env (Ref.payload_of env self raw)).
Proof. unfold Ref.local_of. apply lookup_insert_eq. Qed.

Lemma local_of_other (k : string) :
  k <> "etag" -> Ref.local_of env self raw !! k = Ref.hooked env self raw !! k.
Proof. intros H. unfold Ref.local_of. apply lookup_insert_ne. congruence. Qed.

Lemma local_of_cache_control :
  wire_get "Cache-Control" (hook_headers env) = None ->
  Ref.local_of env self raw !! "cache-control" = Some "max-age=604800".
Proof.
  intros H. rewrite local_of_other by discriminate.
  change "cache-control" with (PyStr.lower "Cache-Control").
  rewrite hooked_lookup, H. apply headers_of_cache_control.
Qed.

Lemma local_of_content_encoding :
  wire_get "Content-Encoding" (hook_headers env) = None ->
  Ref.local_of env self raw !! "content-encoding" =
  if Ref.should self raw then Some "gzip" else None.
Proof.
  intros H. rewrite local_of_other by discriminate.
  change "content-encoding" with (PyStr.lower "Content-Encoding").
  rewrite hooked_lookup, H. apply headers_of_content_encoding.
Qed.

(** The names of the local set are in lower case. *)
Lemma local_of_names (k v : string) :
  Ref.local_of env self raw !! k = Some v -> PyStr.lower k = k.
Proof.
  intros H. destruct (decide (k = "etag")) as [->|H1]; [reflexivity|].
  rewrite local_of_other in H by exact H1. exact (hooked_names k v H).
Qed.


(** With no object in the bucket the decision is "changed": the entity
    tag is always in the local set. *)
Lemma decision_missing :
  FileM.header_diff (Ref.local_of env self raw) (Ref.remote_of []) = true.
Proof.
  apply header_diff_true. eexists "etag", _. split; [apply local_of_etag|].
  unfold Ref.remote_of. rewrite lookup_fmap. cbn. rewrite lookup_empty. discriminate.
Qed.

End LocalHeaders.

(** ** The change decision *)

Section Decision.
Variable env : Env.
Variable self : File.
Variable raw : string.
Local Open Scope py_scope.

(** [upload] up to the local header set of [changed]. *)
Lemma local_prefix_spec s wire :
  Ref.wf env self raw s ->
  env_hook env (count is_hook (trace s)) = None ->
  env_head env (count is_fetch (trace s)) = Ok wire ->
  exists s',
    (FileM.build_headers env self ;; FileM.preDeployFile env self ;;
     _ <- FileM.getURLHeaders env (FileM.remoteURL self) ;;
     FileM.local_headers env self) s = (Ok (Ref.local_of env self raw), s').
Proof.
  intros Hwf Hhook Hhead.
  destruct (build_headers_spec env self raw s Hwf) as (s1 & Hb & Hwf1 & Hl1 & Hh1 & Hv1).
  run_bind Hb. run_bind (preDeployFile_run env self s1 _ Hh1).
  rewrite (same_attrs_count is_hook s s1 quiet_not_hook Hv1), Hhook.
  fold (Ref.hooked env self raw).
  match goal with |- context [bind (FileM.getURLHeaders env _) _ ?st] => set (s2 := st) end.
  assert (Hwf2 : Ref.wf env self raw s2).
  { apply (wf_ext env self raw (push (EvHook (path self)) s1)); [reflexivity..|].
    apply wf_push; [reflexivity|assumption]. }
  run_bind (getURLHeaders_run env (FileM.remoteURL self) s2).
  assert (Hf : count is_fetch (trace s2) = count is_fetch (trace s)).
  { simpl. rewrite count_app, (same_attrs_count is_fetch s s1 quiet_not_fetch Hv1).
    unfold count. simpl. lia. }
  rewrite Hf, Hhead.
  assert (Hwf3 : Ref.wf env self raw (push (EvFetch (FileM.remoteURL self)) s2))
    by (apply wf_push; [reflexivity|assumption]).
  destruct (local_headers_spec env self raw _ Hwf3 eq_refl) as (s3 & Hloc & _).
  exists s3. exact Hloc.
Qed.

(** [upload] up to the change decision. *)
Lemma changed_prefix_spec s wire :
  Ref.wf env self raw s ->
  env_hook env (count is_hook (trace s)) = None ->
  env_head env (count is_fetch (trace s)) = Ok wire ->
  exists s',
    (FileM.build_headers env self ;; FileM.preDeployFile env self ;;
     FileM.changed env self) s
    = (Ok (FileM.header_diff (Ref.local_of env self raw) (Ref.remote_of wire)), s').
Proof.
  intros Hwf Hhook Hhead.
  destruct (build_headers_spec env self raw s Hwf) as (s1 & Hb & Hwf1 & Hl1 & Hh1 & Hv1).
  run_bind Hb. run_bind (preDeployFile_run env self s1 _ Hh1).
  rewrite (same_attrs_count is_hook s s1 quiet_not_hook Hv1), Hhook.
  fold (Ref.hooked env self raw).
  match goal with |- context [FileM.changed env self ?st] => set (s2 := st) end.
  assert (Hwf2 : Ref.wf env self raw s2).
  { apply (wf_ext env self raw (push (EvHook (path self)) s1)); [reflexivity..|].
    apply wf_push; [reflexivity|assumption]. }
  destruct (changed_spec env self raw s2 Hwf2 eq_refl) as (s3 & Hch & _).
  assert (Hf : count is_fetch (trace s2) = count is_fetch (trace s)).
  { simpl. rewrite count_app, (same_attrs_count is_fetch s s1 quiet_not_fetch Hv1).
    unfold count. simpl. lia. }
  rewrite Hf, Hhead in Hch. exists s3. exact Hch.
Qed.

End Decision.

(** C3, as the code has it.  [upload] builds the headers with
    [max-age=604800] (one week in seconds) under [Cache-Control] and
    with [gzip] under [Content-Encoding] exactly when [shouldCompress]
    is true, then hands the object to the plugin hook.  The local set
    of the change decision is what the hook left, with the checksum of
    the payload under the entity tag: under any other name it holds
    the value a plugin assigned last, or else the value built.  So the
    cache directive is [max-age=604800] and the encoding marker stands
    for [shouldCompress] when no plugin assigns these headers, and the
    entity tag is the checksum in every case. *)
Theorem local_header_set (env : Env) (self : File) (raw : string) (s : State)
        (wire : list (string * string)) :
  Ref.wf env self raw s ->
  env_hook env (count is_hook (trace s)) = None ->
  env_head env (count is_fetch (trace s)) = Ok wire ->
  exists built local s0 s',
    FileM.build_headers env self s = (Ok tt, s0) /\
    headers s0 = Some built /\
    CaseInsensitiveDict.getitem "Cache-Control" built = Some "max-age=604800" /\
    FileM.CACHE_EXPIRATION = 7 * (24 * 60 * 60) /\
    (exists b, fst (FileM.shouldCompress env self s) = Ok b /\
               CaseInsensitiveDict.getitem "Content-Encoding" built =
               if b then Some "gzip" else None) /\
    (FileM.build_headers env self ;; FileM.preDeployFile env self ;;
     _ <- FileM.getURLHeaders env (FileM.remoteURL self) ;;
     FileM.local_headers env self)%py s = (Ok local, s') /\
    (exists p, fst (FileM.payload env self s) = Ok p /\
               CaseInsensitiveDict.getitem "ETag" local = Some (md5_hexdigest env p)) /\
    (forall name, PyStr.lower name <> "etag" ->
       CaseInsensitiveDict.getitem name local =
       match wire_get name (hook_headers env) with
       | Some v => Some v
       | None => CaseInsensitiveDict.getitem name built
       end) /\
    (wire_get "Cache-Control" (hook_headers env) = None ->
     CaseInsensitiveDict.getitem "Cache-Control" local = Some "max-age=604800") /\
    (wire_get "Content-Encoding" (hook_headers env) = None ->
     exists b, fst (FileM.shouldCompress env self s) = Ok b /\
               CaseInsensitiveDict.getitem "Content-Encoding" local =
               if b then Some "gzip" else None).
Proof.
  intros Hwf Hhook Hhead.
  destruct (build_headers_spec env self raw s Hwf) as (s0 & Hb & _ & _ & Hh0 & _).
  destruct (local_prefix_spec env self raw s wire Hwf Hhook Hhead) as (s' & Hrun).
  destruct (shouldCompress_spec env self raw s Hwf) as (s1 & Hsc & _).
  destruct (payload_spec env self raw s Hwf) as (s2 & Hp & _).
  exists (Ref.headers_of self raw), (Ref.local_of env self raw), s0, s'.
  split; [exact Hb|]. split; [exact Hh0|].
  split; [apply headers_of_cache_control|]. split; [reflexivity|]. split.
  { exists (Ref.should self raw). rewrite Hsc. split; [reflexivity|].
    apply headers_of_content_encoding. }
  split; [exact Hrun|]. split.
  { exists (Ref.payload_of env self raw). rewrite Hp. split; [reflexivity|].
    apply local_of_etag. }
  split; [|split].
  - intros name Hname. unfold CaseInsensitiveDict.getitem.
    rewrite local_of_other by exact Hname. apply hooked_lookup.
  - apply local_of_cache_control.
  - intros Hnone. exists (Ref.should self raw). rewrite Hsc. split; [reflexivity|].
    apply local_of_content_encoding. exact Hnone.
Qed.

Lemma local_header_set_witness :
  exists built local s0 s',
    FileM.build_headers (Sample.plugged Sample.logo_raw) Sample.logo fresh = (Ok tt, s0) /\
    headers s0 = Some built /\
    CaseInsensitiveDict.getitem "Cache-Control" built = Some "max-age=604800" /\
    FileM.CACHE_EXPIRATION = 7 * (24 * 60 * 60) /\
    (exists b, fst (FileM.shouldCompress (Sample.plugged Sample.logo_raw) Sample.logo fresh)
               = Ok b /\
               CaseInsensitiveDict.getitem "Content-Encoding" built =
               if b then Some "gzip" else None) /\
    (FileM.build_headers (Sample.plugged Sample.logo_raw) Sample.logo ;;
     FileM.preDeployFile (Sample.plugged Sample.logo_raw) Sample.logo ;;
     _ <- FileM.getURLHeaders (Sample.plugged Sample.logo_raw)
                              (FileM.remoteURL Sample.logo) ;;
     FileM.local_headers (Sample.plugged Sample.logo_raw) Sample.logo)%py fresh
    = (Ok local, s') /\
    (exists p, fst (FileM.payload (Sample.plugged Sample.logo_raw) Sample.logo fresh) = Ok p /\
               CaseInsensitiveDict.getitem "ETag" local = Some (Sample.toy_md5 p)) /\
    (forall name, PyStr.lower name <> "etag" ->
       CaseInsensitiveDict.getitem name local =
       match wire_get name [("Cache-Control", "no-cache"); ("Content-Encoding", "gzip");
                            ("X-Robots-Tag", "noindex")] with
       | Some v => Some v
       | None => CaseInsensitiveDict.getitem name built
       end) /\
    (wire_get "Cache-Control" [("Cache-Control", "no-cache"); ("Content-Encoding", "gzip");
                               ("X-Robots-Tag", "noindex")] = None ->
     CaseInsensitiveDict.getitem "Cache-Control" local = Some "max-age=604800") /\
    (wire_get "Content-Encoding" [("Cache-Control", "no-cache"); ("Content-Encoding", "gzip");
                                  ("X-Robots-Tag", "noindex")] = None ->
     exists b, fst (FileM.shouldCompress (Sample.plugged Sample.logo_raw) Sample.logo fresh)
               = Ok b /\
               CaseInsensitiveDict.getitem "Content-Encoding" local =
               if b then Some "gzip" else None).
Proof.
  refine (local_header_set (Sample.plugged Sample.logo_raw) Sample.logo Sample.logo_raw
                           fresh [] _ _ _).
  - constructor; [reflexivity | left; reflexivity | left; reflexivity | reflexivity].
  - reflexivity.
  - reflexivity.
Defined.

(** C3, as the spec has it, fails: the plugins are handed the object
    between the building of the headers and the change decision, and a
    plugin that assigns [Cache-Control] and [Content-Encoding] decides
    what the local set holds under these names.  Here the image is not
    to be compressed, and the local set says [no-cache] and [gzip]. *)
Lemma hook_overrides_local_headers :
  exists local s',
    (FileM.build_headers (Sample.plugged Sample.logo_raw) Sample.logo ;;
     FileM.preDeployFile (Sample.plugged Sample.logo_raw) Sample.logo ;;
     _ <- FileM.getURLHeaders (Sample.plugged Sample.logo_raw)
                              (FileM.remoteURL Sample.logo) ;;
     FileM.local_headers (Sample.plugged Sample.logo_raw) Sample.logo)%py fresh
    = (Ok local, s') /\
    fst (FileM.shouldCompress (Sample.plugged Sample.logo_raw) Sample.logo fresh) = Ok false /\
    CaseInsensitiveDict.getitem "Cache-Control" local = Some "no-cache" /\
    CaseInsensitiveDict.getitem "Content-Encoding" local = Some "gzip" /\
    CaseInsensitiveDict.getitem "X-Robots-Tag" local = Some "noindex" /\
    ~ CaseInsensitiveDict.getitem "Cache-Control" local = Some "max-age=604800" /\
    ~ (CaseInsensitiveDict.getitem "Content-Encoding" local = Some "gzip" <->
       fst (FileM.shouldCompress (Sample.plugged Sample.logo_raw) Sample.logo fresh) = Ok true).
Proof.
  assert (Hwf : Ref.wf (Sample.plugged Sample.logo_raw) Sample.logo Sample.logo_raw fresh).
  { constructor; [reflexivity | left; reflexivity | left; reflexivity | reflexivity]. }
  destruct (local_prefix_spec (Sample.plugged Sample.logo_raw) Sample.logo Sample.logo_raw
              fresh [] Hwf eq_refl eq_refl) as (s' & Hrun).
  exists (Ref.local_of (Sample.plugged Sample.logo_raw) Sample.logo Sample.logo_raw), s'.
  split; [exact Hrun|]. split; [reflexivity|].
  assert (Hcc : CaseInsensitiveDict.getitem "Cache-Control"
                  (Ref.local_of (Sample.plugged Sample.logo_raw) Sample.logo Sample.logo_raw)
                = Some "no-cache") by (vm_compute; reflexivity).
  assert (Hce : CaseInsensitiveDict.getitem "Content-Encoding"
                  (Ref.local_of (Sample.plugged Sample.logo_raw) Sample.logo Sample.logo_raw)
                = Some "gzip") by (vm_compute; reflexivity).
  split; [exact Hcc|]. split; [exact Hce|]. split; [vm_compute; reflexivity|].
  split.
  - rewrite Hcc. discriminate.
  - intros [H _]. specialize (H Hce). discriminate H.
Qed.

(** ** The retry envelope *)

Lemma retry_unfold {A} (r : exn -> bool) (n : nat) (d b : Z) (f : M A) (s : State) :
  retry r (S (S n)) d b f s =
  match f s with
  | (Ok a, s') => (Ok a, s')
  | (Raise e, s') =>
      if r e then retry r (S n) (d * b) b f (push (EvSleep d) s') else (Raise e, s')
  end.
Proof. reflexivity. Qed.

Lemma cb_run_total (self : File) (reports : list (Z * Z)) : forall last,
  Forall (fun r => snd r <> 0) reports -> snd (Ref.cb_run self last reports) = None.
Proof.
  induction reports as [|[current total] tl IH]; intros last H; [reflexivity|].
  inversion H as [|x l Hx Htl]; subst. cbn [snd] in Hx. cbn [Ref.cb_run].
  destruct (last <? current); [|apply IH; exact Htl].
  destruct (Z.eqb_spec total 0) as [H0|_]; [contradiction|].
  specialize (IH current Htl).
  destruct (Ref.cb_run self current tl) as [[logs final] err]. exact IH.
Qed.

Section Changed.
Variable env : Env.
Variable self : File.
Variable raw : string.

(** The hook never fails, the bucket never holds the artifact as built,
    and the store reports progress against a non-zero total. *)
Hypothesis Hhook : forall i, env_hook env i = None.
Hypothesis Hhead : forall i, exists wire,
  env_head env i = Ok wire /\
  FileM.header_diff (Ref.local_of env self raw) (Ref.remote_of wire) = true.
Hypothesis Hcb : forall i, Forall (fun r => snd r <> 0) (fst (env_put env i)).

(** One attempt: the hook, the HEAD request and the store are each
    called once, and the outcome is that of the store. *)
Lemma attempt_changed s :
  Ref.wf env self raw s ->
  exists s',
    FileM.upload_body env self s =
      (match snd (env_put env (count is_put (trace s))) with
       | Some e => Raise e
       | None => Ok {| out_changed := true;
                       out_size := PyStr.len (Ref.payload_of env self raw) |}
       end, s') /\
    Ref.wf env self raw s' /\
    count is_hook (trace s') = S (count is_hook (trace s)) /\
    count is_fetch (trace s') = S (count is_fetch (trace s)) /\
    count is_put (trace s') = S (count is_put (trace s)) /\
    sleeps (trace s') = sleeps (trace s).
Proof.
  intros Hwf.
  destruct (upload_body_attempt env self raw s Hwf) as (s' & Hrun & Hwf' & _ & Hv).
  unfold Ref.attempt in Hrun, Hv. rewrite Hhook in Hrun, Hv.
  destruct (Hhead (count is_fetch (trace s))) as (wire & Hw & Hd).
  rewrite Hw, Hd in Hrun, Hv.
  set (pt := env_put env (count is_put (trace s))) in *.
  assert (Hlogs : exists logs final,
    (if FileM.PROGRESS_MIN_SIZE <? PyStr.len (Ref.payload_of env self raw)
     then Ref.cb_run self 0 (fst pt) else ([], 0, None)) = (logs, final, None) /\
    Forall (fun e => is_progress e = true) logs).
  { destruct (FileM.PROGRESS_MIN_SIZE <? PyStr.len (Ref.payload_of env self raw)).
    - pose proof (cb_run_total self (fst pt) 0 (Hcb _)) as Hnone.
      pose proof (cb_run_progress self (fst pt) 0) as Hprog.
      destruct (Ref.cb_run self 0 (fst pt)) as [[logs final] err].
      cbn [fst snd] in *. subst err. exists logs, final. auto.
    - exists [], 0. auto. }
  destruct Hlogs as (logs & final & Hlogs & Hprog).
  rewrite Hlogs in Hrun, Hv.
  assert (Hcount : forall p,
    (forall e, Ref.quiet e = true -> p e = false) ->
    (forall e, is_progress e = true -> p e = false) ->
    p (Ref.summary_event env self raw true) = false ->
    count p (trace s') =
    (count p (trace s) +
     count p [EvHook (path self); EvFetch (FileM.remoteURL self);
              Ref.put_event env self raw])%nat).
  { intros p Hq Hp Hs.
    rewrite <- (count_visible p (trace s') Hq), Hv, count_app, (count_visible p (trace s) Hq).
    f_equal. destruct (snd pt); cbn [snd]; rewrite !count_app, (progress_count p logs Hp Hprog).
    - lia.
    - rewrite (count_single p (Ref.summary_event env self raw true)), Hs. lia. }
  exists s'. split; [destruct (snd pt); exact Hrun|]. split; [exact Hwf'|].
  split; [|split; [|split]].
  - rewrite (Hcount is_hook quiet_not_hook); [unfold count; simpl; lia| |reflexivity].
    intros e He. destruct e; simpl in *; congruence.
  - rewrite (Hcount is_fetch quiet_not_fetch); [unfold count; simpl; lia| |reflexivity].
    intros e He. destruct e; simpl in *; congruence.
  - rewrite (Hcount is_put quiet_not_put); [unfold count; simpl; lia| |reflexivity].
    intros e He. destruct e; simpl in *; congruence.
  - rewrite <- (sleeps_visible (trace s')), Hv, sleeps_app, sleeps_visible.
    assert (Hsl : sleeps logs = []).
    { clear -Hprog. induction Hprog as [|e l He _ IH]; [reflexivity|].
      destruct e; try discriminate. exact IH. }
    destruct (snd pt); cbn [snd]; rewrite !sleeps_app, Hsl; apply app_nil_r.
Qed.

Lemma count_push (p : event -> bool) (e : event) (s : State) :
  count p (trace (push e s)) = (count p (trace s) + if p e then 1 else 0)%nat.
Proof. simpl. rewrite count_app, count_single. reflexivity. Qed.

(** [m] transient failures of the store followed by an attempt whose
    outcome is final: either the tries are used up or the store did not
    fail with a socket error. *)
Lemma retry_run (m : nat) : forall (n : nat) (d : Z) (s : State),
  Ref.wf env self raw s ->
  (m < n)%nat ->
  (forall i, (i < m)%nat ->
     snd (env_put env (count is_put (trace s) + i)) = Some SocketError) ->
  (S m = n \/ snd (env_put env (count is_put (trace s) + m)) <> Some SocketError) ->
  exists s',
    retry is_socket_error n d 2 (FileM.upload_body env self) s =
      (match snd (env_put env (count is_put (trace s) + m)) with
       | Some e => Raise e
       | None => Ok {| out_changed := true;
                       out_size := PyStr.len (Ref.payload_of env self raw) |}
       end, s') /\
    Ref.wf env self raw s' /\
    count is_hook (trace s') = (count is_hook (trace s) + S m)%nat /\
    count is_fetch (trace s') = (count is_fetch (trace s) + S m)%nat /\
    count is_put (trace s') = (count is_put (trace s) + S m)%nat /\
    sleeps (trace s') = (sleeps (trace s) ++ delays d 2 m)%list.
Proof.
  induction m as [|m IH]; intros n d s Hwf Hn Hfail Hlast.
  - destruct (attempt_changed s Hwf) as (s' & Hrun & Hwf' & Hh & Hf & Hp & Hs).
    rewrite Nat.add_0_r in *.
    assert (Hres : retry is_socket_error n d 2 (FileM.upload_body env self) s =
                   FileM.upload_body env self s).
    { destruct n as [|[|n]]; [lia|reflexivity|].
      rewrite retry_unfold, Hrun.
      destruct (snd (env_put env (count is_put (trace s)))) as [e|]; [|reflexivity].
      destruct Hlast as [Hlast|Hlast]; [lia|].
      destruct e; try reflexivity. contradiction. }
    exists s'. rewrite Hres. split; [exact Hrun|]. split; [exact Hwf'|].
    cbn [delays]. rewrite app_nil_r. repeat split; lia || assumption.
  - destruct n as [|[|n]]; [lia|lia|].
    destruct (attempt_changed s Hwf) as (s1 & Hrun & Hwf1 & Hh & Hf & Hp & Hs).
    pose proof (Hfail 0%nat ltac:(lia)) as H0. rewrite Nat.add_0_r in H0.
    rewrite H0 in Hrun. rewrite retry_unfold, Hrun. cbn [is_socket_error].
    assert (Hwf2 : Ref.wf env self raw (push (EvSleep d) s1))
      by (apply wf_push; [reflexivity|exact Hwf1]).
    assert (Hp2 : count is_put (trace (push (EvSleep d) s1)) = S (count is_put (trace s)))
      by (rewrite count_push, Hp; cbn; lia).
    destruct (IH (S n) (d * 2) (push (EvSleep d) s1) Hwf2 ltac:(lia))
      as (s' & Hrun' & Hwf' & Hh' & Hf' & Hp' & Hs').
    + intros i Hi. rewrite Hp2. replace (S (count is_put (trace s)) + i)%nat
        with (count is_put (trace s) + S i)%nat by lia. apply Hfail. lia.
    + rewrite Hp2. replace (S (count is_put (trace s)) + m)%nat
        with (count is_put (trace s) + S m)%nat by lia.
      destruct Hlast as [Hlast|Hlast]; [left; lia|right; exact Hlast].
    + rewrite Hp2 in Hrun'. replace (S (count is_put (trace s)) + m)%nat
        with (count is_put (trace s) + S m)%nat in Hrun' by lia.
      exists s'. split; [exact Hrun'|]. split; [exact Hwf'|].
      rewrite count_push in Hh', Hf', Hp'. cbn [is_hook is_fetch is_put] in Hh', Hf', Hp'.
      split; [lia|]. split; [lia|]. split; [lia|].
      rewrite Hs'. cbn [push trace]. rewrite sleeps_app, Hs. cbn [delays].
      rewrite <- app_assoc. reflexivity.
Qed.

End Changed.

Section Envelope.
Variable env : Env.
Variable self : File.
Variable raw : string.

(** Whatever the collaborators answer, one attempt calls the hook once,
    the HEAD request and the store at most once, and never sleeps. *)
Lemma attempt_shape (hk : option exn) (hd : result (list (string * string)))
      (pt : list (Z * Z) * option exn) :
  let ext := snd (Ref.attempt env self raw hk hd pt) in
  sleeps ext = [] /\ count is_hook ext = 1%nat /\
  (count is_fetch ext <= 1)%nat /\ (count is_put ext <= 1)%nat.
Proof.
  unfold Ref.attempt.
  destruct hk as [e|]; [shape|].
  destruct hd as [wire|e]; [|shape].
  destruct (FileM.header_diff _ _); [|shape].
  assert (Hlogs : Forall (fun e => is_progress e = true)
    (fst (fst (if FileM.PROGRESS_MIN_SIZE <? PyStr.len (Ref.payload_of env self raw)
               then Ref.cb_run self 0 (fst pt) else ([], 0, None))))).
  { destruct (FileM.PROGRESS_MIN_SIZE <? _); [apply cb_run_progress|constructor]. }
  destruct (if FileM.PROGRESS_MIN_SIZE <? _ then _ else _) as [[logs final] err].
  cbn [fst snd] in Hlogs.
  assert (Hsl : sleeps logs = []).
  { clear -Hlogs. induction Hlogs as [|e l He _ IH]; [reflexivity|].
    destruct e; try discriminate. exact IH. }
  assert (Hh : count is_hook logs = 0%nat)
    by (apply progress_count; [intros e He; destruct e; simpl in *; congruence|exact Hlogs]).
  assert (Hf : count is_fetch logs = 0%nat)
    by (apply progress_count; [intros e He; destruct e; simpl in *; congruence|exact Hlogs]).
  assert (Hp : count is_put logs = 0%nat)
    by (apply progress_count; [intros e He; destruct e; simpl in *; congruence|exact Hlogs]).
  destruct err as [e|]; [|destruct (snd pt) as [e|]]; cbn [snd];
    rewrite ?sleeps_app, ?count_app, ?Hsl, ?Hh, ?Hf, ?Hp; shape.
Qed.

(** One attempt from any state of a readable artifact. *)
Lemma attempt_any s :
  Ref.wf env self raw s ->
  exists r s',
    FileM.upload_body env self s = (r, s') /\ Ref.wf env self raw s' /\
    sleeps (trace s') = sleeps (trace s) /\
    count is_hook (trace s') = S (count is_hook (trace s)) /\
    (count is_fetch (trace s') <= S (count is_fetch (trace s)))%nat /\
    (count is_put (trace s) <= count is_put (trace s') <= S (count is_put (trace s)))%nat.
Proof.
  intros Hwf.
  destruct (upload_body_attempt env self raw s Hwf) as (s' & Hrun & Hwf' & _ & Hv).
  destruct (attempt_shape (env_hook env (count is_hook (trace s)))
                          (env_head env (count is_fetch (trace s)))
                          (env_put env (count is_put (trace s))))
    as (Hsl & Hh & Hf & Hp).
  eexists _, s'. split; [exact Hrun|]. split; [exact Hwf'|].
  split; [|split; [|split]].
  - rewrite <- (sleeps_visible (trace s')), Hv, sleeps_app, sleeps_visible, Hsl.
    apply app_nil_r.
  - rewrite <- (count_visible is_hook (trace s') quiet_not_hook), Hv, count_app,
      (count_visible is_hook (trace s) quiet_not_hook), Hh. lia.
  - rewrite <- (count_visible is_fetch (trace s') quiet_not_fetch), Hv, count_app,
      (count_visible is_fetch (trace s) quiet_not_fetch). lia.
  - rewrite <- (count_visible is_put (trace s') quiet_not_put), Hv, count_app,
      (count_visible is_put (trace s) quiet_not_put). lia.
Qed.

(** The envelope in general: [j] retries, each after a sleep, hence
    [j + 1] attempts, with [j + 1] at most [max tries 1]. *)
Lemma retry_any (n : nat) : forall (d : Z) (s : State),
  Ref.wf env self raw s ->
  exists j r s',
    (j < Nat.max n 1)%nat /\
    retry is_socket_error n d 2 (FileM.upload_body env self) s = (r, s') /\
    Ref.wf env self raw s' /\
    sleeps (trace s') = (sleeps (trace s) ++ delays d 2 j)%list /\
    count is_hook (trace s') = (count is_hook (trace s) + S j)%nat /\
    (count is_fetch (trace s') <= count is_fetch (trace s) + S j)%nat /\
    (count is_put (trace s) <= count is_put (trace s') <= count is_put (trace s) + S j)%nat.
Proof.
  induction n as [|n IH]; intros d s Hwf.
  - destruct (attempt_any s Hwf) as (r & s' & Hrun & Hwf' & Hs & Hh & Hf & Hp).
    exists 0%nat, r, s'. cbn [delays]. rewrite app_nil_r.
    repeat (split; [first [lia|assumption]|]). lia.
  - destruct (attempt_any s Hwf) as (r & s1 & Hrun & Hwf1 & Hs & Hh & Hf & Hp).
    destruct n as [|n].
    + exists 0%nat, r, s1. cbn [delays]. rewrite app_nil_r.
      repeat (split; [first [lia|assumption]|]). lia.
    + rewrite retry_unfold, Hrun.
      destruct r as [a|e].
      * exists 0%nat, (Ok a), s1. cbn [delays]. rewrite app_nil_r.
        repeat (split; [first [lia|reflexivity|assumption]|]). lia.
      * destruct (is_socket_error e).
        -- assert (Hwf2 : Ref.wf env self raw (push (EvSleep d) s1))
             by (apply wf_push; [reflexivity|exact Hwf1]).
           destruct (IH (d * 2) (push (EvSleep d) s1) Hwf2)
             as (j & r' & s' & Hj & Hrun' & Hwf' & Hs' & Hh' & Hf' & Hp').
           rewrite !count_push in *. cbn [is_hook is_fetch is_put] in *.
           exists (S j), r', s'. split; [lia|]. split; [exact Hrun'|].
           split; [exact Hwf'|]. split.
           { rewrite Hs'. cbn [push trace]. rewrite sleeps_app, Hs. cbn [delays].
             rewrite <- app_assoc. reflexivity. }
           split; [lia|]. split; lia.
        -- exists 0%nat, (Raise e), s1. cbn [delays]. rewrite app_nil_r.
           repeat (split; [first [lia|reflexivity|assumption]|]). lia.
Qed.

End Envelope.

(** C7. The first call of [payload] stores its result in [_payload];
    from then on every call returns the stored bytes and leaves the
    object and the trace as they are: the compressor is not run again,
    and a whole [upload], retries included, runs it at most once. *)
Theorem payload_cached_for_life (env : Env) (self : File) (raw : string) (s : State) :
  Ref.wf env self raw s ->
  (exists p s',
     FileM.payload env self s = (Ok p, s') /\
     _payload s' = Some p /\
     FileM.payload env self s' = (Ok p, s') /\
     (forall s'', _payload s'' = Some p -> FileM.payload env self s'' = (Ok p, s'')) /\
     (count is_compress (trace s') <= 1)%nat) /\
  (forall r s', FileM.upload env self s = (r, s') ->
     (count is_compress (trace s') <= 1)%nat /\
     (forall p, _payload s' = Some p -> fst (FileM.payload env self s) = Ok p)).
Proof.
  intros Hwf. split.
  - destruct (payload_spec env self raw s Hwf) as (s' & Hp & Hwf' & _ & Hc).
    exists (Ref.payload_of env self raw), s'.
    split; [exact Hp|]. split; [exact Hc|].
    split; [apply payload_hit; exact Hc|].
    split; [intros s'' H; apply payload_hit; exact H|].
    rewrite (Ref.wf_compress _ _ _ _ Hwf'), Hc. destruct (Ref.should self raw); lia.
  - intros r s' Hrun.
    destruct (retry_any env self raw 5 3 s Hwf) as (j & r' & s1 & _ & Hrun' & Hwf1 & _).
    unfold FileM.upload in Hrun. rewrite Hrun in Hrun'. injection Hrun' as _ <-.
    split.
    + rewrite (Ref.wf_compress _ _ _ _ Hwf1).
      destruct (_payload s'); [destruct (Ref.should self raw)|]; lia.
    + intros p Hsome.
      destruct (Ref.wf_payload _ _ _ _ Hwf1) as [Hn|Hs]; [congruence|].
      destruct (payload_spec env self raw s Hwf) as (sp & Hp & _).
      rewrite Hp. cbn [fst]. congruence.
Qed.

Lemma payload_cached_for_life_witness :
  exists p s',
    FileM.payload (Sample.flaky Sample.page_raw 0) Sample.page fresh = (Ok p, s') /\
    _payload s' = Some p /\
    FileM.payload (Sample.flaky Sample.page_raw 0) Sample.page s' = (Ok p, s') /\
    (forall s'', _payload s'' = Some p ->
       FileM.payload (Sample.flaky Sample.page_raw 0) Sample.page s'' = (Ok p, s'')) /\
    (count is_compress (trace s') <= 1)%nat.
Proof.
  refine (proj1 (payload_cached_for_life (Sample.flaky Sample.page_raw 0) Sample.page
                                         Sample.page_raw fresh _)).
  constructor; [reflexivity | left; reflexivity | left; reflexivity | reflexivity].
Defined.

Example page_compressed_once :
  count is_compress
    (trace (snd (FileM.upload (Sample.flaky Sample.page_raw 4) Sample.page fresh))) = 1%nat.
Proof. vm_compute. reflexivity. Qed.

Lemma delays_firstn (k : nat) :
  (k <= 4)%nat -> delays 3 2 k = firstn k [3; 6; 12; 24].
Proof. intros H. do 5 (destruct k as [|k]; [reflexivity|]). lia. Qed.

(** C4. The envelope around [upload] makes up to 5 attempts, sleeping
    3, 6, 12 and 24 seconds between them.  An attempt that succeeds or
    that fails with anything but a socket error ends the call with that
    outcome; after [k] socket errors of the store the outcome is that of
    attempt [k + 1], and the fifth failure is handed to the caller. *)
Theorem retry_policy (env : Env) (self : File) (raw : string) (k : nat) :
  (forall s a s', FileM.upload_body env self s = (Ok a, s') ->
                  FileM.upload env self s = (Ok a, s')) /\
  (forall s e s', FileM.upload_body env self s = (Raise e, s') ->
                  e <> SocketError ->
                  FileM.upload env self s = (Raise e, s')) /\
  (env_read env (Ref.fullpath self) = Some raw ->
   exists j r s',
     FileM.upload env self fresh = (r, s') /\ (j <= 4)%nat /\
     sleeps (trace s') = firstn j [3; 6; 12; 24] /\
     (count is_put (trace s') <= S j)%nat) /\
  (env_read env (Ref.fullpath self) = Some raw ->
   (forall i, env_hook env i = None) ->
   (forall i, exists wire,
      env_head env i = Ok wire /\
      FileM.header_diff (Ref.local_of env self raw) (Ref.remote_of wire) = true) ->
   (forall i, Forall (fun r => snd r <> 0) (fst (env_put env i))) ->
   (k <= 4)%nat ->
   (forall i, (i < k)%nat -> snd (env_put env i) = Some SocketError) ->
   (k = 4%nat \/ snd (env_put env k) <> Some SocketError) ->
   exists s',
     FileM.upload env self fresh =
       (match snd (env_put env k) with
        | Some e => Raise e
        | None => Ok {| out_changed := true;
                        out_size := PyStr.len (Ref.payload_of env self raw) |}
        end, s') /\
     count is_put (trace s') = S k /\
     sleeps (trace s') = firstn k [3; 6; 12; 24]).
Proof.
  split; [|split; [|split]].
  - intros s a s' H. unfold FileM.upload. rewrite retry_unfold, H. reflexivity.
  - intros s e s' H He. unfold FileM.upload. rewrite retry_unfold, H.
    destruct e; try reflexivity. contradiction.
  - intros Hread.
    destruct (retry_any env self raw 5 3 fresh (wf_fresh env self raw Hread))
      as (j & r & s' & Hj & Hrun & _ & Hs & _ & _ & Hp).
    exists j, r, s'. split; [exact Hrun|]. cbn in Hj. split; [lia|].
    split; [|cbn in Hp; lia]. rewrite Hs. cbn. apply delays_firstn. lia.
  - intros Hread Hhook Hhead Hcb Hk Hfail Hlast.
    destruct (retry_run env self raw Hhook Hhead Hcb k 5 3 fresh
                (wf_fresh env self raw Hread) ltac:(lia))
      as (s' & Hrun & _ & _ & _ & Hp & Hs).
    + intros i Hi. cbn. apply Hfail, Hi.
    + cbn. destruct Hlast as [->|H]; [left; reflexivity|right; exact H].
    + cbn in Hrun, Hp, Hs. exists s'. split; [exact Hrun|]. split; [exact Hp|].
      rewrite Hs. apply delays_firstn, Hk.
Qed.

Lemma retry_policy_witness :
  exists s',
    FileM.upload (Sample.flaky Sample.page_raw 4) Sample.page fresh =
      (Ok {| out_changed := true; out_size := 23 |}, s') /\
    count is_put (trace s') = 5%nat /\
    sleeps (trace s') = [3; 6; 12; 24].
Proof.
  refine (proj2 (proj2 (proj2 (retry_policy (Sample.flaky Sample.page_raw 4) Sample.page
                                            Sample.page_raw 4))) _ _ _ _ _ _ _).
  - reflexivity.
  - intros i. reflexivity.
  - intros i. exists []. split; [reflexivity|vm_compute; reflexivity].
  - intros i. repeat constructor; discriminate.
  - lia.
  - intros i Hi. do 4 (destruct i as [|i]; [reflexivity|]). lia.
  - left. reflexivity.
Defined.

Example five_socket_errors_are_fatal :
  fst (FileM.upload (Sample.flaky Sample.page_raw 5) Sample.page fresh) = Raise SocketError /\
  count is_put (trace (snd (FileM.upload (Sample.flaky Sample.page_raw 5) Sample.page fresh)))
  = 5%nat.
Proof. vm_compute. split; reflexivity. Qed.

(** C5, as the code has it.  The envelope is around the whole of
    [upload]: every attempt runs the hook again, and the HEAD request
    after it; with [k] socket errors of the store, hook, HEAD request
    and store are each called [k + 1] times. *)
Theorem retry_reruns_hook_and_fetch (env : Env) (self : File) (raw : string) (k : nat) :
  (env_read env (Ref.fullpath self) = Some raw ->
   exists j r s',
     FileM.upload env self fresh = (r, s') /\
     length (sleeps (trace s')) = j /\
     count is_hook (trace s') = S j /\
     (count is_fetch (trace s') <= S j)%nat) /\
  (env_read env (Ref.fullpath self) = Some raw ->
   (forall i, env_hook env i = None) ->
   (forall i, exists wire,
      env_head env i = Ok wire /\
      FileM.header_diff (Ref.local_of env self raw) (Ref.remote_of wire) = true) ->
   (forall i, Forall (fun r => snd r <> 0) (fst (env_put env i))) ->
   (k <= 4)%nat ->
   (forall i, (i < k)%nat -> snd (env_put env i) = Some SocketError) ->
   (k = 4%nat \/ snd (env_put env k) <> Some SocketError) ->
   exists r s',
     FileM.upload env self fresh = (r, s') /\
     count is_put (trace s') = S k /\
     count is_hook (trace s') = S k /\
     count is_fetch (trace s') = S k).
Proof.
  split.
  - intros Hread.
    destruct (retry_any env self raw 5 3 fresh (wf_fresh env self raw Hread))
      as (j & r & s' & Hj & Hrun & _ & Hs & Hh & Hf & _).
    exists j, r, s'. split; [exact Hrun|]. cbn in Hs, Hh, Hf.
    split; [|split; [exact Hh|exact Hf]].
    rewrite Hs. clear. generalize 3. induction j as [|j IH]; intros d; [reflexivity|].
    cbn. f_equal. apply IH.
  - intros Hread Hhook Hhead Hcb Hk Hfail Hlast.
    destruct (retry_run env self raw Hhook Hhead Hcb k 5 3 fresh
                (wf_fresh env self raw Hread) ltac:(lia))
      as (s' & Hrun & _ & Hh & Hf & Hp & _).
    + intros i Hi. cbn. apply Hfail, Hi.
    + cbn. destruct Hlast as [->|H]; [left; reflexivity|right; exact H].
    + cbn in Hrun, Hp, Hh, Hf. eexists _, s'. split; [exact Hrun|]. auto.
Qed.

Lemma retry_reruns_hook_and_fetch_witness :
  exists r s',
    FileM.upload (Sample.flaky Sample.page_raw 1) Sample.page fresh = (r, s') /\
    count is_put (trace s') = 2%nat /\
    count is_hook (trace s') = 2%nat /\
    count is_fetch (trace s') = 2%nat.
Proof.
  refine (proj2 (retry_reruns_hook_and_fetch (Sample.flaky Sample.page_raw 1) Sample.page
                                             Sample.page_raw 1) _ _ _ _ _ _ _).
  - reflexivity.
  - intros i. reflexivity.
  - intros i. exists []. split; [reflexivity|vm_compute; reflexivity].
  - intros i. repeat constructor; discriminate.
  - lia.
  - intros i Hi. destruct i as [|i]; [reflexivity|lia].
  - right. discriminate.
Defined.

(** C5, as the spec has it, fails: one socket error of the store makes
    the hook and the HEAD request run twice in one call of [upload]. *)
Lemma hook_and_fetch_run_twice :
  fst (FileM.upload (Sample.flaky Sample.page_raw 1) Sample.page fresh)
    = Ok {| out_changed := true; out_size := 23 |} /\
  count is_put
    (trace (snd (FileM.upload (Sample.flaky Sample.page_raw 1) Sample.page fresh))) = 2%nat /\
  count is_hook
    (trace (snd (FileM.upload (Sample.flaky Sample.page_raw 1) Sample.page fresh))) = 2%nat /\
  count is_fetch
    (trace (snd (FileM.upload (Sample.flaky Sample.page_raw 1) Sample.page fresh))) = 2%nat /\
  ~ (count is_hook
       (trace (snd (FileM.upload (Sample.flaky Sample.page_raw 1) Sample.page fresh))) = 1%nat /\
     count is_fetch
       (trace (snd (FileM.upload (Sample.flaky Sample.page_raw 1) Sample.page fresh))) = 1%nat).
Proof.
  vm_compute. repeat split; try reflexivity. intros [H _]. discriminate H.
Qed.

(** ** Sync, changed or not *)

Section Sync.
Variable env : Env.
Variable self : File.
Variable raw : string.

(** One attempt when hook and HEAD request succeed: the flag returned is
    the change decision, and the store is called exactly when it is
    true. *)
Lemma attempt_decided s wire :
  Ref.wf env self raw s ->
  env_hook env (count is_hook (trace s)) = None ->
  env_head env (count is_fetch (trace s)) = Ok wire ->
  let b := FileM.header_diff (Ref.local_of env self raw) (Ref.remote_of wire) in
  exists r s',
    FileM.upload_body env self s = (r, s') /\
    (forall o, r = Ok o ->
       o = {| out_changed := b; out_size := PyStr.len (Ref.payload_of env self raw) |}) /\
    (b = false -> exists o, r = Ok o) /\
    count is_put (trace s') = (count is_put (trace s) + if b then 1 else 0)%nat /\
    sleeps (trace s') = sleeps (trace s) /\
    (b = true -> In (Ref.put_event env self raw) (trace s')).
Proof.
  intros Hwf Hhook Hhead b.
  destruct (upload_body_attempt env self raw s Hwf) as (s' & Hrun & Hwf' & _ & Hv).
  destruct (attempt_shape env self raw (env_hook env (count is_hook (trace s)))
                          (env_head env (count is_fetch (trace s)))
                          (env_put env (count is_put (trace s))))
    as (Hsl & _ & _ & _).
  assert (Hsleep : sleeps (trace s') = sleeps (trace s)).
  { rewrite <- (sleeps_visible (trace s')), Hv, sleeps_app, sleeps_visible, Hsl.
    apply app_nil_r. }
  assert (Hput : forall ext, Ref.visible (trace s') = (Ref.visible (trace s) ++ ext)%list ->
                 count is_put (trace s') = (count is_put (trace s) + count is_put ext)%nat).
  { intros ext He.
    rewrite <- (count_visible is_put (trace s') quiet_not_put), He, count_app,
      (count_visible is_put (trace s) quiet_not_put). reflexivity. }
  assert (Hin : forall ext, Ref.visible (trace s') = (Ref.visible (trace s) ++ ext)%list ->
                In (Ref.put_event env self raw) ext ->
                In (Ref.put_event env self raw) (trace s')).
  { intros ext He Hi.
    assert (Hi' : In (Ref.put_event env self raw) (Ref.visible (trace s')))
      by (rewrite He; apply in_or_app; right; exact Hi).
    unfold Ref.visible in Hi'. apply filter_In in Hi'. tauto. }
  unfold Ref.attempt in Hrun, Hv. rewrite Hhook, Hhead in Hrun, Hv.
  fold b in Hrun, Hv. eexists _, s'. split; [exact Hrun|].
  destruct b.
  - set (run := if FileM.PROGRESS_MIN_SIZE <? PyStr.len (Ref.payload_of env self raw)
                then Ref.cb_run self 0 (fst (env_put env (count is_put (trace s))))
                else ([], 0, None)) in *.
    assert (Hlogs : count is_put (fst (fst run)) = 0%nat).
    { apply progress_count; [intros e He; destruct e; simpl in *; congruence|].
      subst run. destruct (FileM.PROGRESS_MIN_SIZE <? _); [apply cb_run_progress|constructor]. }
    clearbody run. destruct run as [[logs final] err]. cbn [fst snd] in *.
    destruct err as [e|]; [|destruct (snd (env_put env (count is_put (trace s)))) as [e|]];
      cbn [fst snd] in *.
    + split; [discriminate|]. split; [discriminate|].
      split; [rewrite (Hput _ Hv), count_app, Hlogs; shape|].
      split; [exact Hsleep|]. intros _. apply (Hin _ Hv). cbn. auto.
    + split; [discriminate|]. split; [discriminate|].
      split; [rewrite (Hput _ Hv), count_app, Hlogs; shape|].
      split; [exact Hsleep|]. intros _. apply (Hin _ Hv). cbn. auto.
    + split; [intros o Ho; injection Ho as <-; reflexivity|]. split; [discriminate|].
      split; [rewrite (Hput _ Hv), !count_app, Hlogs; shape|].
      split; [exact Hsleep|]. intros _. apply (Hin _ Hv). cbn. auto.
  - cbn [fst snd] in *.
    split; [intros o Ho; injection Ho as <-; reflexivity|].
    split; [intros _; eexists; reflexivity|].
    split; [rewrite (Hput _ Hv); shape|].
    split; [exact Hsleep|discriminate].
Qed.

End Sync.



(** C9. With no object in the bucket the response has no header; the
    local set is never empty, so the decision is "changed" and the store
    is called. *)
Theorem missing_object_is_uploaded (env : Env) (self : File) (raw : string) (s : State) :
  Ref.wf env self raw s ->
  env_hook env (count is_hook (trace s)) = None ->
  env_head env (count is_fetch (trace s)) = Ok [] ->
  (exists local s1,
     (FileM.build_headers env self ;; FileM.preDeployFile env self ;;
      _ <- FileM.getURLHeaders env (FileM.remoteURL self) ;;
      FileM.local_headers env self)%py s = (Ok local, s1) /\
     local <> ∅ /\
     is_Some (CaseInsensitiveDict.getitem "Cache-Control" local) /\
     is_Some (CaseInsensitiveDict.getitem "ETag" local)) /\
  (exists s2,
     (FileM.build_headers env self ;; FileM.preDeployFile env self ;;
      FileM.changed env self)%py s = (Ok true, s2)) /\
  (exists r s',
     FileM.upload_body env self s = (r, s') /\
     count is_put (trace s') = S (count is_put (trace s)) /\
     (forall o, r = Ok o -> out_changed o = true)) /\
  (exists r s',
     FileM.upload env self s = (r, s') /\
     (S (count is_put (trace s)) <= count is_put (trace s'))%nat).
Proof.
  intros Hwf Hhook Hhead.
  pose proof (decision_missing env self raw) as Hd.
  split; [|split; [|split]].
  - destruct (local_prefix_spec env self raw s [] Hwf Hhook Hhead) as (s1 & Hrun).
    exists (Ref.local_of env self raw), s1. split; [exact Hrun|]. split; [|split].
    + intros He. pose proof (local_of_etag env self raw) as Hc.
      rewrite He, lookup_empty in Hc. discriminate.
    + unfold CaseInsensitiveDict.getitem.
      rewrite local_of_other by discriminate. rewrite hooked_lookup.
      destruct (wire_get "Cache-Control" (hook_headers env)); [eexists; reflexivity|].
      change (PyStr.lower "Cache-Control") with "cache-control".
      rewrite headers_of_cache_control. eexists. reflexivity.
    + unfold CaseInsensitiveDict.getitem. change (PyStr.lower "ETag") with "etag".
      rewrite local_of_etag. eexists. reflexivity.
  - destruct (changed_prefix_spec env self raw s [] Hwf Hhook Hhead) as (s2 & Hrun).
    rewrite Hd in Hrun. exists s2. exact Hrun.
  - destruct (attempt_decided env self raw s [] Hwf Hhook Hhead)
      as (r & s' & Hrun & Hok & _ & Hput & _ & _).
    rewrite Hd in Hput, Hok. exists r, s'. split; [exact Hrun|]. split; [lia|].
    intros o Ho. rewrite (Hok o Ho). reflexivity.
  - destruct (attempt_decided env self raw s [] Hwf Hhook Hhead)
      as (r & s1 & Hrun & _ & _ & Hput & _ & _).
    rewrite Hd in Hput.
    destruct (upload_body_attempt env self raw s Hwf) as (s1' & Hrun' & Hwf1 & _).
    rewrite Hrun in Hrun'. injection Hrun' as _ <-.
    unfold FileM.upload. rewrite retry_unfold, Hrun.
    destruct r as [o|e].
    + eexists _, s1. split; [reflexivity|lia].
    + destruct (is_socket_error e).
      * assert (Hwf2 : Ref.wf env self raw (push (EvSleep 3) s1))
          by (apply wf_push; [reflexivity|exact Hwf1]).
        destruct (retry_any env self raw 4 (3 * 2) _ Hwf2)
          as (j & r' & s' & _ & Hrun2 & _ & _ & _ & _ & Hp).
        rewrite count_push in Hp. cbn [is_put] in Hp.
        exists r', s'. split; [exact Hrun2|lia].
      * eexists _, s1. split; [reflexivity|lia].
Qed.

Lemma missing_object_is_uploaded_witness :
  exists r s',
    FileM.upload (Sample.flaky Sample.logo_raw 0) Sample.logo fresh = (r, s') /\
    (S (count is_put (trace fresh)) <= count is_put (trace s'))%nat.
Proof.
  refine (proj2 (proj2 (proj2 (missing_object_is_uploaded
            (Sample.flaky Sample.logo_raw 0) Sample.logo Sample.logo_raw fresh _ _ _)))).
  - constructor; [reflexivity | left; reflexivity | left; reflexivity | reflexivity].
  - reflexivity.
  - reflexivity.
Defined.

(** ** The progress observer *)

(** A report among the new highs exceeds the starting mark and every
    report made before it. *)
Lemma new_highs_exceed (reports : list (Z * Z)) : forall last c,
  In c (Ref.new_highs last reports) ->
  exists i t,
    reports !! i = Some (c, t) /\ last < c /\
    forall j c' t', (j < i)%nat -> reports !! j = Some (c', t') -> c' < c.
Proof.
  induction reports as [|[current total] tl IH]; intros last c Hin; [destruct Hin|].
  cbn [Ref.new_highs] in Hin.
  destruct (Z.ltb_spec last current) as [Hlt|Hge].
  - destruct Hin as [<-|Hin].
    + exists 0%nat, total. split; [reflexivity|]. split; [exact Hlt|]. intros j c' t' Hj. lia.
    + destruct (IH current c Hin) as (i & t & Hi & Hc & Hbefore).
      exists (S i), t. split; [exact Hi|]. split; [lia|].
      intros [|j] c' t' Hj Hl.
      * injection Hl as <- _. exact Hc.
      * apply (Hbefore j c' t'); [lia|exact Hl].
  - destruct (IH last c Hin) as (i & t & Hi & Hc & Hbefore).
    exists (S i), t. split; [exact Hi|]. split; [exact Hc|].
    intros [|j] c' t' Hj Hl.
    + injection Hl as <- _. lia.
    + apply (Hbefore j c' t'); [lia|exact Hl].
Qed.

Lemma sorted_lt_NoDup (l : list Z) : StronglySorted Z.lt l -> NoDup l.
Proof.
  induction 1 as [|a l _ IH Hall]; constructor; [|exact IH].
  intros Hin. apply list_elem_of_In in Hin.
  rewrite List.Forall_forall in Hall. specialize (Hall a Hin). lia.
Qed.

Lemma sorted_prefix (l1 l2 : list Z) :
  StronglySorted Z.lt (l1 ++ l2) -> StronglySorted Z.lt l1.
Proof.
  induction l1 as [|a l1 IH]; intros H; [constructor|].
  inversion H as [|x l Hs Hall]; subst. constructor; [apply IH; exact Hs|].
  apply Forall_app in Hall. tauto.
Qed.

Lemma last_cons (c d : Z) (l : list Z) : List.last (c :: l) d = List.last l c.
Proof.
  revert c d. induction l as [|x l IH]; intros c d; [reflexivity|].
  change (List.last (c :: x :: l) d) with (List.last (x :: l) d).
  rewrite (IH x d), (IH x c). reflexivity.
Qed.

(** The mark left in [lastUpload] is the last byte count logged. *)
Lemma cb_run_mark (self : File) (reports : list (Z * Z)) : forall last,
  snd (fst (Ref.cb_run self last reports)) =
  List.last (progress_logged (fst (fst (Ref.cb_run self last reports)))) last.
Proof.
  induction reports as [|[current total] tl IH]; intros last; [reflexivity|].
  cbn [Ref.cb_run]. destruct (last <? current); [|apply IH].
  destruct (total =? 0); [reflexivity|].
  specialize (IH current).
  destruct (Ref.cb_run self current tl) as [[logs final] err]. cbn [fst snd] in *.
  change (progress_logged (EvLogProgress (path self) current total :: logs))
    with (current :: progress_logged logs).
  rewrite last_cons. exact IH.
Qed.

(** C8, as the code has it.  Within one attempt of [upload] that finds
    the artifact changed, the store gets a progress callback only when
    the payload has more than 524288 bytes; the callback logs a report
    only when it exceeds every report made before it in the attempt, so
    the byte counts logged in the attempt grow strictly and none is
    logged twice.  Every attempt starts again from the mark 0, whatever
    mark the state it starts from holds. *)
Theorem progress_observer (env : Env) (self : File) (raw : string) (s : State)
        (wire : list (string * string)) :
  Ref.wf env self raw s ->
  env_hook env (count is_hook (trace s)) = None ->
  env_head env (count is_fetch (trace s)) = Ok wire ->
  fst ((FileM.build_headers env self ;; FileM.preDeployFile env self ;;
        FileM.changed env self)%py s) = Ok true ->
  let reports := fst (env_put env (count is_put (trace s))) in
  exists p r s' logged,
    fst (FileM.payload env self s) = Ok p /\
    FileM.upload_body env self s = (r, s') /\
    (exists content_type hdrs,
       In (EvPut (path self) content_type p hdrs "public-read"
                 (524288 <? PyStr.len p) (PyStr.len p / (1024 * 1024)))
          (trace s')) /\
    progress_logged (trace s') = (progress_logged (trace s) ++ logged)%list /\
    lastUpload s' = List.last logged 0 /\
    (PyStr.len p <= 524288 -> logged = []) /\
    StronglySorted Z.lt logged /\ NoDup logged /\
    (forall c, In c logged ->
       exists i t,
         reports !! i = Some (c, t) /\ 0 < c /\
         forall j c' t', (j < i)%nat -> reports !! j = Some (c', t') -> c' < c) /\
    (524288 < PyStr.len p -> Forall (fun rp => snd rp <> 0) reports ->
     logged = Ref.new_highs 0 reports).
Proof.
  intros Hwf Hhook Hhead Hch reports.
  destruct (changed_prefix_spec env self raw s wire Hwf Hhook Hhead) as (s2 & Hch').
  rewrite Hch' in Hch. injection Hch as Hd.
  destruct (attempt_decided env self raw s wire Hwf Hhook Hhead)
    as (r & s' & Hrun & _ & _ & _ & _ & Hin).
  specialize (Hin Hd).
  destruct (upload_body_attempt env self raw s Hwf) as (s1 & Hrun' & _ & Hmark & Hv).
  rewrite Hrun in Hrun'. injection Hrun' as _ <-.
  unfold Ref.attempt in Hv, Hmark. rewrite Hhook, Hhead, Hd in Hv, Hmark.
  fold reports in Hv, Hmark.
  destruct (payload_spec env self raw s Hwf) as (sp & Hp & _).
  set (p := Ref.payload_of env self raw) in *.
  set (run := if FileM.PROGRESS_MIN_SIZE <? PyStr.len p
              then Ref.cb_run self 0 reports else ([], 0, None)) in *.
  exists p, r, s', (progress_logged (fst (fst run))).
  rewrite Hp. split; [reflexivity|]. split; [exact Hrun|]. split.
  { eexists _, _. exact Hin. }
  assert (Hpre : exists rest,
            Ref.new_highs 0 reports = (progress_logged (fst (fst run)) ++ rest)%list /\
            (524288 < PyStr.len p -> snd run = None -> rest = [])).
  { subst run. change FileM.PROGRESS_MIN_SIZE with 524288.
    destruct (Z.ltb_spec 524288 (PyStr.len p)) as [Hbig|Hsmall].
    - destruct (cb_run_logged self reports 0) as (rest & Heq & Hnone).
      exists rest. split; [exact Heq|]. intros _. exact Hnone.
    - eexists. split; [reflexivity|]. intros Hbig. lia. }
  destruct Hpre as (rest & Hpre & Hrest).
  pose proof (new_highs_sorted reports 0) as Hsorted. rewrite Hpre in Hsorted.
  apply sorted_prefix in Hsorted.
  split; [|split; [|split; [|split; [exact Hsorted|split; [apply sorted_lt_NoDup; exact Hsorted|split]]]]].
  - rewrite <- (progress_logged_visible (trace s')), Hv, progress_logged_app,
      progress_logged_visible. f_equal.
    destruct run as [[logs final] err]. cbn [fst snd].
    destruct err as [e|]; [|destruct (snd (env_put env (count is_put (trace s)))) as [e|]];
      cbn [snd]; rewrite ?progress_logged_app; cbn; rewrite ?app_nil_r; reflexivity.
  - assert (Hm : lastUpload s' = snd (fst run)).
    { rewrite Hmark. destruct run as [[logs final] err]. cbn [fst snd].
      destruct err as [e|]; [|destruct (snd (env_put env (count is_put (trace s)))) as [e|]];
        reflexivity. }
    rewrite Hm. subst run.
    destruct (FileM.PROGRESS_MIN_SIZE <? PyStr.len p); [apply cb_run_mark|reflexivity].
  - intros Hsmall. subst run. change FileM.PROGRESS_MIN_SIZE with 524288.
    destruct (Z.ltb_spec 524288 (PyStr.len p)) as [Hbig|_]; [lia|reflexivity].
  - intros c Hc. apply (new_highs_exceed reports 0 c).
    rewrite Hpre. apply in_or_app. left. exact Hc.
  - intros Hbig Htot. rewrite Hpre, Hrest; [symmetry; apply app_nil_r|exact Hbig|].
    subst run. change FileM.PROGRESS_MIN_SIZE with 524288.
    destruct (Z.ltb_spec 524288 (PyStr.len p)) as [_|Hsmall]; [|lia].
    apply cb_run_total. exact Htot.
Qed.

Lemma progress_observer_witness :
  exists p r s' logged,
    fst (FileM.payload (Sample.reporting Sample.poster_raw 0) Sample.poster fresh) = Ok p /\
    FileM.upload_body (Sample.reporting Sample.poster_raw 0) Sample.poster fresh = (r, s') /\
    (exists content_type hdrs,
       In (EvPut (path Sample.poster) content_type p hdrs "public-read"
                 (524288 <? PyStr.len p) (PyStr.len p / (1024 * 1024)))
          (trace s')) /\
    progress_logged (trace s') = (progress_logged (trace fresh) ++ logged)%list /\
    lastUpload s' = List.last logged 0 /\
    (PyStr.len p <= 524288 -> logged = []) /\
    StronglySorted Z.lt logged /\ NoDup logged /\
    (forall c, In c logged ->
       exists i t,
         fst (env_put (Sample.reporting Sample.poster_raw 0) 0) !! i = Some (c, t) /\ 0 < c /\
         forall j c' t', (j < i)%nat ->
           fst (env_put (Sample.reporting Sample.poster_raw 0) 0) !! j = Some (c', t') -> c' < c) /\
    (524288 < PyStr.len p ->
     Forall (fun rp => snd rp <> 0) (fst (env_put (Sample.reporting Sample.poster_raw 0) 0)) ->
     logged = [200000; 600000]).
Proof.
  refine (progress_observer (Sample.reporting Sample.poster_raw 0) Sample.poster
                            Sample.poster_raw fresh [] _ _ _ _).
  - constructor; [reflexivity | left; reflexivity | left; reflexivity | reflexivity].
  - reflexivity.
  - reflexivity.
  - vm_compute. reflexivity.
Defined.

Example poster_progress :
  progress_logged
    (trace (snd (FileM.upload_body (Sample.reporting Sample.poster_raw 0) Sample.poster fresh)))
  = [200000; 600000].
Proof. vm_compute. reflexivity. Qed.

(** C8, as the spec has it, fails for a sync that is retried: each
    attempt sets the mark back to 0 and defines a callback of its own,
    so after one socket error of the store the transfer is made again
    and the same byte counts are logged a second time. *)
Lemma progress_repeats_when_retried :
  match fst (FileM.upload (Sample.reporting Sample.poster_raw 1) Sample.poster fresh) with
  | Ok o => out_changed o
  | Raise _ => false
  end = true /\
  progress_logged
    (trace (snd (FileM.upload (Sample.reporting Sample.poster_raw 1) Sample.poster fresh)))
  = [200000; 600000; 200000; 600000] /\
  ~ NoDup (progress_logged
             (trace (snd (FileM.upload (Sample.reporting Sample.poster_raw 1)
                                       Sample.poster fresh)))) /\
  ~ StronglySorted Z.lt
      (progress_logged
         (trace (snd (FileM.upload (Sample.reporting Sample.poster_raw 1)
                                   Sample.poster fresh)))).
Proof.
  assert (H : progress_logged
                (trace (snd (FileM.upload (Sample.reporting Sample.poster_raw 1)
                                          Sample.poster fresh)))
              = [200000; 600000; 200000; 600000]) by (vm_compute; reflexivity).
  split; [vm_compute; reflexivity|]. rewrite H. split; [reflexivity|]. split.
  - intros Hnd. inversion Hnd as [|x l Hni _]; subst. apply Hni.
    apply list_elem_of_In. right. left. reflexivity.
  - intros Hs. inversion Hs as [|x l _ Hall]; subst.
    inversion Hall as [|y l' _ Hall']; subst.
    inversion Hall' as [|z l'' Hlt _]; subst. lia.
Qed.

(** * Further properties of the class *)

(** ** [extension] in general *)

Section MoreStrings.
Import PyStr.

Lemma rfind_from_split (c : ascii) (s : string) : forall i last,
  (occurs c s = false /\ rfind_from c s i last = last) \/
  (exists pre e, s = pre +:+ String c e /\ occurs c e = false /\
                 rfind_from c s i last = i + len pre).
Proof.
  induction s as [|a t IH]; intros i last; [left; split; reflexivity|].
  cbn [rfind_from occurs].
  destruct (IH (i + 1) (if Ascii.eqb a c then i else last))
    as [[Habs Hr]|(pre & e & Ht & He & Hr)].
  - destruct (Ascii.eqb_spec a c) as [->|Hne].
    + right. exists "", t. rewrite append_nil_l. change (len "") with 0.
      split; [reflexivity|]. split; [exact Habs|]. rewrite Hr. lia.
    + left. split; [exact Habs|exact Hr].
  - right. exists (String a pre), e. rewrite append_cons, Ht, len_cons.
    split; [reflexivity|]. split; [exact He|]. rewrite <- Ht, Hr. lia.
Qed.

Lemma append_split (a' : string) : forall a b b',
  a +:+ b = a' +:+ b' -> len a' < len a ->
  exists x m, a = a' +:+ String x m /\ b' = String x m +:+ b.
Proof.
  induction a' as [|y t IH]; intros a b b' Heq Hlen.
  - rewrite append_nil_l in Heq. destruct a as [|x m].
    + change (len "") with 0 in Hlen. lia.
    + exists x, m. rewrite append_nil_l. split; [reflexivity|]. symmetry. exact Heq.
  - destruct a as [|x u].
    + rewrite len_cons in Hlen. change (len "") with 0 in Hlen.
      pose proof (len_nonneg t). lia.
    + rewrite !append_cons in Heq. injection Heq as -> Heq.
      rewrite !len_cons in Hlen.
      destruct (IH u b b' Heq ltac:(lia)) as (x & m & -> & ->).
      exists x, m. rewrite append_cons. split; reflexivity.
Qed.

Lemma lower_ascii_dot (a : ascii) : Ascii.eqb (lower_ascii a) "." = Ascii.eqb a ".".
Proof. destruct a as [[] [] [] [] [] [] [] []]; reflexivity. Qed.

Lemma lower_ascii_slash (a : ascii) : Ascii.eqb (lower_ascii a) "/" = Ascii.eqb a "/".
Proof. destruct a as [[] [] [] [] [] [] [] []]; reflexivity. Qed.

Lemma occurs_lower_dot (s : string) : occurs "." (lower s) = occurs "." s.
Proof.
  induction s as [|a t IH]; [reflexivity|].
  cbn [lower occurs]. rewrite lower_ascii_dot, IH. reflexivity.
Qed.

Lemma occurs_lower_slash (s : string) : occurs "/" (lower s) = occurs "/" s.
Proof.
  induction s as [|a t IH]; [reflexivity|].
  cbn [lower occurs]. rewrite lower_ascii_slash, IH. reflexivity.
Qed.

(** What [os.path.splitext] returns as extension: nothing, or a dot
    followed by characters among which there is neither dot nor slash. *)
Lemma splitext_ext_shape (p : string) :
  snd (OsPath.splitext p) = "" \/
  exists e, snd (OsPath.splitext p) = String "." e /\
            occurs "." e = false /\ occurs "/" e = false.
Proof.
  unfold OsPath.splitext.
  destruct (Z.ltb_spec (rfind "/" p) (rfind "." p)) as [Hlt|_]; [|left; reflexivity].
  destruct (OsPath.has_stem _ p _ _); [|left; reflexivity].
  right. cbn [snd]. unfold rfind in *.
  destruct (rfind_from_split "." p 0 (-1)) as [[_ Hd]|(pre & e & Hp & He & Hd)].
  - destruct (rfind_from_split "/" p 0 (-1)) as [[_ Hs]|(pre2 & e2 & _ & _ & Hs)];
      [|pose proof (len_nonneg pre2)]; lia.
  - rewrite Hd. replace (Z.to_nat (0 + len pre)) with (String.length pre)
      by (unfold len; lia).
    subst p. rewrite drop_app. exists e. split; [reflexivity|]. split; [exact He|].
    destruct (rfind_from_split "/" (pre +:+ String "." e) 0 (-1))
      as [[Habs _]|(pre2 & e2 & Hp2 & He2 & Hs)].
    + rewrite occurs_app in Habs. apply orb_false_iff in Habs.
      destruct Habs as [_ Habs]. cbn [occurs] in Habs.
      apply orb_false_iff in Habs. tauto.
    + rewrite Hs, Hd in Hlt.
      destruct (append_split pre2 pre (String "." e) (String "/" e2) Hp2 ltac:(lia))
        as (x & m & _ & Hm).
      rewrite append_cons in Hm. injection Hm as _ ->.
      rewrite occurs_app in He2. apply orb_false_iff in He2.
      destruct He2 as [_ He2]. cbn [occurs] in He2.
      apply orb_false_iff in He2. tauto.
Qed.

End MoreStrings.

(** X1. Whatever the path, [extension] is in lower case and holds
    neither a dot nor a slash. *)
Theorem extension_normal_form (self : File) :
  PyStr.lower (FileM.extension self) = FileM.extension self /\
  occurs "." (FileM.extension self) = false /\
  occurs "/" (FileM.extension self) = false.
Proof.
  unfold FileM.extension. split; [apply lower_idem|].
  rewrite occurs_lower_dot, occurs_lower_slash.
  destruct (splitext_ext_shape (path self)) as [->|(e & -> & Hd & Hs)].
  - split; reflexivity.
  - unfold PyStr.strip. cbn [PyStr.lstrip]. change (Ascii.eqb "." ".") with true.
    cbv beta iota. rewrite lstrip_absent, rstrip_absent by exact Hd. auto.
Qed.

(** ** Names without an extension *)

Section NoExtension.
Import PyStr.

Lemma rfind_from_bound (c : ascii) (s : string) (i last : Z) :
  rfind_from c s i last <= Z.max last (i + len s - 1).
Proof.
  destruct (rfind_from_split c s i last) as [[_ ->]|(pre & e & -> & _ & ->)]; [lia|].
  rewrite len_app, len_cons. pose proof (len_nonneg e). lia.
Qed.

Lemma only_occurs (c c' : ascii) (s : string) :
  only c s = true -> Ascii.eqb c c' = false -> occurs c' s = false.
Proof.
  intros Ho Hne. induction s as [|a t IH]; [reflexivity|].
  cbn [only occurs] in *. apply andb_true_iff in Ho. destruct Ho as [Ha Ht].
  apply Ascii.eqb_eq in Ha. subst a. rewrite Hne. apply IH. exact Ht.
Qed.

Lemma only_snoc (c a : ascii) (t : string) :
  only c (String a t) = true -> String a t = t +:+ String c "" /\ only c t = true.
Proof.
  cbn [only]. intros H. apply andb_true_iff in H. destruct H as [Ha Ht].
  apply Ascii.eqb_eq in Ha. subst a. split; [|exact Ht].
  induction t as [|b u IH]; [reflexivity|].
  cbn [only] in Ht. apply andb_true_iff in Ht. destruct Ht as [Hb Hu].
  apply Ascii.eqb_eq in Hb. subst b. rewrite append_cons, <- (IH Hu). reflexivity.
Qed.

Lemma rfind_slash_dir (dir tail : string) :
  (dir = "" \/ exists d, dir = d +:+ "/") -> occurs "/" tail = false ->
  rfind "/" (dir +:+ tail) = len dir - 1.
Proof.
  intros Hdir Htail. unfold rfind. rewrite rfind_from_app, rfind_from_absent by exact Htail.
  destruct Hdir as [->|[d ->]]; [reflexivity|].
  rewrite rfind_from_app, len_app, len_cons. change (len "") with 0.
  cbn [rfind_from]. change (Ascii.eqb "/" "/") with true. cbv beta iota. lia.
Qed.

(** [os.path.splitext] on a path [dir name . e]: the last dot starts an
    extension unless the name before it is made of dots only. *)
Lemma splitext_parts (dir name e : string) :
  (dir = "" \/ exists d, dir = d +:+ "/") ->
  occurs "/" name = false -> occurs "/" e = false -> occurs "." e = false ->
  OsPath.splitext (dir +:+ name +:+ "." +:+ e) =
  if only "." name then (dir +:+ name +:+ "." +:+ e, "")
  else (dir +:+ name, "." +:+ e).
Proof.
  intros Hdir Hname Hse Hde. unfold OsPath.splitext.
  rewrite (rfind_slash_dir dir (name +:+ "." +:+ e) Hdir).
  2:{ rewrite occurs_app, Hname, append_cons. cbn [occurs orb].
      change (Ascii.eqb "." "/") with false. exact Hse. }
  assert (Hdot : rfind "." (dir +:+ name +:+ "." +:+ e) = len dir + len name).
  { unfold rfind. rewrite <- append_assoc, rfind_from_app, append_cons, append_nil_l.
    cbn [rfind_from]. change (Ascii.eqb "." ".") with true. cbv beta iota.
    rewrite rfind_from_absent by exact Hde. rewrite len_app. lia. }
  rewrite Hdot.
  destruct (Z.ltb_spec (len dir - 1) (len dir + len name)) as [_|H];
    [|pose proof (len_nonneg name); lia].
  replace (len dir - 1 + 1) with (len dir) by lia.
  replace (Z.to_nat (len dir + len name - len dir)) with (String.length name)
    by (unfold len; lia).
  rewrite has_stem_name. destruct (only "." name); cbn [negb]; [reflexivity|].
  replace (Z.to_nat (len dir + len name)) with (String.length (dir +:+ name))
    by (rewrite <- len_app; unfold len; lia).
  rewrite <- append_assoc, take_app, drop_app. reflexivity.
Qed.

(** A file name made of leading dots and a dot-free rest (README,
    .htaccess, ..cache) has no extension, in whatever directory. *)
Lemma splitext_no_ext (dir dots rest : string) :
  (dir = "" \/ exists d, dir = d +:+ "/") ->
  only "." dots = true -> occurs "." rest = false -> occurs "/" rest = false ->
  OsPath.splitext (dir +:+ dots +:+ rest) = (dir +:+ dots +:+ rest, "").
Proof.
  intros Hdir Hdots Hrd Hrs. destruct dots as [|a t].
  - rewrite append_nil_l. unfold OsPath.splitext.
    rewrite (rfind_slash_dir dir rest Hdir Hrs).
    assert (Hdot : rfind "." (dir +:+ rest) <= len dir - 1).
    { unfold rfind. rewrite rfind_from_app, rfind_from_absent by exact Hrd.
      destruct Hdir as [->|[d ->]]; [cbn [rfind_from]; change (len "") with 0; lia|].
      rewrite rfind_from_app, len_app, len_cons. change (len "") with 0.
      cbn [rfind_from]. change (Ascii.eqb "/" ".") with false. cbv beta iota.
      pose proof (rfind_from_bound "." d 0 (-1)). pose proof (len_nonneg d). lia. }
    destruct (Z.ltb_spec (len dir - 1) (rfind "." (dir +:+ rest))); [lia|reflexivity].
  - destruct (only_snoc "." a t Hdots) as [Heq Ht]. rewrite Heq.
    rewrite (append_assoc t (String "." "") rest), append_cons, append_nil_l.
    change (String "." rest) with ("." +:+ rest).
    rewrite (splitext_parts dir t rest Hdir); [rewrite Ht; reflexivity| |exact Hrs|exact Hrd].
    apply (only_occurs "." "/" t Ht). reflexivity.
Qed.

End NoExtension.

(** X2. An artifact whose file name has no extension (no dot, or
    leading dots only) has the empty extension, and [shouldCompress]
    answers false at once: it does not read the build file and nothing
    changes, whether the file can be read or not. *)
Theorem no_extension_no_compression (env : Env) (self : File) (dir dots rest : string) :
  path self = dir +:+ dots +:+ rest ->
  (dir = "" \/ exists d, dir = d +:+ "/") ->
  only "." dots = true -> occurs "." rest = false -> occurs "/" rest = false ->
  FileM.extension self = "" /\
  forall s, FileM.shouldCompress env self s = (Ok false, s).
Proof.
  intros Hpath Hdir Hdots Hrd Hrs.
  assert (Hext : FileM.extension self = "").
  { unfold FileM.extension.
    rewrite Hpath, (splitext_no_ext dir dots rest Hdir Hdots Hrd Hrs). reflexivity. }
  split; [exact Hext|]. intros s. unfold FileM.shouldCompress. rewrite Hext. reflexivity.
Qed.

Lemma no_extension_no_compression_witness :
  FileM.extension {| site := Sample.the_site; path := "v1.2/.htaccess" |} = "" /\
  forall s, FileM.shouldCompress Sample.unreadable
              {| site := Sample.the_site; path := "v1.2/.htaccess" |} s = (Ok false, s).
Proof.
  apply (no_extension_no_compression Sample.unreadable
           {| site := Sample.the_site; path := "v1.2/.htaccess" |} "v1.2/" "." "htaccess").
  - reflexivity.
  - right. exists "v1.2". reflexivity.
  - reflexivity.
  - reflexivity.
  - reflexivity.
Defined.

(** ** [remoteChecksum], [changed] on its own, [remoteURL], [__repr__] *)

Section Quotes.
Import PyStr.

Lemma len_lstrip (c : ascii) (s : string) : len (lstrip c s) <= len s.
Proof.
  induction s as [|a t IH]; [cbn [lstrip]; lia|].
  cbn [lstrip]. destruct (Ascii.eqb a c); [rewrite len_cons; lia|lia].
Qed.

Lemma rstrip_snoc (c : ascii) (v : string) :
  rstrip c (v +:+ String c "") = rstrip c v.
Proof.
  induction v as [|a t IH].
  - rewrite append_nil_l. cbn [rstrip]. rewrite Ascii.eqb_refl. reflexivity.
  - rewrite append_cons. cbn [rstrip]. rewrite IH. reflexivity.
Qed.

(** Stripping the quotes put around a value that has none at its ends
    gives the value back. *)
Lemma strip_quoted (c : ascii) (v : string) :
  lstrip c v = v -> rstrip c v = v ->
  strip c (String c (v +:+ String c "")) = v.
Proof.
  intros Hl Hr. unfold strip. cbn [lstrip]. rewrite Ascii.eqb_refl.
  destruct v as [|a t].
  - rewrite append_nil_l. cbn [lstrip]. rewrite Ascii.eqb_refl. reflexivity.
  - assert (Ha : Ascii.eqb a c = false).
    { destruct (Ascii.eqb a c) eqn:E; [|reflexivity]. exfalso.
      cbn [lstrip] in Hl. rewrite E in Hl.
      pose proof (len_lstrip c t) as Hlen. rewrite Hl, len_cons in Hlen. lia. }
    rewrite append_cons. cbn [lstrip]. rewrite Ha.
    change (String a (t +:+ String c "")) with (String a t +:+ String c "").
    rewrite rstrip_snoc. exact Hr.
Qed.

Lemma append_inj_l (a b c : string) : a +:+ b = a +:+ c -> b = c.
Proof.
  induction a as [|x a IH]; [rewrite !append_nil_l; auto|].
  rewrite !append_cons. intros H. injection H as H. exact (IH H).
Qed.

Lemma append_inj_r (c : string) : forall a b, a +:+ c = b +:+ c -> a = b.
Proof.
  induction a as [|x a IH]; intros b H.
  - destruct b as [|y b]; [reflexivity|].
    apply (f_equal len) in H. rewrite !len_app, len_cons in H.
    change (len "") with 0 in H. pose proof (len_nonneg b). lia.
  - destruct b as [|y b].
    + apply (f_equal len) in H. rewrite !len_app, len_cons in H.
      change (len "") with 0 in H. pose proof (len_nonneg a). lia.
    + rewrite !append_cons in H. injection H as -> H. rewrite (IH b H). reflexivity.
Qed.

End Quotes.

(** X3. [remoteChecksum] makes one HEAD request and nothing else.  An
    error of the request is handed on; a response without entity tag
    gives the empty string; a quoted tag (under any spelling of the
    header name) is returned without its quotes. *)
Theorem remoteChecksum_unquotes (env : Env) (self : File) (s : State) :
  snd (FileM.remoteChecksum env self s) = push (EvFetch (FileM.remoteURL self)) s /\
  (forall e, env_head env (count is_fetch (trace s)) = Raise e ->
     fst (FileM.remoteChecksum env self s) = Raise e) /\
  (forall wire, env_head env (count is_fetch (trace s)) = Ok wire ->
     (wire_get "etag" wire = None ->
        fst (FileM.remoteChecksum env self s) = Ok "") /\
     (forall v, wire_get "etag" wire = Some (String "034" (v +:+ String "034" "")) ->
        PyStr.lstrip "034" v = v -> PyStr.rstrip "034" v = v ->
        fst (FileM.remoteChecksum env self s) = Ok v)).
Proof.
  unfold FileM.remoteChecksum, bind. rewrite getURLHeaders_run.
  destruct (env_head env (count is_fetch (trace s))) as [wire|e].
  - split; [reflexivity|]. split; [discriminate|].
    intros w Hw. injection Hw as <-. cbn [fst].
    assert (Hget : CaseInsensitiveDict.of_pairs wire !! "etag" = wire_get "etag" wire).
    { unfold CaseInsensitiveDict.of_pairs.
      change "etag" with (PyStr.lower "etag") at 1.
      rewrite of_pairs_fold, lookup_empty. destruct (wire_get "etag" wire); reflexivity. }
    rewrite Hget. split.
    + intros ->. reflexivity.
    + intros v -> Hl Hr. cbv [from_option id]. rewrite (strip_quoted "034" v Hl Hr).
      reflexivity.
  - split; [reflexivity|]. split; [intros e' H; injection H as <-; reflexivity|discriminate].
Qed.

Lemma remoteChecksum_unquotes_witness :
  fst (FileM.remoteChecksum (Sample.in_sync Sample.page_raw) Sample.page fresh) = Ok "md5-23".
Proof.
  exact (proj2 (proj2 (proj2 (remoteChecksum_unquotes (Sample.in_sync Sample.page_raw)
                                                       Sample.page fresh))
                      _ eq_refl)
               "md5-23" eq_refl eq_refl eq_refl).
Defined.

(** X4. [changed] needs the attribute [headers], which only [upload]
    assigns: called on an object that has not been uploaded, it makes
    its HEAD request and then fails with [AttributeError], without
    reading the build file. *)
Theorem changed_needs_headers (env : Env) (self : File) (s : State) :
  headers s = None ->
  FileM.changed env self s =
  (match env_head env (count is_fetch (trace s)) with
   | Ok _ => Raise AttributeError
   | Raise e => Raise e
   end, push (EvFetch (FileM.remoteURL self)) s).
Proof.
  intros Hh. unfold FileM.changed. unfold bind at 1. rewrite getURLHeaders_run.
  destruct (env_head env (count is_fetch (trace s))); [|reflexivity].
  unfold bind, FileM.local_headers, bind, gets. cbn [push headers]. rewrite Hh. reflexivity.
Qed.

Lemma changed_needs_headers_witness :
  FileM.changed (Sample.in_sync Sample.page_raw) Sample.page fresh =
  (Raise AttributeError, push (EvFetch "http://www.example.org/docs/index.HTML") fresh).
Proof.
  exact (changed_needs_headers (Sample.in_sync Sample.page_raw) Sample.page fresh eq_refl).
Defined.

(** X5. Two artifacts of one site with different paths have different
    remote URLs and different printed forms. *)
Theorem distinct_paths_distinct_urls (f1 f2 : File) :
  path f1 <> path f2 ->
  FileM.__repr__ f1 <> FileM.__repr__ f2 /\
  (site f1 = site f2 -> FileM.remoteURL f1 <> FileM.remoteURL f2).
Proof.
  intros Hne. split.
  - unfold FileM.__repr__. intros H. apply append_inj_l, append_inj_r in H. contradiction.
  - intros Hs. unfold FileM.remoteURL. rewrite Hs. intros H.
    apply append_inj_l in H. rewrite <- !append_assoc in H.
    apply append_inj_l in H. contradiction.
Qed.

Lemma distinct_paths_distinct_urls_witness :
  FileM.__repr__ Sample.page <> FileM.__repr__ Sample.logo /\
  (site Sample.page = site Sample.logo ->
   FileM.remoteURL Sample.page <> FileM.remoteURL Sample.logo).
Proof.
  apply (distinct_paths_distinct_urls Sample.page Sample.logo). discriminate.
Defined.

(** ** Failures before the transfer *)

Section Unreadable.
Variable env : Env.
Variable self : File.
Hypothesis Hread : env_read env (Ref.fullpath self) = None.

Lemma data_unreadable s :
  memo_data s = None ->
  FileM.data env self s = (Raise IOError, push (EvRead (Ref.fullpath self)) s).
Proof.
  intros Hm. unfold FileM.data, bind, gets, emit, modify. rewrite Hm.
  fold (Ref.fullpath self). rewrite Hread. reflexivity.
Qed.

Lemma shouldCompress_plain s :
  FileM.in_compress_types (FileM.extension self) = false ->
  FileM.shouldCompress env self s = (Ok false, s).
Proof. intros H. unfold FileM.shouldCompress. rewrite H. reflexivity. Qed.

Lemma shouldCompress_unreadable s :
  FileM.in_compress_types (FileM.extension self) = true -> memo_data s = None ->
  FileM.shouldCompress env self s = (Raise IOError, push (EvRead (Ref.fullpath self)) s).
Proof.
  intros H Hm. unfold FileM.shouldCompress. rewrite H. cbn [negb].
  unfold bind. rewrite (data_unreadable s Hm). reflexivity.
Qed.

Lemma payload_unreadable s :
  FileM.in_compress_types (FileM.extension self) = false ->
  memo_data s = None -> _payload s = None ->
  FileM.payload env self s = (Raise IOError, push (EvRead (Ref.fullpath self)) s).
Proof.
  intros H Hm Hp. unfold FileM.payload. unfold bind at 1, gets. rewrite Hp.
  run_bind (shouldCompress_plain s H). unfold bind at 1.
  run_bind (data_unreadable s Hm). reflexivity.
Qed.

Lemma checksum_unreadable s :
  FileM.in_compress_types (FileM.extension self) = false ->
  memo_data s = None -> _payload s = None ->
  FileM.checksum env self s = (Raise IOError, push (EvRead (Ref.fullpath self)) s).
Proof.
  intros H Hm Hp. unfold FileM.checksum.
  run_bind (payload_unreadable s H Hm Hp). reflexivity.
Qed.

Lemma local_headers_unreadable s h :
  FileM.in_compress_types (FileM.extension self) = false ->
  memo_data s = None -> _payload s = None -> headers s = Some h ->
  FileM.local_headers env self s = (Raise IOError, push (EvRead (Ref.fullpath self)) s).
Proof.
  intros H Hm Hp Hh. unfold FileM.local_headers. unfold bind at 1, gets. rewrite Hh.
  run_bind (checksum_unreadable s H Hm Hp). reflexivity.
Qed.

Lemma changed_unreadable s h wire :
  FileM.in_compress_types (FileM.extension self) = false ->
  memo_data s = None -> _payload s = None -> headers s = Some h ->
  env_head env (count is_fetch (trace s)) = Ok wire ->
  FileM.changed env self s =
  (Raise IOError,
   push (EvRead (Ref.fullpath self)) (push (EvFetch (FileM.remoteURL self)) s)).
Proof.
  intros H Hm Hp Hh Hhead. unfold FileM.changed.
  unfold bind at 1. rewrite getURLHeaders_run, Hhead.
  run_bind (local_headers_unreadable (push (EvFetch (FileM.remoteURL self)) s) h H Hm Hp Hh).
  reflexivity.
Qed.

End Unreadable.

(** X6. When the build file cannot be read, [upload] fails with
    [IOError] and is not retried, and the store is never called.  With
    a compressible extension the failure comes first of all, before the
    hook and the HEAD request; otherwise it comes after them, when the
    checksum asks for the content. *)
Theorem unreadable_artifact (env : Env) (self : File) (s : State)
        (wire : list (string * string)) :
  env_read env (Ref.fullpath self) = None ->
  memo_data s = None -> _payload s = None ->
  (FileM.in_compress_types (FileM.extension self) = true ->
   exists s',
     FileM.upload env self s = (Raise IOError, s') /\
     trace s' = (trace s ++ [EvRead (Ref.fullpath self)])%list) /\
  (FileM.in_compress_types (FileM.extension self) = false ->
   env_hook env (count is_hook (trace s)) = None ->
   env_head env (count is_fetch (trace s)) = Ok wire ->
   exists s',
     FileM.upload env self s = (Raise IOError, s') /\
     trace s' = (trace s ++ [EvHook (path self); EvFetch (FileM.remoteURL self);
                             EvRead (Ref.fullpath self)])%list).
Proof.
  intros Hread Hm Hp. split.
  - intros Hext. unfold FileM.upload. rewrite retry_unfold.
    unfold FileM.upload_body. unfold bind at 1.
    unfold FileM.build_headers. unfold bind at 1, set_lastUpload, modify.
    unfold bind at 1, set_headers, modify. unfold bind at 1.
    rewrite (shouldCompress_unreadable env self Hread _ Hext) by exact Hm.
    cbn [is_socket_error]. eexists. split; reflexivity.
  - intros Hext Hhook Hhead. unfold FileM.upload. rewrite retry_unfold.
    unfold FileM.upload_body. unfold bind at 1.
    unfold FileM.build_headers. unfold bind at 1, set_lastUpload, modify.
    unfold bind at 1, set_headers, modify. unfold bind at 1.
    rewrite (shouldCompress_plain env self _ Hext).
    unfold ret at 1. cbv beta iota.
    cbn [memo_data _payload lastUpload headers trace].
    match goal with |- context [bind (FileM.preDeployFile env self) _ ?st] =>
      set (s0 := st) end.
    run_bind (preDeployFile_run env self s0 _ eq_refl).
    change (count is_hook (trace s0)) with (count is_hook (trace s)). rewrite Hhook.
    match goal with |- context [bind (FileM.changed env self) _ ?st] =>
      set (s1 := st) end.
    assert (Hf : count is_fetch (trace s1) = count is_fetch (trace s)).
    { subst s1 s0. cbn [trace]. rewrite count_app, count_single. cbn [is_fetch].
      apply Nat.add_0_r. }
    unfold bind at 1.
    rewrite (changed_unreadable env self Hread s1 _ wire Hext Hm Hp eq_refl)
      by (rewrite Hf; exact Hhead).
    cbn [is_socket_error]. eexists. split; [reflexivity|].
    subst s1 s0. cbn [push trace]. rewrite <- !app_assoc. reflexivity.
Qed.

Lemma unreadable_artifact_witness :
  exists s',
    FileM.upload Sample.unreadable Sample.page fresh = (Raise IOError, s') /\
    trace s' = [EvRead "/srv/site/.build/docs/index.HTML"].
Proof.
  exact (proj1 (unreadable_artifact Sample.unreadable Sample.page fresh []
                                    eq_refl eq_refl eq_refl) eq_refl).
Defined.

Example unreadable_logo :
  fst (FileM.upload Sample.unreadable Sample.logo fresh) = Raise IOError /\
  trace (snd (FileM.upload Sample.unreadable Sample.logo fresh)) =
  [EvHook "img/logo.png"; EvFetch "http://www.example.org/img/logo.png";
   EvRead "/srv/site/.build/img/logo.png"].
Proof. split; reflexivity. Qed.

(** ** The envelope around failures of the hook and of the HEAD request *)

Lemma retry_final {A} (f : M A) (n : nat) (d b : Z) (s s' : State) (r : result A) :
  f s = (r, s') ->
  ((n <= 1)%nat \/
   match r with Ok _ => True | Raise e => is_socket_error e = false end) ->
  retry is_socket_error n d b f s = (r, s').
Proof.
  intros Hf Hfin. destruct n as [|[|n]]; [exact Hf|exact Hf|].
  rewrite retry_unfold, Hf. destruct Hfin as [Hn|Hr]; [lia|].
  destruct r as [a|e]; [reflexivity|]. rewrite Hr. reflexivity.
Qed.

(** [m] attempts in a row that end in a socket error: the envelope
    sleeps after each and goes on with the tries that are left. *)
Lemma retry_steps {A} (f : M A) (m : nat) :
  forall (Inv : nat -> State -> Prop) (n : nat) (d : Z) (s : State),
    (forall j st, (j < m)%nat -> Inv j st ->
       exists s1, f st = (Raise SocketError, s1) /\
                  sleeps (trace s1) = sleeps (trace st) /\
                  forall d', Inv (S j) (push (EvSleep d') s1)) ->
    Inv 0%nat s -> (m < n)%nat ->
    exists sm d',
      Inv m sm /\
      sleeps (trace sm) = (sleeps (trace s) ++ delays d 2 m)%list /\
      retry is_socket_error n d 2 f s = retry is_socket_error (n - m) d' 2 f sm.
Proof.
  induction m as [|m IH]; intros Inv n d s Hstep H0 Hn.
  - exists s, d. cbn [delays]. rewrite app_nil_r, Nat.sub_0_r. auto.
  - destruct n as [|[|n]]; [lia|lia|].
    destruct (Hstep 0%nat s ltac:(lia) H0) as (s1 & Hf & Hs1 & Hinv).
    rewrite retry_unfold, Hf. cbn [is_socket_error].
    destruct (IH (fun j => Inv (S j)) (S n) (d * 2) (push (EvSleep d) s1))
      as (sm & d' & Hm & Hsl & Hr).
    + intros j st Hj Hst. apply (Hstep (S j) st); [lia|exact Hst].
    + apply Hinv.
    + lia.
    + exists sm, d'. split; [exact Hm|]. split.
      * rewrite Hsl. cbn [push trace]. rewrite sleeps_app, Hs1. cbn [delays].
        rewrite <- app_assoc. reflexivity.
      * rewrite Hr. reflexivity.
Qed.

Lemma visible_ext_count (p : event -> bool) (s s' : State) (ext : list event) :
  (forall e, Ref.quiet e = true -> p e = false) ->
  Ref.visible (trace s') = (Ref.visible (trace s) ++ ext)%list ->
  count p (trace s') = (count p (trace s) + count p ext)%nat.
Proof.
  intros Hq Hv.
  rewrite <- (count_visible p (trace s') Hq), Hv, count_app, (count_visible p (trace s) Hq).
  reflexivity.
Qed.

Lemma visible_ext_sleeps (s s' : State) (ext : list event) :
  Ref.visible (trace s') = (Ref.visible (trace s) ++ ext)%list ->
  sleeps (trace s') = (sleeps (trace s) ++ sleeps ext)%list.
Proof.
  intros Hv. rewrite <- (sleeps_visible (trace s')), Hv, sleeps_app, sleeps_visible.
  reflexivity.
Qed.

Section EarlyFailures.
Variable env : Env.
Variable self : File.
Variable raw : string.

Lemma attempt_hook_fails s e :
  Ref.wf env self raw s ->
  env_hook env (count is_hook (trace s)) = Some e ->
  exists s',
    FileM.upload_body env self s = (Raise e, s') /\ Ref.wf env self raw s' /\
    Ref.visible (trace s') = (Ref.visible (trace s) ++ [EvHook (path self)])%list.
Proof.
  intros Hwf Hh.
  destruct (upload_body_attempt env self raw s Hwf) as (s' & Hrun & Hwf' & _ & Hv).
  unfold Ref.attempt in Hrun, Hv. rewrite Hh in Hrun, Hv. exists s'. auto.
Qed.

Lemma attempt_head_fails s e :
  Ref.wf env self raw s ->
  env_hook env (count is_hook (trace s)) = None ->
  env_head env (count is_fetch (trace s)) = Raise e ->
  exists s',
    FileM.upload_body env self s = (Raise e, s') /\ Ref.wf env self raw s' /\
    Ref.visible (trace s') =
      (Ref.visible (trace s) ++ [EvHook (path self); EvFetch (FileM.remoteURL self)])%list.
Proof.
  intros Hwf Hh Hd.
  destruct (upload_body_attempt env self raw s Hwf) as (s' & Hrun & Hwf' & _ & Hv).
  unfold Ref.attempt in Hrun, Hv. rewrite Hh, Hd in Hrun, Hv. exists s'. auto.
Qed.

Lemma attempt_unchanged s wire :
  Ref.wf env self raw s ->
  env_hook env (count is_hook (trace s)) = None ->
  env_head env (count is_fetch (trace s)) = Ok wire ->
  FileM.header_diff (Ref.local_of env self raw) (Ref.remote_of wire) = false ->
  exists s',
    FileM.upload_body env self s =
      (Ok {| out_changed := false;
             out_size := PyStr.len (Ref.payload_of env self raw) |}, s') /\
    Ref.wf env self raw s' /\
    Ref.visible (trace s') =
      (Ref.visible (trace s) ++ [EvHook (path self); EvFetch (FileM.remoteURL self);
                                 Ref.summary_event env self raw false])%list.
Proof.
  intros Hwf Hh Hd Hb.
  destruct (upload_body_attempt env self raw s Hwf) as (s' & Hrun & Hwf' & _ & Hv).
  unfold Ref.attempt in Hrun, Hv. rewrite Hh, Hd, Hb in Hrun, Hv. exists s'. auto.
Qed.

End EarlyFailures.

(** X7. A failure of the plugin hook ends the attempt before anything
    goes over the network: with any error but a socket error [upload]
    fails at once, with no HEAD request, no store call and no sleep; a
    hook that keeps failing with a socket error is called five times,
    3, 6, 12 and 24 seconds apart, and still nothing else is called. *)
Theorem hook_failure_stops_sync (env : Env) (self : File) (raw : string) :
  (forall s e,
     Ref.wf env self raw s ->
     env_hook env (count is_hook (trace s)) = Some e -> e <> SocketError ->
     exists s',
       FileM.upload env self s = (Raise e, s') /\
       count is_hook (trace s') = S (count is_hook (trace s)) /\
       count is_fetch (trace s') = count is_fetch (trace s) /\
       count is_put (trace s') = count is_put (trace s) /\
       sleeps (trace s') = sleeps (trace s)) /\
  (env_read env (Ref.fullpath self) = Some raw ->
   (forall i, env_hook env i = Some SocketError) ->
   exists s',
     FileM.upload env self fresh = (Raise SocketError, s') /\
     count is_hook (trace s') = 5%nat /\
     count is_fetch (trace s') = 0%nat /\
     count is_put (trace s') = 0%nat /\
     sleeps (trace s') = [3; 6; 12; 24]).
Proof.
  split.
  - intros s e Hwf Hh He.
    destruct (attempt_hook_fails env self raw s e Hwf Hh) as (s' & Hrun & _ & Hv).
    exists s'. split.
    + unfold FileM.upload. apply retry_final; [exact Hrun|right].
      destruct e; try reflexivity. contradiction.
    + rewrite (visible_ext_count is_hook s s' _ quiet_not_hook Hv),
        (visible_ext_count is_fetch s s' _ quiet_not_fetch Hv),
        (visible_ext_count is_put s s' _ quiet_not_put Hv),
        (visible_ext_sleeps s s' _ Hv).
      rewrite !count_single. cbn. rewrite app_nil_r. repeat split; lia.
  - intros Hread Hhook.
    set (Inv := fun (j : nat) (st : State) =>
                  Ref.wf env self raw st /\ count is_hook (trace st) = j /\
                  count is_fetch (trace st) = 0%nat /\ count is_put (trace st) = 0%nat).
    assert (Hstep : forall st, Ref.wf env self raw st ->
              exists s1, FileM.upload_body env self st = (Raise SocketError, s1) /\
                         Ref.wf env self raw s1 /\
                         sleeps (trace s1) = sleeps (trace st) /\
                         count is_hook (trace s1) = S (count is_hook (trace st)) /\
                         count is_fetch (trace s1) = count is_fetch (trace st) /\
                         count is_put (trace s1) = count is_put (trace st)).
    { intros st Hwf.
      destruct (attempt_hook_fails env self raw st SocketError Hwf (Hhook _))
        as (s1 & Hrun & Hwf1 & Hv).
      exists s1. split; [exact Hrun|]. split; [exact Hwf1|].
      rewrite (visible_ext_count is_hook st s1 _ quiet_not_hook Hv),
        (visible_ext_count is_fetch st s1 _ quiet_not_fetch Hv),
        (visible_ext_count is_put st s1 _ quiet_not_put Hv),
        (visible_ext_sleeps st s1 _ Hv).
      rewrite !count_single. cbn. rewrite app_nil_r. repeat split; lia. }
    destruct (retry_steps (FileM.upload_body env self) 4 Inv 5 3 fresh)
      as (sm & d' & (Hwfm & Hhm & Hfm & Hpm) & Hslm & Hr).
    + intros j st _ (Hwf & Hh & Hf & Hp).
      destruct (Hstep st Hwf) as (s1 & Hrun & Hwf1 & Hs1 & Hh1 & Hf1 & Hp1).
      exists s1. split; [exact Hrun|]. split; [exact Hs1|]. intros d0. unfold Inv.
      rewrite !count_push. cbn [is_hook is_fetch is_put].
      split; [apply wf_push; [reflexivity|exact Hwf1]|]. repeat split; lia.
    + unfold Inv. split; [apply wf_fresh; exact Hread|]. repeat split; reflexivity.
    + lia.
    + destruct (Hstep sm Hwfm) as (s' & Hrun & _ & Hs' & Hh' & Hf' & Hp').
      exists s'. unfold FileM.upload. rewrite Hr. cbn [Nat.sub].
      split; [apply retry_final; [exact Hrun|left; lia]|].
      rewrite Hs', Hslm. repeat split; lia.
Qed.

Lemma hook_failure_stops_sync_witness :
  exists s',
    FileM.upload (Sample.hook_fails Sample.page_raw SocketError) Sample.page fresh
      = (Raise SocketError, s') /\
    count is_hook (trace s') = 5%nat /\
    count is_fetch (trace s') = 0%nat /\
    count is_put (trace s') = 0%nat /\
    sleeps (trace s') = [3; 6; 12; 24].
Proof.
  refine (proj2 (hook_failure_stops_sync (Sample.hook_fails Sample.page_raw SocketError)
                                         Sample.page Sample.page_raw) _ _).
  - reflexivity.
  - intros i. reflexivity.
Defined.

Example plugin_error_is_fatal :
  fst (FileM.upload (Sample.hook_fails Sample.page_raw (OtherError "PluginError"))
                    Sample.page fresh) = Raise (OtherError "PluginError") /\
  Ref.visible
    (trace (snd (FileM.upload (Sample.hook_fails Sample.page_raw (OtherError "PluginError"))
                              Sample.page fresh))) = [EvHook "docs/index.HTML"].
Proof. split; reflexivity. Qed.

(** X8. The envelope covers the HEAD request as well: after [k] socket
    errors of the request ([k] at most 4) the attempt that gets an
    answer decides, here "unchanged", after [k] sleeps and with no
    store call; five socket errors in a row are handed to the caller. *)
Theorem head_socket_errors_are_retried (env : Env) (self : File) (raw : string)
        (k : nat) (wire : list (string * string)) :
  env_read env (Ref.fullpath self) = Some raw ->
  (forall i, env_hook env i = None) ->
  (forall i, (i < k)%nat -> env_head env i = Raise SocketError) ->
  (k <= 4)%nat ->
  (env_head env k = Ok wire ->
   FileM.header_diff (Ref.local_of env self raw) (Ref.remote_of wire) = false ->
   exists s',
     FileM.upload env self fresh =
       (Ok {| out_changed := false;
              out_size := PyStr.len (Ref.payload_of env self raw) |}, s') /\
     count is_hook (trace s') = S k /\ count is_fetch (trace s') = S k /\
     count is_put (trace s') = 0%nat /\
     sleeps (trace s') = firstn k [3; 6; 12; 24]) /\
  (k = 4%nat -> env_head env 4%nat = Raise SocketError ->
   exists s',
     FileM.upload env self fresh = (Raise SocketError, s') /\
     count is_hook (trace s') = 5%nat /\ count is_fetch (trace s') = 5%nat /\
     count is_put (trace s') = 0%nat /\
     sleeps (trace s') = [3; 6; 12; 24]).
Proof.
  intros Hread Hhook Hfail Hk.
  set (Inv := fun (j : nat) (st : State) =>
                Ref.wf env self raw st /\ count is_hook (trace st) = j /\
                count is_fetch (trace st) = j /\ count is_put (trace st) = 0%nat).
  destruct (retry_steps (FileM.upload_body env self) k Inv 5 3 fresh)
    as (sm & d' & (Hwfm & Hhm & Hfm & Hpm) & Hslm & Hr).
  { intros j st Hj (Hwf & Hh & Hf & Hp).
    destruct (attempt_head_fails env self raw st SocketError Hwf (Hhook _))
      as (s1 & Hrun & Hwf1 & Hv); [rewrite Hf; apply Hfail; exact Hj|].
    exists s1. split; [exact Hrun|]. split.
    - rewrite (visible_ext_sleeps st s1 _ Hv). apply app_nil_r.
    - intros d0. unfold Inv. rewrite !count_push. cbn [is_hook is_fetch is_put].
      rewrite (visible_ext_count is_hook st s1 _ quiet_not_hook Hv),
        (visible_ext_count is_fetch st s1 _ quiet_not_fetch Hv),
        (visible_ext_count is_put st s1 _ quiet_not_put Hv).
      split; [apply wf_push; [reflexivity|exact Hwf1]|]. cbn. repeat split; lia. }
  { unfold Inv. split; [apply wf_fresh; exact Hread|]. repeat split; reflexivity. }
  { lia. }
  cbn [sleeps flat_map trace fresh app] in Hslm.
  rewrite (delays_firstn k Hk) in Hslm.
  split.
  - intros Hok Hsame.
    destruct (attempt_unchanged env self raw sm wire Hwfm (Hhook _))
      as (s' & Hrun & _ & Hv); [rewrite Hfm; exact Hok|exact Hsame|].
    exists s'. unfold FileM.upload. rewrite Hr.
    split; [apply retry_final; [exact Hrun|right; exact I]|].
    rewrite (visible_ext_count is_hook sm s' _ quiet_not_hook Hv),
      (visible_ext_count is_fetch sm s' _ quiet_not_fetch Hv),
      (visible_ext_count is_put sm s' _ quiet_not_put Hv),
      (visible_ext_sleeps sm s' _ Hv), Hslm.
    cbn. rewrite app_nil_r. repeat split; lia.
  - intros -> Hlast.
    destruct (attempt_head_fails env self raw sm SocketError Hwfm (Hhook _))
      as (s' & Hrun & _ & Hv); [rewrite Hfm; exact Hlast|].
    exists s'. unfold FileM.upload. rewrite Hr. cbn [Nat.sub].
    split; [apply retry_final; [exact Hrun|left; lia]|].
    rewrite (visible_ext_count is_hook sm s' _ quiet_not_hook Hv),
      (visible_ext_count is_fetch sm s' _ quiet_not_fetch Hv),
      (visible_ext_count is_put sm s' _ quiet_not_put Hv),
      (visible_ext_sleeps sm s' _ Hv), Hslm.
    cbn. repeat split; lia.
Qed.

Lemma head_socket_errors_are_retried_witness :
  exists s',
    FileM.upload (Sample.head_flaky Sample.page_raw 2) Sample.page fresh =
      (Ok {| out_changed := false; out_size := 23 |}, s') /\
    count is_hook (trace s') = 3%nat /\ count is_fetch (trace s') = 3%nat /\
    count is_put (trace s') = 0%nat /\
    sleeps (trace s') = [3; 6].
Proof.
  refine (proj1 (head_socket_errors_are_retried (Sample.head_flaky Sample.page_raw 2)
                   Sample.page Sample.page_raw 2 _ _ _ _ _) eq_refl _).
  - reflexivity.
  - intros i. reflexivity.
  - intros i Hi. do 2 (destruct i as [|i]; [reflexivity|]). lia.
  - lia.
  - vm_compute. reflexivity.
Defined.

(** ** What a whole [upload] never does *)

Lemma quiet_not_summary e : Ref.quiet e = true -> is_summary e = false.
Proof. destruct e; cbv; congruence. Qed.

(** The attempt that gives the envelope its result: it starts from a
    state reached through failed attempts and sleeps only. *)
Lemma retry_last {A} (f : M A) (J : State -> Prop) :
  (forall s e s1 d, J s -> f s = (Raise e, s1) -> J (push (EvSleep d) s1)) ->
  forall n d s, J s ->
    exists sl, J sl /\ retry is_socket_error n d 2 f s = f sl.
Proof.
  intros Hstep. induction n as [|n IH]; intros d s Hs.
  - exists s. split; [exact Hs|reflexivity].
  - destruct n as [|n]; [exists s; split; [exact Hs|reflexivity]|].
    rewrite retry_unfold. destruct (f s) as [[a|e] s1] eqn:Hf.
    + exists s. rewrite Hf. split; [exact Hs|reflexivity].
    + destruct (is_socket_error e).
      * apply IH. apply (Hstep s e s1 d Hs Hf).
      * exists s. rewrite Hf. split; [exact Hs|reflexivity].
Qed.

Section Never.
Variable env : Env.
Variable self : File.
Variable raw : string.

(** In one attempt the store is called only after a HEAD request, and
    the summary line is written exactly when the attempt succeeds. *)
Lemma attempt_order (hk : option exn) (hd : result (list (string * string)))
      (pt : list (Z * Z) * option exn) :
  let a := Ref.attempt env self raw hk hd pt in
  (count is_put (snd a) <= count is_fetch (snd a))%nat /\
  count is_summary (snd a) =
    match fst (fst a) with Ok _ => 1%nat | Raise _ => 0%nat end /\
  (forall o, fst (fst a) = Ok o ->
     In (Ref.summary_event env self raw (out_changed o)) (snd a) /\
     out_size o = PyStr.len (Ref.payload_of env self raw)).
Proof.
  unfold Ref.attempt.
  assert (Hfail : forall (e : exn) (m : Z) (ext : list event),
            (count is_put ext <= count is_fetch ext)%nat ->
            count is_summary ext = 0%nat ->
            (count is_put ext <= count is_fetch ext)%nat /\
            count is_summary ext = 0%nat /\
            (forall o, @Raise UploadOutcome e = Ok o ->
               In (Ref.summary_event env self raw (out_changed o)) ext /\
               out_size o = PyStr.len (Ref.payload_of env self raw))).
  { intros e m ext H1 H2. split; [exact H1|]. split; [exact H2|]. discriminate. }
  destruct hk as [e|]; [apply (Hfail e 0); [cbv; lia|reflexivity]|].
  destruct hd as [wire|e]; [|apply (Hfail e 0); [cbv; lia|reflexivity]].
  destruct (FileM.header_diff _ _).
  2:{ cbn [fst snd]. split; [cbv; lia|]. split; [reflexivity|].
      intros o Ho. injection Ho as <-. cbn [out_changed out_size].
      split; [|reflexivity]. right. right. left. reflexivity. }
  assert (Hlogs : Forall (fun e => is_progress e = true)
    (fst (fst (if FileM.PROGRESS_MIN_SIZE <? PyStr.len (Ref.payload_of env self raw)
               then Ref.cb_run self 0 (fst pt) else ([], 0, None))))).
  { destruct (FileM.PROGRESS_MIN_SIZE <? _); [apply cb_run_progress|constructor]. }
  destruct (if FileM.PROGRESS_MIN_SIZE <? _ then _ else _) as [[logs final] err].
  cbn [fst snd] in Hlogs.
  assert (Hs : count is_summary logs = 0%nat)
    by (apply progress_count; [intros e He; destruct e; simpl in *; congruence|exact Hlogs]).
  assert (Hf : count is_fetch logs = 0%nat)
    by (apply progress_count; [intros e He; destruct e; simpl in *; congruence|exact Hlogs]).
  assert (Hp : count is_put logs = 0%nat)
    by (apply progress_count; [intros e He; destruct e; simpl in *; congruence|exact Hlogs]).
  destruct err as [e|]; [|destruct (snd pt) as [e|]]; cbn [fst snd].
  - apply (Hfail e final); rewrite !count_app, ?Hs, ?Hf, ?Hp; [cbv; lia|reflexivity].
  - apply (Hfail e final); rewrite !count_app, ?Hs, ?Hf, ?Hp; [cbv; lia|reflexivity].
  - rewrite !count_app, Hs, Hf, Hp. split; [cbv; lia|]. split; [reflexivity|].
    intros o Ho. injection Ho as <-. cbn [out_changed out_size]. split; [|reflexivity].
    apply in_or_app. right. apply in_or_app. right. left. reflexivity.
Qed.

(** X9. From a new object, whatever the collaborators answer, [upload]
    calls the hook at most 5 times, makes at most one HEAD request per
    hook call and calls the store at most once per HEAD request. *)
Theorem calls_are_ordered :
  env_read env (Ref.fullpath self) = Some raw ->
  exists r s',
    FileM.upload env self fresh = (r, s') /\
    (count is_put (trace s') <= count is_fetch (trace s'))%nat /\
    (count is_fetch (trace s') <= count is_hook (trace s'))%nat /\
    (1 <= count is_hook (trace s') <= 5)%nat.
Proof.
  intros Hread. pose proof (wf_fresh env self raw Hread) as Hwf.
  destruct (retry_any env self raw 5 3 fresh Hwf)
    as (j & r & s' & Hj & Hrun & _ & _ & Hh & Hf & _).
  exists r, s'. split; [exact Hrun|].
  cbn in Hj, Hh, Hf. split; [|split; lia].
  set (J := fun st : State =>
              Ref.wf env self raw st /\
              (count is_put (trace st) <= count is_fetch (trace st))%nat).
  destruct (retry_last (FileM.upload_body env self) J) with (n := 5%nat) (d := 3) (s := fresh)
    as (sl & (Hwfl & Hol) & Hlast).
  - intros st e s1 d (Hwf0 & Ho) Hb.
    destruct (upload_body_attempt env self raw st Hwf0) as (s1' & Hrun' & Hwf1 & _ & Hv).
    rewrite Hb in Hrun'. injection Hrun' as _ <-.
    split; [apply wf_push; [reflexivity|exact Hwf1]|].
    rewrite !count_push. cbn [is_put is_fetch].
    rewrite (visible_ext_count is_put st s1 _ quiet_not_put Hv),
      (visible_ext_count is_fetch st s1 _ quiet_not_fetch Hv).
    pose proof (proj1 (attempt_order (env_hook env (count is_hook (trace st)))
                                     (env_head env (count is_fetch (trace st)))
                                     (env_put env (count is_put (trace st))))).
    lia.
  - split; [exact Hwf|]. cbn. lia.
  - rewrite Hrun in Hlast.
    destruct (upload_body_attempt env self raw sl Hwfl) as (s1' & Hrun' & _ & _ & Hv).
    rewrite <- Hlast in Hrun'. injection Hrun' as _ <-.
    rewrite (visible_ext_count is_put sl s' _ quiet_not_put Hv),
      (visible_ext_count is_fetch sl s' _ quiet_not_fetch Hv).
    pose proof (proj1 (attempt_order (env_hook env (count is_hook (trace sl)))
                                     (env_head env (count is_fetch (trace sl)))
                                     (env_put env (count is_put (trace sl))))).
    lia.
Qed.

(** X10. [upload] writes its summary line exactly when it returns
    normally, and then once, whatever retries came before; the line
    carries the flag that is returned, the raw size, and the returned
    size when the payload is compressed. *)
Theorem summary_matches_outcome (s : State) :
  Ref.wf env self raw s ->
  exists r s',
    FileM.upload env self s = (r, s') /\
    count is_summary (trace s') =
      (count is_summary (trace s) + match r with Ok _ => 1 | Raise _ => 0 end)%nat /\
    (forall o, r = Ok o ->
       exists b,
         fst (FileM.shouldCompress env self s) = Ok b /\
         In (EvLogSummary (out_changed o) (path self) (PyStr.len raw)
                          (if b then Some (out_size o) else None)) (trace s')).
Proof.
  intros Hwf.
  set (J := fun st : State =>
              Ref.wf env self raw st /\
              count is_summary (trace st) = count is_summary (trace s)).
  destruct (retry_last (FileM.upload_body env self) J) with (n := 5%nat) (d := 3) (s := s)
    as (sl & (Hwfl & Hcl) & Hlast).
  - intros st e s1 d (Hwf0 & Hc) Hb.
    destruct (upload_body_attempt env self raw st Hwf0) as (s1' & Hrun' & Hwf1 & _ & Hv).
    rewrite Hb in Hrun'. injection Hrun' as Hr <-.
    split; [apply wf_push; [reflexivity|exact Hwf1]|].
    rewrite count_push. cbn [is_summary].
    rewrite (visible_ext_count is_summary st s1 _ quiet_not_summary Hv).
    destruct (attempt_order (env_hook env (count is_hook (trace st)))
                            (env_head env (count is_fetch (trace st)))
                            (env_put env (count is_put (trace st)))) as (_ & Hs & _).
    rewrite Hs, <- Hr. lia.
  - split; [exact Hwf|reflexivity].
  - fold (FileM.upload env self) in Hlast.
    destruct (upload_body_attempt env self raw sl Hwfl) as (s' & Hrun & _ & _ & Hv).
    destruct (attempt_order (env_hook env (count is_hook (trace sl)))
                            (env_head env (count is_fetch (trace sl)))
                            (env_put env (count is_put (trace sl)))) as (_ & Hs & Hin).
    eexists _, s'. split; [rewrite Hlast; exact Hrun|]. split.
    + rewrite (visible_ext_count is_summary sl s' _ quiet_not_summary Hv), Hs, Hcl.
      reflexivity.
    + intros o Ho. destruct (Hin o Ho) as (Hev & Hsize).
      destruct (shouldCompress_spec env self raw s Hwf) as (s1 & Hsc & _).
      exists (Ref.should self raw). rewrite Hsc. split; [reflexivity|].
      assert (Hi : In (Ref.summary_event env self raw (out_changed o))
                      (Ref.visible (trace s')))
        by (rewrite Hv; apply in_or_app; right; exact Hev).
      unfold Ref.visible in Hi. apply filter_In in Hi. destruct Hi as [Hi _].
      unfold Ref.summary_event in Hi. rewrite Hsize. exact Hi.
Qed.

End Never.

Lemma calls_are_ordered_witness :
  exists r s',
    FileM.upload (Sample.flaky Sample.page_raw 2) Sample.page fresh = (r, s') /\
    (count is_put (trace s') <= count is_fetch (trace s'))%nat /\
    (count is_fetch (trace s') <= count is_hook (trace s'))%nat /\
    (1 <= count is_hook (trace s') <= 5)%nat.
Proof.
  exact (calls_are_ordered (Sample.flaky Sample.page_raw 2) Sample.page Sample.page_raw
                           eq_refl).
Defined.

Lemma summary_matches_outcome_witness :
  exists r s',
    FileM.upload (Sample.in_sync Sample.page_raw) Sample.page fresh = (r, s') /\
    count is_summary (trace s') =
      (count is_summary (trace fresh) + match r with Ok _ => 1 | Raise _ => 0 end)%nat /\
    (forall o, r = Ok o ->
       exists b,
         fst (FileM.shouldCompress (Sample.in_sync Sample.page_raw) Sample.page fresh)
           = Ok b /\
         In (EvLogSummary (out_changed o) (path Sample.page) (PyStr.len Sample.page_raw)
                          (if b then Some (out_size o) else None)) (trace s')).
Proof.
  refine (summary_matches_outcome (Sample.in_sync Sample.page_raw) Sample.page
                                  Sample.page_raw fresh _).
  constructor; [reflexivity | left; reflexivity | left; reflexivity | reflexivity].
Defined.

Example summary_of_page_in_sync :
  Ref.visible (trace (snd (FileM.upload (Sample.in_sync Sample.page_raw) Sample.page fresh)))
  = [EvHook "docs/index.HTML"; EvFetch "http://www.example.org/docs/index.HTML";
     EvLogSummary false "docs/index.HTML" 2000 (Some 23)].
Proof. reflexivity. Qed.

(** ** What the store is given *)

Section StoreCall.
Variable env : Env.
Variable self : File.
Variable raw : string.

(** One attempt that finds the artifact changed. *)
Lemma attempt_put s wire :
  Ref.wf env self raw s ->
  env_hook env (count is_hook (trace s)) = None ->
  env_head env (count is_fetch (trace s)) = Ok wire ->
  fst ((FileM.build_headers env self ;; FileM.preDeployFile env self ;;
        FileM.changed env self)%py s) = Ok true ->
  exists r s',
    FileM.upload_body env self s = (r, s') /\
    fst (FileM.payload env self s) = Ok (Ref.payload_of env self raw) /\
    fst (FileM.shouldCompress env self s) = Ok (Ref.should self raw) /\
    count is_put (trace s') = S (count is_put (trace s)) /\
    In (Ref.put_event env self raw) (trace s') /\
    (forall o, r = Ok o -> out_size o = PyStr.len (Ref.payload_of env self raw)).
Proof.
  intros Hwf Hhook Hhead Hch.
  destruct (changed_prefix_spec env self raw s wire Hwf Hhook Hhead) as (s2 & Hch').
  rewrite Hch' in Hch. injection Hch as Hd.
  destruct (attempt_decided env self raw s wire Hwf Hhook Hhead)
    as (r & s' & Hrun & Hok & _ & Hput & _ & Hin).
  rewrite Hd in Hput, Hok.
  destruct (payload_spec env self raw s Hwf) as (sp & Hp & _).
  destruct (shouldCompress_spec env self raw s Hwf) as (sc & Hsc & _).
  exists r, s'. rewrite Hp, Hsc. split; [exact Hrun|]. split; [reflexivity|].
  split; [reflexivity|]. split; [lia|]. split; [exact (Hin Hd)|].
  intros o Ho. rewrite (Hok o Ho). reflexivity.
Qed.

End StoreCall.

(** X11. When the artifact is found changed, the store is called once
    in the attempt, with the payload as body, public-read, and the
    headers of the object as the hook left them: under a name, the
    value a plugin assigned last, or else what [upload] built, the
    cache directive and, for a compressed payload, the encoding; no
    header comes from anywhere else.  The checksum is put on a copy,
    never on the headers sent.  The size returned is the length of the
    body. *)
Theorem store_gets_plain_headers (env : Env) (self : File) (raw : string) (s : State)
        (wire : list (string * string)) :
  Ref.wf env self raw s ->
  env_hook env (count is_hook (trace s)) = None ->
  env_head env (count is_fetch (trace s)) = Ok wire ->
  fst ((FileM.build_headers env self ;; FileM.preDeployFile env self ;;
        FileM.changed env self)%py s) = Ok true ->
  exists r s' body built hdrs cb num_cb,
    FileM.upload_body env self s = (r, s') /\
    fst (FileM.payload env self s) = Ok body /\
    count is_put (trace s') = S (count is_put (trace s)) /\
    In (EvPut (path self) (FileM.truthy (mime_guess env (path self))) body hdrs
              "public-read" cb num_cb) (trace s') /\
    headers (snd (FileM.build_headers env self s)) = Some built /\
    (forall k, is_Some (built !! k) -> k = "cache-control" \/ k = "content-encoding") /\
    CaseInsensitiveDict.getitem "Cache-Control" built = Some "max-age=604800" /\
    (exists b, fst (FileM.shouldCompress env self s) = Ok b /\
               CaseInsensitiveDict.getitem "Content-Encoding" built =
               if b then Some "gzip" else None) /\
    (forall name,
       CaseInsensitiveDict.getitem name hdrs =
       match wire_get name (hook_headers env) with
       | Some v => Some v
       | None => CaseInsensitiveDict.getitem name built
       end) /\
    (forall k, is_Some (hdrs !! k) ->
       is_Some (built !! k) \/
       exists n v, In (n, v) (hook_headers env) /\ k = PyStr.lower n) /\
    (hook_headers env = [] -> hdrs = built) /\
    hdrs !! "etag" = wire_get "ETag" (hook_headers env) /\
    (forall o, r = Ok o -> out_size o = PyStr.len body).
Proof.
  intros Hwf Hhook Hhead Hch.
  destruct (attempt_put env self raw s wire Hwf Hhook Hhead Hch)
    as (r & s' & Hrun & Hp & Hsc & Hput & Hin & Hsize).
  destruct (build_headers_spec env self raw s Hwf) as (s0 & Hb & _ & _ & Hh0 & _).
  exists r, s', (Ref.payload_of env self raw), (Ref.headers_of self raw),
         (Ref.hooked env self raw).
  eexists _, _. split; [exact Hrun|]. split; [exact Hp|]. split; [exact Hput|].
  split; [exact Hin|]. split; [rewrite Hb; exact Hh0|].
  split; [apply headers_of_names|].
  split; [apply headers_of_cache_control|]. split.
  { exists (Ref.should self raw). split; [exact Hsc|apply headers_of_content_encoding]. }
  split; [intros name; apply hooked_lookup|].
  split; [intros k; apply assigned_keys|].
  split; [intros Hnil; unfold Ref.hooked; rewrite Hnil; reflexivity|].
  split; [|exact Hsize].
  change "etag" with (PyStr.lower "ETag"). rewrite hooked_lookup.
  change (PyStr.lower "ETag") with "etag". rewrite headers_of_etag.
  destruct (wire_get "ETag" (hook_headers env)); reflexivity.
Qed.

Lemma store_gets_plain_headers_witness :
  exists r s' body built hdrs cb num_cb,
    FileM.upload_body (Sample.plugged Sample.logo_raw) Sample.logo fresh = (r, s') /\
    fst (FileM.payload (Sample.plugged Sample.logo_raw) Sample.logo fresh) = Ok body /\
    count is_put (trace s') = S (count is_put (trace fresh)) /\
    In (EvPut (path Sample.logo) (Some "image/png") body hdrs "public-read" cb num_cb)
       (trace s') /\
    headers (snd (FileM.build_headers (Sample.plugged Sample.logo_raw) Sample.logo fresh))
      = Some built /\
    (forall k, is_Some (built !! k) -> k = "cache-control" \/ k = "content-encoding") /\
    CaseInsensitiveDict.getitem "Cache-Control" built = Some "max-age=604800" /\
    (exists b, fst (FileM.shouldCompress (Sample.plugged Sample.logo_raw) Sample.logo fresh)
               = Ok b /\
               CaseInsensitiveDict.getitem "Content-Encoding" built =
               if b then Some "gzip" else None) /\
    (forall name,
       CaseInsensitiveDict.getitem name hdrs =
       match wire_get name (hook_headers (Sample.plugged Sample.logo_raw)) with
       | Some v => Some v
       | None => CaseInsensitiveDict.getitem name built
       end) /\
    (forall k, is_Some (hdrs !! k) ->
       is_Some (built !! k) \/
       exists n v, In (n, v) (hook_headers (Sample.plugged Sample.logo_raw)) /\
                   k = PyStr.lower n) /\
    (hook_headers (Sample.plugged Sample.logo_raw) = [] -> hdrs = built) /\
    hdrs !! "etag" = None /\
    (forall o, r = Ok o -> out_size o = PyStr.len body).
Proof.
  refine (store_gets_plain_headers (Sample.plugged Sample.logo_raw) Sample.logo
                                   Sample.logo_raw fresh [] _ _ _ _).
  - constructor; [reflexivity | left; reflexivity | left; reflexivity | reflexivity].
  - reflexivity.
  - reflexivity.
  - vm_compute. reflexivity.
Defined.

(** The plugin's headers reach the store along with the ones built. *)
Example plugged_logo_put :
  List.filter is_put
    (trace (snd (FileM.upload_body (Sample.plugged Sample.logo_raw) Sample.logo fresh)))
  = [EvPut "img/logo.png" (Some "image/png") Sample.logo_raw
           (<["x-robots-tag" := "noindex"]>
              (<["content-encoding" := "gzip"]> {["cache-control" := "no-cache"]}))
           "public-read" false 0].
Proof. vm_compute. reflexivity. Qed.

(** X12. The number of progress calls asked of the store is the size
    of the payload in whole megabytes.  Whenever it is at least one the
    callback is there; between 512 KB and 1 MB the callback is passed
    with a count of zero. *)
Theorem progress_granularity (env : Env) (self : File) (raw : string) (s : State)
        (wire : list (string * string)) :
  Ref.wf env self raw s ->
  env_hook env (count is_hook (trace s)) = None ->
  env_head env (count is_fetch (trace s)) = Ok wire ->
  fst ((FileM.build_headers env self ;; FileM.preDeployFile env self ;;
        FileM.changed env self)%py s) = Ok true ->
  exists r s' content_type body hdrs cb num_cb,
    FileM.upload_body env self s = (r, s') /\
    In (EvPut (path self) content_type body hdrs "public-read" cb num_cb) (trace s') /\
    0 <= num_cb /\
    1024 * 1024 * num_cb <= PyStr.len body < 1024 * 1024 * (num_cb + 1) /\
    (cb = true <-> 524288 < PyStr.len body) /\
    (1 <= num_cb -> cb = true) /\
    (524288 < PyStr.len body < 1048576 -> cb = true /\ num_cb = 0).
Proof.
  intros Hwf Hhook Hhead Hch.
  destruct (attempt_put env self raw s wire Hwf Hhook Hhead Hch)
    as (r & s' & Hrun & _ & _ & _ & Hin & _).
  exists r, s'. eexists _, (Ref.payload_of env self raw), _, _, _.
  split; [exact Hrun|]. split; [exact Hin|].
  change FileM.PROGRESS_MIN_SIZE with 524288.
  pose proof (len_nonneg (Ref.payload_of env self raw)) as Hn.
  set (n := PyStr.len (Ref.payload_of env self raw)) in *.
  pose proof (Z.div_mod n (1024 * 1024) ltac:(lia)) as Hdm.
  pose proof (Z.mod_pos_bound n (1024 * 1024) ltac:(lia)) as Hmb.
  assert (Hq : 0 <= n / (1024 * 1024)) by (apply Z.div_pos; lia).
  rewrite Z.ltb_lt. repeat split; try lia.
Qed.

Lemma progress_granularity_witness :
  exists r s' content_type body hdrs cb num_cb,
    FileM.upload_body (Sample.reporting Sample.poster_raw 0) Sample.poster fresh = (r, s') /\
    In (EvPut (path Sample.poster) content_type body hdrs "public-read" cb num_cb)
       (trace s') /\
    0 <= num_cb /\
    1024 * 1024 * num_cb <= PyStr.len body < 1024 * 1024 * (num_cb + 1) /\
    (cb = true <-> 524288 < PyStr.len body) /\
    (1 <= num_cb -> cb = true) /\
    (524288 < PyStr.len body < 1048576 -> cb = true /\ num_cb = 0).
Proof.
  refine (progress_granularity (Sample.reporting Sample.poster_raw 0) Sample.poster
                               Sample.poster_raw fresh [] _ _ _ _).
  - constructor; [reflexivity | left; reflexivity | left; reflexivity | reflexivity].
  - reflexivity.
  - reflexivity.
  - vm_compute. reflexivity.
Defined.

Example poster_granularity :
  List.filter is_put
    (List.map (fun e => match e with
                        | EvPut k ct _ h p cb n => EvPut k ct "" h p cb n
                        | other => other
                        end)
       (trace (snd (FileM.upload_body (Sample.reporting Sample.poster_raw 0)
                                      Sample.poster fresh))))
  = [EvPut "img/poster.png" (Some "image/png") ""
           {["cache-control" := "max-age=604800"]} "public-read" true 0].
Proof. vm_compute. reflexivity. Qed.

(** X13. The percentage is a division by the total the store reports:
    when the callback is there and the first report is a positive byte
    count against a total of zero, [upload] fails with
    [ZeroDivisionError] after its one store call; it is not retried,
    logs no progress and no summary, and leaves the mark at 0. *)
Theorem zero_total_is_fatal (env : Env) (self : File) (raw : string) (s : State)
        (wire : list (string * string)) (c : Z) (rest : list (Z * Z)) :
  Ref.wf env self raw s ->
  env_hook env (count is_hook (trace s)) = None ->
  env_head env (count is_fetch (trace s)) = Ok wire ->
  fst ((FileM.build_headers env self ;; FileM.preDeployFile env self ;;
        FileM.changed env self)%py s) = Ok true ->
  match fst (FileM.payload env self s) with
  | Ok p => 524288 <? PyStr.len p
  | Raise _ => false
  end = true ->
  fst (env_put env (count is_put (trace s))) = (c, 0) :: rest ->
  0 < c ->
  exists s',
    FileM.upload env self s = (Raise ZeroDivisionError, s') /\
    count is_put (trace s') = S (count is_put (trace s)) /\
    sleeps (trace s') = sleeps (trace s) /\
    progress_logged (trace s') = progress_logged (trace s) /\
    count is_summary (trace s') = count is_summary (trace s) /\
    lastUpload s' = 0.
Proof.
  intros Hwf Hhook Hhead Hch Hbig Hrep Hc.
  destruct (changed_prefix_spec env self raw s wire Hwf Hhook Hhead) as (s2 & Hch').
  rewrite Hch' in Hch. injection Hch as Hd.
  destruct (payload_spec env self raw s Hwf) as (sp & Hp & _).
  rewrite Hp in Hbig. cbn [fst] in Hbig.
  destruct (upload_body_attempt env self raw s Hwf) as (s' & Hrun & _ & Hmark & Hv).
  unfold Ref.attempt in Hrun, Hmark, Hv.
  rewrite Hhook, Hhead, Hd in Hrun, Hmark, Hv.
  change FileM.PROGRESS_MIN_SIZE with 524288 in Hrun, Hmark, Hv.
  rewrite Hbig, Hrep in Hrun, Hmark, Hv. cbn [Ref.cb_run] in Hrun, Hmark, Hv.
  destruct (Z.ltb_spec 0 c) as [_|]; [|lia].
  cbn [Z.eqb fst snd app] in Hrun, Hmark, Hv.
  exists s'. split; [unfold FileM.upload; apply retry_final; [exact Hrun|right; reflexivity]|].
  rewrite (visible_ext_count is_put s s' _ quiet_not_put Hv),
    (visible_ext_count is_summary s s' _ quiet_not_summary Hv),
    (visible_ext_sleeps s s' _ Hv).
  split; [cbv [count List.filter is_put Ref.put_event length]; lia|].
  split; [apply app_nil_r|].
  split; [|split; [cbv [count List.filter is_summary Ref.put_event length]; lia|exact Hmark]].
  rewrite <- (progress_logged_visible (trace s')), Hv, progress_logged_app,
    progress_logged_visible. apply app_nil_r.
Qed.

Lemma zero_total_is_fatal_witness :
  exists s',
    FileM.upload (Sample.zero_total Sample.poster_raw) Sample.poster fresh
      = (Raise ZeroDivisionError, s') /\
    count is_put (trace s') = S (count is_put (trace fresh)) /\
    sleeps (trace s') = sleeps (trace fresh) /\
    progress_logged (trace s') = progress_logged (trace fresh) /\
    count is_summary (trace s') = count is_summary (trace fresh) /\
    lastUpload s' = 0.
Proof.
  refine (zero_total_is_fatal (Sample.zero_total Sample.poster_raw) Sample.poster
                              Sample.poster_raw fresh [] 4096 [(8192, 600000)]
                              _ _ _ _ _ _ _).
  - constructor; [reflexivity | left; reflexivity | left; reflexivity | reflexivity].
  - reflexivity.
  - reflexivity.
  - vm_compute. reflexivity.
  - vm_compute. reflexivity.
  - reflexivity.
  - lia.
Defined.

(** ** Attributes no reader touches *)

Section Frame.

Lemma keeps_ret {A} (a : A) : keeps (ret a).
Proof. intros s. split; reflexivity. Qed.

Lemma keeps_raise {A} (e : exn) : keeps (@raise A e).
Proof. intros s. split; reflexivity. Qed.

Lemma keeps_gets {A} (f : State -> A) : keeps (gets f).
Proof. intros s. split; reflexivity. Qed.

Lemma keeps_emit (e : event) : keeps (emit e).
Proof. intros s. split; reflexivity. Qed.

Lemma keeps_set_memo_data (d : string) : keeps (set_memo_data d).
Proof. intros s. split; reflexivity. Qed.

Lemma keeps_set_payload (p : string) : keeps (set_payload p).
Proof. intros s. split; reflexivity. Qed.

Lemma keeps_bind {A B} (m : M A) (k : A -> M B) :
  keeps m -> (forall a, keeps (k a)) -> keeps (bind m k).
Proof.
  intros Hm Hk s. unfold bind. specialize (Hm s).
  destruct (m s) as [[a|e] s1]; cbn [snd] in *; [|exact Hm].
  destruct (Hk a s1) as [H1 H2]. destruct Hm as [H3 H4]. split; congruence.
Qed.

Variable env : Env.
Variable self : File.

Lemma keeps_data : keeps (FileM.data env self).
Proof.
  unfold FileM.data. apply keeps_bind; [apply keeps_gets|]. intros [d|]; [apply keeps_ret|].
  apply keeps_bind; [apply keeps_emit|]. intros _.
  destruct (env_read env _); [|apply keeps_raise].
  apply keeps_bind; [apply keeps_set_memo_data|]. intros _. apply keeps_ret.
Qed.

Lemma keeps_shouldCompress : keeps (FileM.shouldCompress env self).
Proof.
  unfold FileM.shouldCompress. destruct (negb _); [apply keeps_ret|].
  apply keeps_bind; [apply keeps_data|]. intros d. destruct (_ <? _); apply keeps_ret.
Qed.

Lemma keeps_payload : keeps (FileM.payload env self).
Proof.
  unfold FileM.payload. apply keeps_bind; [apply keeps_gets|]. intros [p|]; [apply keeps_ret|].
  apply keeps_bind; [apply keeps_shouldCompress|]. intros sc.
  apply keeps_bind.
  - destruct sc; (apply keeps_bind; [apply keeps_data|]); intros d.
    + apply keeps_bind; [apply keeps_emit|]. intros _. apply keeps_set_payload.
    + apply keeps_set_payload.
  - intros _. apply keeps_bind; [apply keeps_gets|]. intros [p|]; [apply keeps_ret|].
    apply keeps_raise.
Qed.

Lemma keeps_checksum : keeps (FileM.checksum env self).
Proof.
  unfold FileM.checksum. apply keeps_bind; [apply keeps_payload|]. intros p. apply keeps_ret.
Qed.

Lemma keeps_getURLHeaders url : keeps (FileM.getURLHeaders env url).
Proof.
  unfold FileM.getURLHeaders. apply keeps_bind; [apply keeps_gets|]. intros n.
  apply keeps_bind; [apply keeps_emit|]. intros _.
  destruct (env_head env n); [apply keeps_ret|apply keeps_raise].
Qed.

Lemma keeps_remoteChecksum : keeps (FileM.remoteChecksum env self).
Proof.
  unfold FileM.remoteChecksum. apply keeps_bind; [apply keeps_getURLHeaders|].
  intros hs. apply keeps_ret.
Qed.

Lemma keeps_changed : keeps (FileM.changed env self).
Proof.
  unfold FileM.changed. apply keeps_bind; [apply keeps_getURLHeaders|]. intros fetched.
  apply keeps_bind; [|intros local; apply keeps_ret].
  unfold FileM.local_headers. apply keeps_bind; [apply keeps_gets|].
  intros [h|]; [|apply keeps_raise].
  apply keeps_bind; [apply keeps_checksum|]. intros cs. apply keeps_ret.
Qed.

End Frame.

(** X14. None of [data], [shouldCompress], [payload], [checksum],
    [remoteChecksum] and [changed] assigns [headers] or [lastUpload],
    whether it returns or raises: in particular the entity tag that
    [changed] adds goes to its copy, and the object keeps the headers
    it had. *)
Theorem readers_keep_headers (env : Env) (self : File) (s : State) :
  (headers (snd (FileM.changed env self s)) = headers s /\
   lastUpload (snd (FileM.changed env self s)) = lastUpload s) /\
  (headers (snd (FileM.payload env self s)) = headers s /\
   lastUpload (snd (FileM.payload env self s)) = lastUpload s) /\
  (headers (snd (FileM.checksum env self s)) = headers s /\
   lastUpload (snd (FileM.checksum env self s)) = lastUpload s) /\
  (headers (snd (FileM.remoteChecksum env self s)) = headers s /\
   lastUpload (snd (FileM.remoteChecksum env self s)) = lastUpload s) /\
  (headers (snd (FileM.shouldCompress env self s)) = headers s /\
   lastUpload (snd (FileM.shouldCompress env self s)) = lastUpload s) /\
  (headers (snd (FileM.data env self s)) = headers s /\
   lastUpload (snd (FileM.data env self s)) = lastUpload s).
Proof.
  split; [apply keeps_changed|]. split; [apply keeps_payload|].
  split; [apply keeps_checksum|]. split; [apply keeps_remoteChecksum|].
  split; [apply keeps_shouldCompress|apply keeps_data].
Qed.

(** ** A failed [payload], and the decision spelled out *)

(** X15. For an artifact whose build file cannot be read, [payload]
    and [checksum] raise [IOError] after the attempt to read; nothing
    is compressed and nothing is cached, so the next call tries the
    file again. *)
Theorem failed_payload_caches_nothing (env : Env) (self : File) (s : State) :
  env_read env (Ref.fullpath self) = None ->
  memo_data s = None -> _payload s = None ->
  FileM.payload env self s = (Raise IOError, push (EvRead (Ref.fullpath self)) s) /\
  FileM.checksum env self s = (Raise IOError, push (EvRead (Ref.fullpath self)) s) /\
  FileM.payload env self (push (EvRead (Ref.fullpath self)) s) =
    (Raise IOError, push (EvRead (Ref.fullpath self)) (push (EvRead (Ref.fullpath self)) s)).
Proof.
  intros Hread.
  assert (Hpay : forall st, memo_data st = None -> _payload st = None ->
            FileM.payload env self st =
            (Raise IOError, push (EvRead (Ref.fullpath self)) st)).
  { intros st Hm Hp.
    destruct (FileM.in_compress_types (FileM.extension self)) eqn:Hext.
    - unfold FileM.payload. unfold bind at 1, gets. rewrite Hp.
      run_bind (shouldCompress_unreadable env self Hread st Hext Hm). reflexivity.
    - apply (payload_unreadable env self Hread st Hext Hm Hp). }
  intros Hm Hp. split; [apply Hpay; assumption|]. split.
  - unfold FileM.checksum. run_bind (Hpay s Hm Hp). reflexivity.
  - apply Hpay; assumption.
Qed.

Lemma failed_payload_caches_nothing_witness :
  FileM.payload Sample.unreadable Sample.page fresh =
    (Raise IOError, push (EvRead "/srv/site/.build/docs/index.HTML") fresh).
Proof.
  exact (proj1 (failed_payload_caches_nothing Sample.unreadable Sample.page fresh
                                              eq_refl eq_refl eq_refl)).
Defined.

(** X16. The artifact is found unchanged exactly when the response
    carries, quotes stripped and under any spelling of the names, the
    checksum of the payload as entity tag, every header a plugin
    assigned in the hook, and, unless a plugin assigned them,
    [max-age=604800] as cache directive and, for a compressed payload,
    [gzip] as encoding.  When the plugins assign no header these are
    the three headers that decide. *)
Theorem unchanged_iff_three_headers (env : Env) (self : File) (raw : string) (s : State)
        (wire : list (string * string)) :
  Ref.wf env self raw s ->
  env_hook env (count is_hook (trace s)) = None ->
  env_head env (count is_fetch (trace s)) = Ok wire ->
  exists (b sc : bool) (p : string),
    fst ((FileM.build_headers env self ;; FileM.preDeployFile env self ;;
          FileM.changed env self)%py s) = Ok b /\
    fst (FileM.shouldCompress env self s) = Ok sc /\
    fst (FileM.payload env self s) = Ok p /\
    (b = false <->
     PyStr.strip "034" <$> wire_get "ETag" wire = Some (md5_hexdigest env p) /\
     (forall name v,
        PyStr.lower name <> "etag" -> wire_get name (hook_headers env) = Some v ->
        PyStr.strip "034" <$> wire_get name wire = Some v) /\
     (wire_get "Cache-Control" (hook_headers env) = None ->
      PyStr.strip "034" <$> wire_get "Cache-Control" wire = Some "max-age=604800") /\
     (sc = true -> wire_get "Content-Encoding" (hook_headers env) = None ->
      PyStr.strip "034" <$> wire_get "Content-Encoding" wire = Some "gzip")) /\
    (hook_headers env = [] ->
     (b = false <->
      PyStr.strip "034" <$> wire_get "ETag" wire = Some (md5_hexdigest env p) /\
      PyStr.strip "034" <$> wire_get "Cache-Control" wire = Some "max-age=604800" /\
      (sc = true -> PyStr.strip "034" <$> wire_get "Content-Encoding" wire = Some "gzip"))).
Proof.
  intros Hwf Hhook Hhead.
  destruct (changed_prefix_spec env self raw s wire Hwf Hhook Hhead) as (s2 & Hch).
  destruct (shouldCompress_spec env self raw s Hwf) as (s1 & Hsc & _).
  destruct (payload_spec env self raw s Hwf) as (sp & Hp & _).
  exists (FileM.header_diff (Ref.local_of env self raw) (Ref.remote_of wire)),
         (Ref.should self raw), (Ref.payload_of env self raw).
  rewrite Hch, Hsc, Hp. split; [reflexivity|]. split; [reflexivity|]. split; [reflexivity|].
  match goal with |- (?L <-> ?R) /\ _ => assert (Hgen : L <-> R) end.
  { rewrite header_diff_false. split.
    - intros Hall. split; [|split; [|split]].
      + rewrite <- remote_of_lookup. apply Hall, local_of_etag.
      + intros name v Hne Hw. rewrite <- remote_of_lookup. apply Hall.
        rewrite local_of_other by exact Hne. rewrite hooked_lookup, Hw. reflexivity.
      + intros Hnone. rewrite <- remote_of_lookup. apply Hall.
        apply local_of_cache_control. exact Hnone.
      + intros Hs Hnone. rewrite <- remote_of_lookup. apply Hall.
        change (PyStr.lower "Content-Encoding") with "content-encoding".
        rewrite local_of_content_encoding by exact Hnone. rewrite Hs. reflexivity.
    - intros (He & Hk & Hc & Hg) k v Hl.
      pose proof (local_of_names env self raw k v Hl) as Hlow.
      destruct (decide (k = "etag")) as [->|H1].
      { rewrite local_of_etag in Hl. injection Hl as <-.
        change "etag" with (PyStr.lower "ETag"). rewrite remote_of_lookup. exact He. }
      rewrite local_of_other in Hl by exact H1.
      assert (Hl' : Ref.hooked env self raw !! PyStr.lower k = Some v)
        by (rewrite Hlow; exact Hl).
      rewrite hooked_lookup in Hl'. rewrite <- Hlow, remote_of_lookup.
      destruct (wire_get k (hook_headers env)) as [v'|] eqn:Hw.
      + injection Hl' as <-. apply (Hk k v'); [rewrite Hlow; exact H1|exact Hw].
      + rewrite Hlow in Hl'.
        destruct (headers_of_names self raw k (ex_intro _ v Hl')) as [Hk'|Hk']; subst k.
        * rewrite headers_of_cache_control in Hl'. injection Hl' as <-.
          change "cache-control" with (PyStr.lower "Cache-Control") in Hw |- *.
          rewrite wire_get_lower in Hw |- *. apply Hc. exact Hw.
        * rewrite headers_of_content_encoding in Hl'.
          destruct (Ref.should self raw) eqn:Hs; [|discriminate].
          injection Hl' as <-.
          change "content-encoding" with (PyStr.lower "Content-Encoding") in Hw |- *.
          rewrite wire_get_lower in Hw |- *. apply Hg; [reflexivity|exact Hw]. }
  split; [exact Hgen|].
  intros Hnil. rewrite Hgen, Hnil. cbn [wire_get]. split.
  - intros (He & _ & Hc & Hg). split; [exact He|]. split; [apply Hc; reflexivity|].
    intros Hs. apply Hg; [exact Hs|reflexivity].
  - intros (He & Hc & Hg). split; [exact He|]. split; [intros name v _ H; discriminate H|].
    split; [intros _; exact Hc|intros Hs _; apply Hg; exact Hs].
Qed.

Lemma unchanged_iff_three_headers_witness :
  exists (b sc : bool) (p : string),
    fst ((FileM.build_headers (Sample.in_sync Sample.page_raw) Sample.page ;;
          FileM.preDeployFile (Sample.in_sync Sample.page_raw) Sample.page ;;
          FileM.changed (Sample.in_sync Sample.page_raw) Sample.page)%py fresh) = Ok b /\
    fst (FileM.shouldCompress (Sample.in_sync Sample.page_raw) Sample.page fresh) = Ok sc /\
    fst (FileM.payload (Sample.in_sync Sample.page_raw) Sample.page fresh) = Ok p /\
    (b = false <->
     PyStr.strip "034" <$> wire_get "ETag" Sample.page_headers = Some (Sample.toy_md5 p) /\
     (forall name v,
        PyStr.lower name <> "etag" ->
        wire_get name (hook_headers (Sample.in_sync Sample.page_raw)) = Some v ->
        PyStr.strip "034" <$> wire_get name Sample.page_headers = Some v) /\
     (wire_get "Cache-Control" (hook_headers (Sample.in_sync Sample.page_raw)) = None ->
      PyStr.strip "034" <$> wire_get "Cache-Control" Sample.page_headers
      = Some "max-age=604800") /\
     (sc = true ->
      wire_get "Content-Encoding" (hook_headers (Sample.in_sync Sample.page_raw)) = None ->
      PyStr.strip "034" <$> wire_get "Content-Encoding" Sample.page_headers = Some "gzip")) /\
    (hook_headers (Sample.in_sync Sample.page_raw) = [] ->
     (b = false <->
      PyStr.strip "034" <$> wire_get "ETag" Sample.page_headers = Some (Sample.toy_md5 p) /\
      PyStr.strip "034" <$> wire_get "Cache-Control" Sample.page_headers
      = Some "max-age=604800" /\
      (sc = true ->
       PyStr.strip "034" <$> wire_get "Content-Encoding" Sample.page_headers = Some "gzip"))).
Proof.
  refine (unchanged_iff_three_headers (Sample.in_sync Sample.page_raw) Sample.page
                                      Sample.page_raw fresh _ _ _ _).
  - constructor; [reflexivity | left; reflexivity | left; reflexivity | reflexivity].
  - reflexivity.
  - reflexivity.
Defined.
